(** * smart-roll: the academic-record aggregation and access-control layer

    A shallow embedding of the PostgreSQL schema and of the helper
    functions (RPCs) of the repository, and the properties of them that
    the specification states.

    Tables are lists of rows (bags, in storage order); a nullable column is
    an [option]; a query is the composition of the relational operators of
    module [SQL], which follow PostgreSQL: three-valued logic in [WHERE] and
    [ON], aggregates that skip NULL, a division that raises
    [division_by_zero].  [numeric] values are rationals.  The quotient of
    the grade point averages is what the functions return, and it is
    rounded as PostgreSQL rounds it ([numeric_div]: a result scale of
    sixteen significant digits or more, half away from zero).  The
    quotient of the attendance percentage is truncated to two decimals
    at once, and its rounding does not reach the second decimal for a
    number of class days that the [DATE] type admits; it is taken exact
    ([sql_div]).  [TRUNC(x, 2)] keeps the scale, so that [80.00] is
    [8000 # 100]. *)

From Stdlib Require Import String List ZArith QArith Qround Qabs Qpower.
From Stdlib Require Import Lia Bool.
From Stdlib Require Import Sorted Permutation Lqa.
Import ListNotations.
Open Scope Z_scope.

(* ================================================================== *)
(** * SQL: values, three-valued logic, aggregates, joins *)

Module SQL.

(** Errors a statement can raise (SQLSTATE class in the comment). *)
Inductive sql_error : Type :=
| division_by_zero        (* 22012 *)
| unique_violation        (* 23505 *)
| check_violation         (* 23514 *)
| insufficient_privilege. (* 42501 *)

Inductive result (A : Type) : Type :=
| Ok (a : A)
| Error (e : sql_error).
Arguments Ok {A} a.
Arguments Error {A} e.

Definition bind {A B} (m : result A) (k : A -> result B) : result B :=
  match m with
  | Ok a => k a
  | Error e => Error e
  end.

Fixpoint mapM {A B} (f : A -> result B) (l : list A) : result (list B) :=
  match l with
  | [] => Ok []
  | a :: l' =>
      bind (f a) (fun b => bind (mapM f l') (fun bs => Ok (b :: bs)))
  end.

(** A boolean expression evaluates to TRUE, FALSE or NULL. *)
Definition tri := option bool.

Definition sql_and (a b : tri) : tri :=
  match a, b with
  | Some false, _ | _, Some false => Some false
  | Some true, Some true => Some true
  | _, _ => None
  end.

Definition sql_or (a b : tri) : tri :=
  match a, b with
  | Some true, _ | _, Some true => Some true
  | Some false, Some false => Some false
  | _, _ => None
  end.

Definition sql_not (a : tri) : tri := option_map negb a.

(** [WHERE], [ON], [FILTER] and [CASE WHEN] keep a row only when the
    condition is TRUE. *)
Definition holds (c : tri) : bool :=
  match c with
  | Some true => true
  | _ => false
  end.

(** A [CHECK] constraint rejects a row only when the condition is
    FALSE. *)
Definition check_passes (c : tri) : bool :=
  match c with
  | Some false => false
  | _ => true
  end.

(** Comparison operators are strict: NULL when an operand is NULL. *)
Definition sql_cmp {A} (op : A -> A -> bool) (a b : option A) : tri :=
  match a, b with
  | Some x, Some y => Some (op x y)
  | _, _ => None
  end.

Definition is_null {A} (a : option A) : tri :=
  match a with
  | None => Some true
  | Some _ => Some false
  end.

Definition is_not_null {A} (a : option A) : tri := sql_not (is_null a).

(** A condition over NOT NULL columns is never NULL. *)
Definition lit (b : bool) : tri := Some b.

(** Numeric literals keep their scale: [0.0] and [100.0]. *)
Definition num_0_0 : Q := 0 # 10.
Definition num_100_0 : Q := 1000 # 10.

(** A [UNIQUE] or [PRIMARY KEY] constraint over non-null keys. *)
Fixpoint distinctb {K} (eqb : K -> K -> bool) (l : list K) : bool :=
  match l with
  | [] => true
  | k :: l' => negb (existsb (eqb k) l') && distinctb eqb l'
  end.

Definition coalesce {A} (a : option A) (dflt : A) : A :=
  match a with
  | Some x => x
  | None => dflt
  end.

(** [SUM] skips NULL inputs and is NULL when no input is left. *)
Fixpoint sql_sum (l : list (option Q)) : option Q :=
  match l with
  | [] => None
  | None :: l' => sql_sum l'
  | Some x :: l' =>
      match sql_sum l' with
      | None => Some x
      | Some s => Some (x + s)%Q
      end
  end.

Definition sql_mul (a b : option Q) : option Q :=
  match a, b with
  | Some x, Some y => Some (x * y)%Q
  | _, _ => None
  end.

(** [/] on numeric, taken exact: strict in NULL, raises on a zero
    divisor. *)
Definition sql_div (a b : option Q) : result (option Q) :=
  match a, b with
  | Some x, Some y =>
      if Qeq_bool y 0 then Error division_by_zero else Ok (Some (x / y)%Q)
  | _, _ => Ok None
  end.

(** [/] on numeric as [numeric_div] computes it.  A numeric is a string
    of digits in base 10000; [select_div_scale] reads the weight and the
    value of the first non-zero digit of either operand, estimates the
    weight of the quotient from them, and chooses the result scale that
    yields sixteen significant digits, and no fewer decimals than either
    operand displays; the quotient is then rounded to that scale, half
    away from zero. *)
Definition NBASE : Z := 10000.
Definition DEC_DIGITS : Z := 4.
Definition NUMERIC_MIN_SIG_DIGITS : Z := 16.
Definition NUMERIC_MIN_DISPLAY_SCALE : Z := 0.
Definition NUMERIC_MAX_DISPLAY_SCALE : Z := 1000.

(** The number of times [n >= 1] can be divided by the base before it
    is a single digit. *)
Fixpoint log_nbase (fuel : nat) (n : Z) : Z :=
  match fuel with
  | O => 0
  | S f => if n <? NBASE then 0 else 1 + log_nbase f (n / NBASE)
  end.

(** The weight of the first non-zero digit of [x]: the [w] with
    [10000 ^ w <= |x| < 10000 ^ (w + 1)]; 0 for zero. *)
Definition numeric_weight (x : Q) : Z :=
  let a := Z.abs (Qnum x) in
  let b := Zpos (Qden x) in
  if a =? 0 then 0
  else if b <=? a then log_nbase (Z.to_nat (Z.log2 a)) (a / b)
  else - (1 + log_nbase (Z.to_nat (Z.log2 b)) ((b - 1) / a)).

(** The first non-zero digit of [x]; 0 for zero. *)
Definition numeric_first_digit (x : Q) : Z :=
  Qfloor (Qabs x / inject_Z NBASE ^ numeric_weight x).

(** "If the two first digits are equal, we can't be sure, but assume
    that var1 is less than var2." *)
Definition estimate_qweight (x y : Q) : Z :=
  let qweight := numeric_weight x - numeric_weight y in
  if numeric_first_digit x <=? numeric_first_digit y
  then qweight - 1 else qweight.

Definition select_div_scale (x : Q) (dscale1 : Z) (y : Q) (dscale2 : Z)
  : Z :=
  let qweight := estimate_qweight x y in
  let rscale := NUMERIC_MIN_SIG_DIGITS - qweight * DEC_DIGITS in
  let rscale := Z.max rscale dscale1 in
  let rscale := Z.max rscale dscale2 in
  let rscale := Z.max rscale NUMERIC_MIN_DISPLAY_SCALE in
  Z.min rscale NUMERIC_MAX_DISPLAY_SCALE.

(** Round to [rscale] decimals, half away from zero; the result has
    scale [rscale]. *)
Definition round_var (x : Q) (rscale : Z) : Q :=
  let s := Z.to_pos (10 ^ rscale) in
  Qmake (Z.sgn (Qnum x) * Qfloor (Qabs x * inject_Z (Zpos s) + (1 # 2))) s.

(** Strict in NULL, raises on a zero divisor; [dscale1] and [dscale2]
    are the display scales of the operands. *)
Definition numeric_div (dscale1 dscale2 : Z) (a b : option Q)
  : result (option Q) :=
  match a, b with
  | Some x, Some y =>
      if Qeq_bool y 0 then Error division_by_zero
      else Ok (Some (round_var (x / y)
                               (select_div_scale x dscale1 y dscale2)))
  | _, _ => Ok None
  end.

(** [TRUNC(x, d)]: drop the digits after the [d]-th decimal, towards
    zero; the result has scale [d]. *)
Definition sql_trunc (x : Q) (d : nat) : Q :=
  let s := Z.to_pos (10 ^ Z.of_nat d) in
  Qmake (Z.quot (Qnum x * Zpos s) (Zpos (Qden x))) s.

(** [COUNT(DISTINCT x)] over non-null values. *)
Definition count_distinct (l : list Z) : Z :=
  Z.of_nat (length (nodup Z.eq_dec l)).

(** [COUNT(x) FILTER (WHERE c)]: the rows where [x] is not NULL and [c]
    is TRUE. *)
Definition count_filter {A} (c : A -> bool) (l : list A) : Z :=
  Z.of_nat (length (filter c l)).

(** [l JOIN r ON on]. *)
Definition inner_join {A B} (on : A -> B -> bool)
           (l : list A) (r : list B) : list (A * B) :=
  flat_map (fun a => map (pair a) (filter (on a) r)) l.

(** [l LEFT JOIN r ON on]: a row of [l] without a match is kept once,
    with NULLs on the right. *)
Definition left_join {A B} (on : A -> B -> bool)
           (l : list A) (r : list B) : list (A * option B) :=
  flat_map (fun a =>
              match filter (on a) r with
              | [] => [(a, None)]
              | m => map (fun b => (a, Some b)) m
              end) l.

(** [GROUP BY key]: one group per distinct key.  SQL leaves the order of
    the groups open; here it is that of the last row of each group. *)
Definition group_by {A K} (dec : forall x y : K, {x = y} + {x <> y})
           (key : A -> K) (rows : list A) : list (K * list A) :=
  map (fun k => (k, filter (fun r => if dec (key r) k then true else false)
                           rows))
      (nodup dec (map key rows)).

(** [ORDER BY key DESC]: a stable insertion sort; [geb a b] says that
    [a] may stand before [b]. *)
Fixpoint insert_desc {A} (geb : A -> A -> bool) (x : A) (l : list A)
  : list A :=
  match l with
  | [] => [x]
  | y :: l' => if geb x y then x :: l else y :: insert_desc geb x l'
  end.

Definition order_by_desc {A} (geb : A -> A -> bool) (l : list A)
  : list A :=
  fold_right (insert_desc geb) [] l.

(** [LIMIT 1] into a variable: the first row, NULL when there is none. *)
Definition limit_1 {A} (l : list A) : option A := hd_error l.

End SQL.
Import SQL.

Notation "x <- m ;; k" := (bind m (fun x => k))
  (at level 61, m at next level, right associativity).
Infix "&&&" := sql_and (at level 40, left associativity).
Infix "|||" := sql_or (at level 50, left associativity).

(* ================================================================== *)
(** * The schema

    Only the columns that the functions below read are kept
    (no password hash, timestamps, picture or embedding).  A column
    declared without [NOT NULL] is an [option], also when it carries a
    [CHECK]: a [CHECK] accepts NULL. *)

Definition uuid := Z.
Definition date := Z.          (* DATE: a day number *)
Definition timestamptz := Z.   (* TIMESTAMPTZ: an instant *)

Inductive user_role := admin | teacher | student | ta.
Inductive stream_type := CSE | DSE | EE | COMMON.
Inductive enrollment_status := enrolled | completed | dropped.
Inductive attendance_status := present | absent.
Inductive semester_season := Fall | Spring | Summer.

Definition user_role_eqb (a b : user_role) : bool :=
  match a, b with
  | admin, admin | teacher, teacher | student, student | ta, ta => true
  | _, _ => false
  end.

Definition stream_type_eqb (a b : stream_type) : bool :=
  match a, b with
  | CSE, CSE | DSE, DSE | EE, EE | COMMON, COMMON => true
  | _, _ => false
  end.

Definition enrollment_status_eqb (a b : enrollment_status) : bool :=
  match a, b with
  | enrolled, enrolled | completed, completed | dropped, dropped => true
  | _, _ => false
  end.

Definition attendance_status_eqb (a b : attendance_status) : bool :=
  match a, b with
  | present, present | absent, absent => true
  | _, _ => false
  end.

Definition semester_season_eqb (a b : semester_season) : bool :=
  match a, b with
  | Fall, Fall | Spring, Spring | Summer, Summer => true
  | _, _ => false
  end.

Record user := {
  u_user_id : uuid;
  u_full_name : string;
  u_role : user_role
}.

Record student_row := {
  s_student_id : uuid;
  s_roll_number : string;
  s_stream : stream_type;
  s_current_semester : option Z
}.

Record course := {
  c_course_id : uuid;
  c_course_code : string;
  c_course_name : string;
  c_stream : stream_type;
  c_credits : option Z;
  c_logical_semester : option Z
}.

Record semester := {
  sem_semester_id : uuid;
  sem_academic_year : string;
  sem_season : semester_season;
  sem_start_date : option date;
  sem_registration_start_date : timestamptz;
  sem_registration_end_date : timestamptz;
  sem_is_active : option bool
}.

Record course_offering := {
  co_offering_id : uuid;
  co_course_id : uuid;
  co_teacher_id : uuid;
  co_semester_id : option uuid
}.

Record enrollment := {
  e_enrollment_id : uuid;
  e_student_id : uuid;
  e_offering_id : uuid;
  e_grade : option string;
  e_grade_point : option Q;
  e_status : enrollment_status
}.

Record attendance_record := {
  ar_attendance_id : uuid;
  ar_offering_id : uuid;
  ar_student_id : uuid;
  ar_date : date;
  ar_status : attendance_status
}.

Record course_ta := {
  ct_id : uuid;
  ct_offering_id : uuid;
  ct_ta_id : uuid
}.

(** The state of the database. *)
Record db := {
  users : list user;
  students : list student_row;
  courses : list course;
  semesters : list semester;
  course_offerings : list course_offering;
  enrollments : list enrollment;
  attendance_records : list attendance_record;
  course_tas : list course_ta
}.

(** ** Constraints of the schema *)

Definition pair_eqb (a b : Z * Z) : bool :=
  (fst a =? fst b) && (snd a =? snd b).

Definition triple_eqb (a b : Z * Z * Z) : bool :=
  pair_eqb (fst a) (fst b) && (snd a =? snd b).

Definition year_season_eqb (a b : string * semester_season) : bool :=
  String.eqb (fst a) (fst b) && semester_season_eqb (snd a) (snd b).

(** [CHECK (current_semester > 0 AND current_semester <= 8)]. *)
Definition students_check (s : student_row) : bool :=
  check_passes (sql_cmp Z.gtb (s_current_semester s) (Some 0)
                &&& sql_cmp Z.leb (s_current_semester s) (Some 8)).

(** [CHECK (credits > 0)] and
    [CHECK (logical_semester > 0 AND logical_semester <= 8)]. *)
Definition courses_check (c : course) : bool :=
  check_passes (sql_cmp Z.gtb (c_credits c) (Some 0))
  && check_passes (sql_cmp Z.gtb (c_logical_semester c) (Some 0)
                   &&& sql_cmp Z.leb (c_logical_semester c) (Some 8)).

(** Primary keys, [UNIQUE] constraints, [CHECK]s and the foreign keys that
    the functions join along. *)
Record schema (d : db) : Prop := {
  users_pkey : distinctb Z.eqb (map u_user_id (users d)) = true;
  students_pkey : distinctb Z.eqb (map s_student_id (students d)) = true;
  courses_pkey : distinctb Z.eqb (map c_course_id (courses d)) = true;
  semesters_pkey :
    distinctb Z.eqb (map sem_semester_id (semesters d)) = true;
  course_offerings_pkey :
    distinctb Z.eqb (map co_offering_id (course_offerings d)) = true;
  semesters_academic_year_season_unique :
    distinctb year_season_eqb
      (map (fun s => (sem_academic_year s, sem_season s)) (semesters d))
    = true;
  enrollments_student_offering_unique :
    distinctb pair_eqb
      (map (fun e => (e_student_id e, e_offering_id e)) (enrollments d))
    = true;
  attendance_offering_student_date_unique :
    distinctb triple_eqb
      (map (fun ar => (ar_offering_id ar, ar_student_id ar, ar_date ar))
           (attendance_records d))
    = true;
  students_current_semester_check :
    forallb students_check (students d) = true;
  courses_checks : forallb courses_check (courses d) = true;
  students_user_fkey :
    forallb (fun s => existsb (fun u => u_user_id u =? s_student_id s)
                              (users d)) (students d) = true;
  enrollments_student_fkey :
    forallb (fun e => existsb (fun s => s_student_id s =? e_student_id e)
                              (students d)) (enrollments d) = true;
  course_offerings_course_fkey :
    forallb (fun co => existsb (fun c => c_course_id c =? co_course_id co)
                               (courses d)) (course_offerings d) = true;
  course_offerings_semester_fkey :
    forallb (fun co =>
               match co_semester_id co with
               | None => true
               | Some i => existsb (fun s => sem_semester_id s =? i)
                                   (semesters d)
               end) (course_offerings d) = true
}.

(** ** Column types *)

(** [DECIMAL(4, 2)]: four digits, two of them after the point. *)
Definition decimal_4_2 (x : Q) : bool :=
  (Qnum x * 100 mod Zpos (Qden x) =? 0)
  && (Z.abs (Qnum x * 100 / Zpos (Qden x)) <=? 9999).

(** [enrollments.grade_point] is a [DECIMAL(4, 2)]; a rational is a
    wider type, and the states in which the column holds what its type
    admits are these. *)
Definition grade_points_typed (d : db) : Prop :=
  forallb (fun e => match e_grade_point e with
                    | Some gp => decimal_4_2 gp
                    | None => true
                    end) (enrollments d) = true.

(* ================================================================== *)
(** * The helper functions (RPCs) *)

(** 1. [increment_all_student_semesters]:
    [UPDATE students SET current_semester = current_semester + 1
     WHERE current_semester < 8]. *)
Definition increment_all_student_semesters (d : db) : db :=
  {| users := users d;
     students :=
       map (fun s =>
              if holds (sql_cmp Z.ltb (s_current_semester s) (Some 8))
              then {| s_student_id := s_student_id s;
                      s_roll_number := s_roll_number s;
                      s_stream := s_stream s;
                      s_current_semester :=
                        option_map (fun n => n + 1) (s_current_semester s) |}
              else s)
           (students d);
     courses := courses d;
     semesters := semesters d;
     course_offerings := course_offerings d;
     enrollments := enrollments d;
     attendance_records := attendance_records d;
     course_tas := course_tas d |}.

(** 2. [get_total_class_days]:
    [SELECT COUNT(DISTINCT date) FROM attendance_records
     WHERE offering_id = o_id]. *)
Definition get_total_class_days (d : db) (o_id : uuid) : Z :=
  count_distinct
    (map ar_date
         (filter (fun ar => ar_offering_id ar =? o_id)
                 (attendance_records d))).

(** 3. [get_course_attendance_stats]. *)
Record attendance_stats := {
  student_id : uuid;
  full_name : string;
  roll_number : string;
  total_classes : Z;
  attended_classes : Z;
  attendance_percentage : option Q
}.

(** A row of [enrollments e JOIN students s JOIN users u
    LEFT JOIN attendance_records ar]. *)
Definition stats_row : Type :=
  enrollment * student_row * user * option attendance_record.

(** The [GROUP BY] key:
    [s.student_id, u.full_name, s.roll_number, total_class_days]. *)
Definition stats_key : Type := uuid * string * string * option Z.

Definition stats_key_dec (a b : stats_key) : {a = b} + {a <> b}.
Proof.
  repeat decide equality; try apply Z.eq_dec; apply string_dec.
Defined.

Definition stats_key_of (total_class_days : option Z) (r : stats_row)
  : stats_key :=
  let '(e, s, u, ar) := r in
  (s_student_id s, u_full_name u, s_roll_number s, total_class_days).

(** [ar.status = 'present'] on the nullable side of the left join. *)
Definition is_present (r : stats_row) : bool :=
  let '(e, s, u, ar) := r in
  holds (sql_cmp attendance_status_eqb (option_map ar_status ar)
                 (Some present)).

Definition stats_from (d : db) : list stats_row :=
  left_join
    (fun '(e, s, u) ar =>
       (e_offering_id e =? ar_offering_id ar)
       && (e_student_id e =? ar_student_id ar))
    (inner_join
       (fun '(e, s) u => s_student_id s =? u_user_id u)
       (inner_join (fun e s => e_student_id e =? s_student_id s)
                   (enrollments d) (students d))
       (users d))
    (attendance_records d).

Definition stats_select (g : stats_key * list stats_row)
  : result attendance_stats :=
  let '(sid, name, roll, total_class_days) := fst g in
  let attended := count_filter is_present (snd g) in
  pct <- (if coalesce total_class_days 0 >? 0
          then q <- sql_div (Some (inject_Z attended * num_100_0)%Q)
                            (option_map inject_Z total_class_days) ;;
               Ok (option_map (fun x => sql_trunc x 2) q)
          else Ok (Some num_0_0)) ;;
  Ok {| student_id := sid;
        full_name := name;
        roll_number := roll;
        total_classes := coalesce total_class_days 0;
        attended_classes := attended;
        attendance_percentage := pct |}.

Definition get_course_attendance_stats (d : db) (o_id : uuid)
  : result (list attendance_stats) :=
  let total_class_days : option Z := Some (get_total_class_days d o_id) in
  let rows :=
    filter (fun '(e, s, u, ar) =>
              (e_offering_id e =? o_id)
              && enrollment_status_eqb (e_status e) enrolled)
           (stats_from d) in
  mapM stats_select
       (group_by stats_key_dec (stats_key_of total_class_days) rows).

(** 4. and 5. share their [SELECT] list:
    [COALESCE(SUM(c.credits * e.grade_point) / SUM(c.credits), 0.0)].
    [c.credits * e.grade_point] is an [INTEGER] times a [DECIMAL(4, 2)],
    a numeric of scale 2, and so is its [SUM]; the [SUM] of the
    [INTEGER]s is a [BIGINT], taken to numeric with scale 0. *)
Definition select_gpa (rows : list (course * enrollment)) : result Q :=
  q <- numeric_div 2 0
         (sql_sum (map (fun '(c, e) =>
                          sql_mul (option_map inject_Z (c_credits c))
                                  (e_grade_point e)) rows))
         (sql_sum (map (fun '(c, e) => option_map inject_Z (c_credits c))
                       rows)) ;;
  Ok (coalesce q num_0_0).

(** 4. [get_student_sgpa]. *)
Definition get_student_sgpa (d : db) (s_id target_sem_id : uuid)
  : result Q :=
  let from :=
    inner_join (fun '(e, co) c => co_course_id co =? c_course_id c)
      (inner_join (fun e co => e_offering_id e =? co_offering_id co)
                  (enrollments d) (course_offerings d))
      (courses d) in
  let rows :=
    filter (fun '(e, co, c) =>
              holds (lit (e_student_id e =? s_id)
                     &&& lit (enrollment_status_eqb (e_status e) completed)
                     &&& is_not_null (e_grade_point e)
                     &&& sql_cmp Z.eqb (co_semester_id co)
                                 (Some target_sem_id)))
           from in
  select_gpa (map (fun '(e, co, c) => (c, e)) rows).

(** 5. [get_student_cgpa]; [max_sem_date] defaults to NULL. *)
Definition get_student_cgpa (d : db) (s_id : uuid)
           (max_sem_date : option date) : result Q :=
  let from :=
    inner_join (fun '(e, co, s) c => co_course_id co =? c_course_id c)
      (inner_join
         (fun '(e, co) s =>
            holds (sql_cmp Z.eqb (co_semester_id co)
                           (Some (sem_semester_id s))))
         (inner_join (fun e co => e_offering_id e =? co_offering_id co)
                     (enrollments d) (course_offerings d))
         (semesters d))
      (courses d) in
  let rows :=
    filter (fun '(e, co, s, c) =>
              holds (lit (e_student_id e =? s_id)
                     &&& lit (enrollment_status_eqb (e_status e) completed)
                     &&& is_not_null (e_grade_point e)
                     &&& (is_null max_sem_date
                          ||| sql_cmp Z.leb (sem_start_date s)
                                      max_sem_date)))
           from in
  select_gpa (map (fun '(e, co, s, c) => (c, e)) rows).

(** 7. [get_teacher_offerings_with_status]. *)
Record teacher_offering := {
  offering_id : uuid;
  course_id : uuid;
  teacher_id : uuid;
  semester_id : option uuid;
  logical_semester : option Z;
  academic_year : string;
  season : semester_season;
  course_code : string;
  course_name : string;
  stream : stream_type;
  is_completed : bool
}.

(** [ORDER BY ... DESC] puts NULL first. *)
Definition desc_nulls_first (a b : option date) : bool :=
  match a, b with
  | None, _ => true
  | Some _, None => false
  | Some x, Some y => y <=? x
  end.

(** The joined, filtered and ordered rows, before the [SELECT] list. *)
Definition teacher_offerings_rows (d : db) (t_id : uuid)
  : list (course_offering * course * semester) :=
  order_by_desc
    (fun '(_, _, s1) '(_, _, s2) =>
       desc_nulls_first (sem_start_date s1) (sem_start_date s2))
    (filter (fun '(co, c, s) => co_teacher_id co =? t_id)
       (inner_join
          (fun '(co, c) s =>
             holds (sql_cmp Z.eqb (co_semester_id co)
                            (Some (sem_semester_id s))))
          (inner_join (fun co c => co_course_id co =? c_course_id c)
                      (course_offerings d) (courses d))
          (semesters d))).

Definition teacher_offerings_select (d : db)
           (r : course_offering * course * semester) : teacher_offering :=
  let '(co, c, s) := r in
  {| offering_id := co_offering_id co;
     course_id := co_course_id co;
     teacher_id := co_teacher_id co;
     semester_id := co_semester_id co;
     logical_semester := c_logical_semester c;
     academic_year := sem_academic_year s;
     season := sem_season s;
     course_code := c_course_code c;
     course_name := c_course_name c;
     stream := c_stream c;
     is_completed :=
       existsb (fun e => (e_offering_id e =? co_offering_id co)
                         && enrollment_status_eqb (e_status e) completed)
               (enrollments d) |}.

Definition get_teacher_offerings_with_status (d : db) (t_id : uuid)
  : list teacher_offering :=
  map (teacher_offerings_select d) (teacher_offerings_rows d t_id).

(** 8. [get_available_offerings_for_student]; [now] is [NOW()].  The JSON
    array is the list of its elements: the offering's columns ([co.*])
    and the [course] object. *)
Record available_offering := {
  ao_offering : course_offering;
  ao_course : course
}.

(** The condition of the query that selects [active_sem_id]. *)
Definition registration_open (now : timestamptz) (s : semester) : bool :=
  holds (sql_cmp Bool.eqb (sem_is_active s) (Some true)
         &&& lit (sem_registration_start_date s <? now)
         &&& lit (sem_registration_end_date s >? now)).

Definition get_available_offerings_for_student
           (d : db) (now : timestamptz) (s_id : uuid)
  : list available_offering :=
  let found := limit_1 (filter (fun s => s_student_id s =? s_id)
                               (students d)) in
  let student_semester : option Z :=
    match found with Some s => s_current_semester s | None => None end in
  let student_stream : option stream_type := option_map s_stream found in
  let active_sem_id : option uuid :=
    option_map sem_semester_id
               (limit_1 (filter (registration_open now) (semesters d))) in
  match active_sem_id with
  | None => []
  | Some _ =>
      map (fun '(co, c) => {| ao_offering := co; ao_course := c |})
        (filter
           (fun '(co, c) =>
              holds (sql_cmp Z.eqb (co_semester_id co) active_sem_id
                     &&& (sql_cmp stream_type_eqb (Some (c_stream c))
                                  student_stream
                          ||| lit (stream_type_eqb (c_stream c) COMMON))
                     &&& (sql_cmp Z.eqb (c_logical_semester c)
                                  student_semester
                          ||| is_null (c_logical_semester c))
                     &&& lit (negb
                                (existsb
                                   (fun e =>
                                      (e_student_id e =? s_id)
                                      && (e_offering_id e
                                          =? co_offering_id co))
                                   (enrollments d)))))
           (inner_join (fun co c => co_course_id co =? c_course_id c)
                       (course_offerings d) (courses d)))
  end.

(* ================================================================== *)
(** * The API surface

    The HTTP handlers are not among the sources: the pages under the
    sources call them, and the schema declares what they store.  The two
    handlers that the scenarios of the specification exercise are
    modelled from it. *)


(** ** Reading the attendance records of an offering *)







(** ** Starting a registration period *)







(* ================================================================== *)
(** * The quantities the specification speaks of *)

(** TotalClassDays(offering) is [get_total_class_days]. *)

(** present_count(student, offering): the student's 'present' records in
    the offering. *)
Definition present_count (d : db) (s_id o_id : uuid) : Z :=
  Z.of_nat
    (length
       (filter (fun ar =>
                  (o_id =? ar_offering_id ar)
                  && (s_id =? ar_student_id ar)
                  && attendance_status_eqb (ar_status ar) present)
               (attendance_records d))).

(** [present / total * 100], truncated to 2 decimals; 0.0 without class
    days. *)
Definition percentage_of (present_ total : Z) : Q :=
  if total =? 0 then num_0_0
  else sql_trunc (inject_Z present_ / inject_Z total * 100)%Q 2.

(** The students enrolled (status 'enrolled') in an offering. *)
Definition is_enrolled_in (d : db) (o_id s_id : uuid) : Prop :=
  exists e, In e (enrollments d)
            /\ e_student_id e = s_id
            /\ e_offering_id e = o_id
            /\ e_status e = enrolled.

Definition Qsum (l : list Q) : Q := fold_right Qplus 0%Q l.

(** [Σ(credits·grade_point) / Σ(credits)], 0.0 over no course. *)
Definition weighted_average (l : list (Z * Q)) : Q :=
  match l with
  | [] => num_0_0
  | _ => (Qsum (map (fun '(cr, gp) => inject_Z cr * gp) l)
          / Qsum (map (fun '(cr, _) => inject_Z cr) l))%Q
  end.

(** The row of a table with a given primary key. *)
Definition lookup_offering (d : db) (i : uuid) : option course_offering :=
  find (fun co => i =? co_offering_id co) (course_offerings d).

Definition lookup_course (d : db) (i : uuid) : option course :=
  find (fun c => i =? c_course_id c) (courses d).

Definition lookup_semester (d : db) (i : uuid) : option semester :=
  find (fun s => i =? sem_semester_id s) (semesters d).

Definition lookup_student (d : db) (i : uuid) : option student_row :=
  find (fun s => i =? s_student_id s) (students d).

(** The credits and the grade point of an enrollment, when it is
    completed and graded, its offering is in [scope] and its course
    carries credits. *)
Definition graded_credit (d : db) (scope : course_offering -> bool)
           (e : enrollment) : option (Z * Q) :=
  match e_status e, e_grade_point e, lookup_offering d (e_offering_id e) with
  | completed, Some gp, Some co =>
      if scope co then
        match lookup_course d (co_course_id co) with
        | Some c => option_map (fun cr => (cr, gp)) (c_credits c)
        | None => None
        end
      else None
  | _, _, _ => None
  end.

Definition graded_credits (d : db) (scope : course_offering -> bool)
           (s_id : uuid) : list (Z * Q) :=
  flat_map (fun e =>
              if e_student_id e =? s_id then
                match graded_credit d scope e with
                | Some x => [x]
                | None => []
                end
              else [])
           (enrollments d).

(** The offering belongs to the semester. *)
Definition in_semester (sem_id : uuid) (co : course_offering) : bool :=
  match co_semester_id co with
  | Some i => i =? sem_id
  | None => false
  end.

(** The offering has a semester, and with a cutoff that semester started
    on or before it. *)
Definition started_by (d : db) (cutoff : option date)
           (co : course_offering) : bool :=
  match co_semester_id co with
  | Some i =>
      match lookup_semester d i, cutoff with
      | Some s, Some c =>
          match sem_start_date s with
          | Some sd => sd <=? c
          | None => false
          end
      | Some s, None => true
      | None, _ => false
      end
  | None => false
  end.

(** CGPA in the words of the specification: the weighted average over all
    the completed enrollments of the student, with a cutoff over those
    whose semester started on or before it; undefined ([None]) when one of
    them has no grade point or no credits to average. *)
Definition spec_credit (d : db) (e : enrollment) : option (Z * Q) :=
  match e_grade_point e, lookup_offering d (e_offering_id e) with
  | Some gp, Some co =>
      match lookup_course d (co_course_id co) with
      | Some c => option_map (fun cr => (cr, gp)) (c_credits c)
      | None => None
      end
  | _, _ => None
  end.

Fixpoint all_some {A} (l : list (option A)) : option (list A) :=
  match l with
  | [] => Some []
  | None :: _ => None
  | Some a :: l' => option_map (cons a) (all_some l')
  end.

Definition spec_cgpa (d : db) (s_id : uuid) (cutoff : option date)
  : option Q :=
  let es :=
    filter (fun e =>
              (e_student_id e =? s_id)
              && enrollment_status_eqb (e_status e) completed
              && match cutoff with
                 | None => true
                 | Some _ =>
                     match lookup_offering d (e_offering_id e) with
                     | Some co => started_by d cutoff co
                     | None => false
                     end
                 end)
           (enrollments d) in
  option_map weighted_average (all_some (map (spec_credit d) es)).

(* ================================================================== *)
(** * A sample state

    Student 1 (CSE, third semester) is enrolled in offering 1000 of the
    open semester, with ten class days of which eight present, and has
    dropped offering 1003; student 5 has completed three offerings, one
    of which (902) lost its semester ([ON DELETE SET NULL]). *)

Module Sample.

Definition mk_enrollment (i s o : uuid) (st : enrollment_status)
           (g : option string) (gp : option Q) : enrollment :=
  {| e_enrollment_id := i; e_student_id := s; e_offering_id := o;
     e_grade := g; e_grade_point := gp; e_status := st |}.

Definition campus : db :=
  {| users :=
       [ {| u_user_id := 1; u_full_name := "Asha"; u_role := student |};
         {| u_user_id := 5; u_full_name := "Ravi"; u_role := student |};
         {| u_user_id := 2; u_full_name := "Meera"; u_role := teacher |};
         {| u_user_id := 3; u_full_name := "Vikram"; u_role := teacher |};
         {| u_user_id := 4; u_full_name := "Tara"; u_role := ta |} ];
     students :=
       [ {| s_student_id := 1; s_roll_number := "CS23B001";
            s_stream := CSE; s_current_semester := Some 3 |};
         {| s_student_id := 5; s_roll_number := "CS20B005";
            s_stream := CSE; s_current_semester := Some 8 |} ];
     courses :=
       [ {| c_course_id := 100; c_course_code := "CS301";
            c_course_name := "Operating Systems"; c_stream := CSE;
            c_credits := Some 4; c_logical_semester := Some 3 |};
         {| c_course_id := 101; c_course_code := "HS001";
            c_course_name := "Economics"; c_stream := COMMON;
            c_credits := Some 3; c_logical_semester := None |};
         {| c_course_id := 102; c_course_code := "EE201";
            c_course_name := "Circuits"; c_stream := EE;
            c_credits := Some 3; c_logical_semester := Some 3 |};
         {| c_course_id := 103; c_course_code := "CS302";
            c_course_name := "Databases"; c_stream := CSE;
            c_credits := Some 4; c_logical_semester := Some 3 |} ];
     semesters :=
       [ {| sem_semester_id := 9; sem_academic_year := "2024";
            sem_season := Spring; sem_start_date := Some 10;
            sem_registration_start_date := 1;
            sem_registration_end_date := 5;
            sem_is_active := Some false |};
         {| sem_semester_id := 10; sem_academic_year := "2025";
            sem_season := Fall; sem_start_date := Some 100;
            sem_registration_start_date := 50;
            sem_registration_end_date := 70;
            sem_is_active := Some true |} ];
     course_offerings :=
       [ {| co_offering_id := 900; co_course_id := 100;
            co_teacher_id := 2; co_semester_id := Some 9 |};
         {| co_offering_id := 901; co_course_id := 101;
            co_teacher_id := 3; co_semester_id := Some 9 |};
         {| co_offering_id := 902; co_course_id := 103;
            co_teacher_id := 3; co_semester_id := None |};
         {| co_offering_id := 1000; co_course_id := 100;
            co_teacher_id := 2; co_semester_id := Some 10 |};
         {| co_offering_id := 1001; co_course_id := 101;
            co_teacher_id := 3; co_semester_id := Some 10 |};
         {| co_offering_id := 1002; co_course_id := 102;
            co_teacher_id := 3; co_semester_id := Some 10 |};
         {| co_offering_id := 1003; co_course_id := 103;
            co_teacher_id := 2; co_semester_id := Some 10 |} ];
     enrollments :=
       [ mk_enrollment 1 1 1000 enrolled None None;
         mk_enrollment 2 5 900 completed (Some "B"%string) (Some 8%Q);
         mk_enrollment 3 5 901 completed (Some "A"%string) (Some 9%Q);
         mk_enrollment 4 5 902 completed (Some "B"%string) (Some 8%Q);
         mk_enrollment 5 1 1003 dropped None None ];
     attendance_records :=
       map (fun i =>
              {| ar_attendance_id := 5000 + i; ar_offering_id := 1000;
                 ar_student_id := 1; ar_date := i;
                 ar_status := if i <=? 8 then present else absent |})
           [1; 2; 3; 4; 5; 6; 7; 8; 9; 10];
     course_tas :=
       [ {| ct_id := 1; ct_offering_id := 1000; ct_ta_id := 4 |} ] |}.


(** A time inside the registration window of semester 10. *)
Definition now : timestamptz := 60.

End Sample.

(* ================================================================== *)
(** * The other helper functions *)

(** 6. [get_student_course_history]; [target_sem_id] defaults to NULL. *)
Module CourseHistory.

Record row := {
  course_code : string;
  course_name : string;
  semester_id : uuid;
  academic_year : string;
  season : semester_season;
  logical_semester : option Z;
  grade : option string;
  attendance_percentage : option Q
}.

End CourseHistory.

(** The correlated subquery of the [SELECT] list: the percentage of the
    enrollment's student in the enrollment's offering. *)
Definition history_percentage (d : db) (e : enrollment)
  : result (option Q) :=
  if get_total_class_days d (e_offering_id e) >? 0
  then q <- sql_div
              (Some (inject_Z
                       (Z.of_nat
                          (length
                             (filter
                                (fun ar =>
                                   (ar_student_id ar =? e_student_id e)
                                   && (ar_offering_id ar =? e_offering_id e)
                                   && attendance_status_eqb (ar_status ar)
                                                            present)
                                (attendance_records d))))
                     * num_100_0)%Q)
              (Some (inject_Z (get_total_class_days d (e_offering_id e)))) ;;
       Ok (option_map (fun x => sql_trunc x 2) q)
  else Ok (Some num_0_0).

Definition history_from (d : db)
  : list (enrollment * course_offering * semester * course) :=
  inner_join (fun '(e, co, s) c => co_course_id co =? c_course_id c)
    (inner_join
       (fun '(e, co) s =>
          holds (sql_cmp Z.eqb (co_semester_id co)
                         (Some (sem_semester_id s))))
       (inner_join (fun e co => e_offering_id e =? co_offering_id co)
                   (enrollments d) (course_offerings d))
       (semesters d))
    (courses d).

Definition history_where (s_id : uuid) (target_sem_id : option uuid)
           (r : enrollment * course_offering * semester * course) : bool :=
  let '(e, co, s, c) := r in
  holds (lit (e_student_id e =? s_id)
         &&& lit (enrollment_status_eqb (e_status e) completed)
         &&& is_not_null (e_grade e)
         &&& (is_null target_sem_id
              ||| sql_cmp Z.eqb (co_semester_id co) target_sem_id)).

Definition history_select (d : db)
           (r : enrollment * course_offering * semester * course)
  : result CourseHistory.row :=
  let '(e, co, s, c) := r in
  pct <- history_percentage d e ;;
  Ok {| CourseHistory.course_code := c_course_code c;
        CourseHistory.course_name := c_course_name c;
        CourseHistory.semester_id := sem_semester_id s;
        CourseHistory.academic_year := sem_academic_year s;
        CourseHistory.season := sem_season s;
        CourseHistory.logical_semester := c_logical_semester c;
        CourseHistory.grade := e_grade e;
        CourseHistory.attendance_percentage := pct |}.

Definition get_student_course_history (d : db) (s_id : uuid)
           (target_sem_id : option uuid) : result (list CourseHistory.row) :=
  mapM (history_select d)
       (filter (history_where s_id target_sem_id) (history_from d)).

(** 10. [get_student_current_attendance]. *)
Module CurrentAttendance.

Record row := {
  course_id : uuid;   (* the offering_id *)
  course_name : string;
  total_classes : Z;
  attended_classes : Z;
  attendance_percentage : option Q
}.

End CurrentAttendance.

(** A row of [enrollments e JOIN course_offerings co JOIN courses c
    LEFT JOIN attendance_records ar]. *)
Definition current_row : Type :=
  enrollment * course_offering * course * option attendance_record.

(** The [GROUP BY] key: [e.offering_id, c.course_name]. *)
Definition current_key : Type := uuid * string.

Definition current_key_dec (a b : current_key) : {a = b} + {a <> b}.
Proof.
  repeat decide equality; try apply Z.eq_dec; apply string_dec.
Defined.

Definition current_key_of (r : current_row) : current_key :=
  let '(e, co, c, ar) := r in (e_offering_id e, c_course_name c).

Definition current_is_present (r : current_row) : bool :=
  let '(e, co, c, ar) := r in
  holds (sql_cmp attendance_status_eqb (option_map ar_status ar)
                 (Some present)).

Definition current_from (d : db) : list current_row :=
  left_join
    (fun '(e, co, c) ar =>
       (e_offering_id e =? ar_offering_id ar)
       && (e_student_id e =? ar_student_id ar))
    (inner_join
       (fun '(e, co) c => co_course_id co =? c_course_id c)
       (inner_join (fun e co => e_offering_id e =? co_offering_id co)
                   (enrollments d) (course_offerings d))
       (courses d))
    (attendance_records d).

(** [SELECT current_semester INTO student_semester]. *)
Definition student_semester_of (d : db) (s_id : uuid) : option Z :=
  match limit_1 (filter (fun s => s_student_id s =? s_id) (students d)) with
  | Some s => s_current_semester s
  | None => None
  end.

Definition current_where (d : db) (s_id : uuid) (r : current_row) : bool :=
  let '(e, co, c, ar) := r in
  holds (lit (e_student_id e =? s_id)
         &&& lit (enrollment_status_eqb (e_status e) enrolled)
         &&& (sql_cmp Z.eqb (c_logical_semester c)
                      (student_semester_of d s_id)
              ||| is_null (c_logical_semester c))).

Definition current_select (d : db) (g : current_key * list current_row)
  : result CurrentAttendance.row :=
  let '(o, name) := fst g in
  let attended := count_filter current_is_present (snd g) in
  pct <- (if get_total_class_days d o >? 0
          then q <- sql_div (Some (inject_Z attended * num_100_0)%Q)
                            (Some (inject_Z (get_total_class_days d o))) ;;
               Ok (option_map (fun x => sql_trunc x 2) q)
          else Ok (Some num_0_0)) ;;
  Ok {| CurrentAttendance.course_id := o;
        CurrentAttendance.course_name := name;
        CurrentAttendance.total_classes := get_total_class_days d o;
        CurrentAttendance.attended_classes := attended;
        CurrentAttendance.attendance_percentage := pct |}.

Definition get_student_current_attendance (d : db) (s_id : uuid)
  : result (list CurrentAttendance.row) :=
  mapM (current_select d)
       (group_by current_key_dec current_key_of
                 (filter (current_where d s_id) (current_from d))).

(** 9. [get_student_current_courses].  The table [teachers] is not part
    of [db]; its rows are a parameter, reduced to their key.  The JSON
    array is the list of its elements. *)
Record teacher_row := {
  t_teacher_id : uuid
}.

Module CurrentCourses.

Record row := {
  course_id : uuid;
  course_code : string;
  course_name : string;
  teacher : string   (* the object with the one key full_name *)
}.

End CurrentCourses.

Definition current_courses_from (d : db) (teachers : list teacher_row)
  : list (enrollment * course_offering * course * teacher_row * user) :=
  inner_join (fun '(e, co, c, t) u => t_teacher_id t =? u_user_id u)
    (inner_join (fun '(e, co, c) t => co_teacher_id co =? t_teacher_id t)
       (inner_join (fun '(e, co) c => co_course_id co =? c_course_id c)
          (inner_join (fun e co => e_offering_id e =? co_offering_id co)
                      (enrollments d) (course_offerings d))
          (courses d))
       teachers)
    (users d).

Definition get_student_current_courses (d : db)
           (teachers : list teacher_row) (s_id : uuid)
  : list CurrentCourses.row :=
  let student_semester := student_semester_of d s_id in
  map (fun '(e, co, c, t, u) =>
         {| CurrentCourses.course_id := c_course_id c;
            CurrentCourses.course_code := c_course_code c;
            CurrentCourses.course_name := c_course_name c;
            CurrentCourses.teacher := u_full_name u |})
      (filter
         (fun '(e, co, c, t, u) =>
            holds (lit (e_student_id e =? s_id)
                   &&& lit (enrollment_status_eqb (e_status e) enrolled)
                   &&& (sql_cmp Z.eqb (c_logical_semester c)
                                student_semester
                        ||| is_null (c_logical_semester c))))
         (current_courses_from d teachers)).

(** ** A second sample state

    [campus] without the enrollment in the offering that lost its
    semester: all the completed enrollments of student 5 are of
    semester 9. *)
Definition campus_one_semester : db :=
  {| users := users Sample.campus;
     students := students Sample.campus;
     courses := courses Sample.campus;
     semesters := semesters Sample.campus;
     course_offerings := course_offerings Sample.campus;
     enrollments :=
       filter (fun e => negb (e_enrollment_id e =? 4))
              (enrollments Sample.campus);
     attendance_records := attendance_records Sample.campus;
     course_tas := course_tas Sample.campus |}.

(** ** Iterating *)

(** [increment_all_student_semesters], [k] times. *)
Fixpoint advance_times (k : nat) (d : db) : db :=
  match k with
  | O => d
  | S k' => increment_all_student_semesters (advance_times k' d)
  end.

(* ================================================================== *)
(** * Auxiliary definitions

    The predicates the properties are stated with, and the parts of the
    queries the proofs name. *)

(** How one row of [students] changes. *)
Definition advanced (s s' : student_row) : Prop :=
  s_student_id s' = s_student_id s
  /\ (forall n, s_current_semester s = Some n -> n < 8 ->
                s_current_semester s' = Some (n + 1))
  /\ (s_current_semester s = Some 8 -> s' = s)
  /\ (students_check s = true ->
      students_check s' = true
      /\ forall n', s_current_semester s' = Some n' -> 1 <= n' <= 8).

(** The registration window of a semester is open: [is_active] is true
    and [now] lies strictly between the start and the end. *)
Definition open_for_registration (now : timestamptz) (s : semester)
  : Prop :=
  sem_is_active s = Some true
  /\ sem_registration_start_date s < now < sem_registration_end_date s.

(** What is asked of an available offering: it is an offering of the
    semester [sem], of a course in the stream of the student or in COMMON, meant
    for the student's current semester or for none, and the student has
    no enrollment in it. *)
Definition admissible (d : db) (s_id : uuid) (sem : semester)
           (r : available_offering) : Prop :=
  co_semester_id (ao_offering r) = Some (sem_semester_id sem)
  /\ In (ao_offering r) (course_offerings d)
  /\ In (ao_course r) (courses d)
  /\ co_course_id (ao_offering r) = c_course_id (ao_course r)
  /\ (forall st, lookup_student d s_id = Some st ->
        (c_stream (ao_course r) = s_stream st
         \/ c_stream (ao_course r) = COMMON)
        /\ (c_logical_semester (ao_course r) = s_current_semester st
            \/ c_logical_semester (ao_course r) = None))
  /\ (forall e, In e (enrollments d) -> e_student_id e = s_id ->
                e_offering_id e <> co_offering_id (ao_offering r)).

(** Descending with NULL first: [a] is NULL, or both are dates and [a]
    is not before [b]. *)
Definition not_before (a b : option date) : Prop :=
  match a, b with
  | None, _ => True
  | Some _, None => False
  | Some x, Some y => y <= x
  end.

(** The start date of the semester a returned row refers to. *)
Definition row_start_date (d : db) (r : teacher_offering) : option date :=
  match semester_id r with
  | Some i =>
      match lookup_semester d i with
      | Some s => sem_start_date s
      | None => None
      end
  | None => None
  end.

(** The rows of [get_teacher_offerings_with_status] before ordering. *)
Definition teacher_offerings_from (d : db) (t_id : uuid)
  : list (course_offering * course * semester) :=
  filter (fun '(co, c, s) => co_teacher_id co =? t_id)
    (inner_join
       (fun '(co, c) s =>
          holds (sql_cmp Z.eqb (co_semester_id co)
                         (Some (sem_semester_id s))))
       (inner_join (fun co c => co_course_id co =? c_course_id c)
                   (course_offerings d) (courses d))
       (semesters d)).

(** The rows a key finds: one or none. *)
Definition option_list {A} (o : option A) : list A :=
  match o with
  | Some a => [a]
  | None => []
  end.

(** The non-null inputs of an aggregate. *)
Definition non_null {A} (l : list (option A)) : list A :=
  flat_map option_list l.

(** The unit of the last place at a scale: [10 ^ rscale]. *)
Definition scale_factor (rscale : Z) : Q :=
  inject_Z (Zpos (Z.to_pos (10 ^ rscale))).

(** The sums that the average divides. *)
Definition weighted_points (l : list (Z * Q)) : Q :=
  Qsum (map (fun '(cr, gp) => inject_Z cr * gp)%Q l).

Definition total_credits (l : list (Z * Q)) : Q :=
  Qsum (map (fun '(cr, _) => inject_Z cr) l).

(** The scale at which the average of [l] is returned: the sum of the
    points has scale 2, the sum of the credits scale 0. *)
Definition gpa_scale (l : list (Z * Q)) : Z :=
  select_div_scale (weighted_points l) 2 (total_credits l) 0.

(** [q] is the average of [l] as the functions return it: 0.0 over no
    course, and otherwise the weighted average rounded to [gpa_scale l]
    decimals, which are sixteen or more; it is off the weighted average
    by half a unit of the sixteenth decimal at most. *)
Definition rounded_average (l : list (Z * Q)) (q : Q) : Prop :=
  (l = [] -> q = num_0_0)
  /\ (l <> [] ->
      q = round_var (weighted_average l) (gpa_scale l)
      /\ 16 <= gpa_scale l)
  /\ (Qabs (q - weighted_average l) <= 1 # 20000000000000000)%Q.

(** The credits and grade points a [SUM] over the rows takes in. *)
Definition credit_points (rows : list (course * enrollment))
  : list (Z * Q) :=
  flat_map (fun '(c, e) =>
              match c_credits c, e_grade_point e with
              | Some cr, Some gp => [(cr, gp)]
              | _, _ => []
              end) rows.

(** The [WHERE] clause of [get_student_sgpa]. *)
Definition sgpa_where (s_id target_sem_id : uuid)
           (r : enrollment * course_offering * course) : bool :=
  let '(e, co, c) := r in
  holds (lit (e_student_id e =? s_id)
         &&& lit (enrollment_status_eqb (e_status e) completed)
         &&& is_not_null (e_grade_point e)
         &&& sql_cmp Z.eqb (co_semester_id co) (Some target_sem_id)).

(** The rows of [get_student_sgpa], as courses and enrollments. *)
Definition sgpa_rows (d : db) (s_id target_sem_id : uuid)
  : list (course * enrollment) :=
  map (fun '(e, co, c) => (c, e))
      (filter (sgpa_where s_id target_sem_id)
         (inner_join (fun '(e, co) c => co_course_id co =? c_course_id c)
            (inner_join (fun e co => e_offering_id e =? co_offering_id co)
                        (enrollments d) (course_offerings d))
            (courses d))).

(** The [WHERE] clause of [get_student_cgpa]. *)
Definition cgpa_where (s_id : uuid) (max_sem_date : option date)
           (r : enrollment * course_offering * semester * course) : bool :=
  let '(e, co, s, c) := r in
  holds (lit (e_student_id e =? s_id)
         &&& lit (enrollment_status_eqb (e_status e) completed)
         &&& is_not_null (e_grade_point e)
         &&& (is_null max_sem_date
              ||| sql_cmp Z.leb (sem_start_date s) max_sem_date)).

(** The rows of [get_student_cgpa], as courses and enrollments. *)
Definition cgpa_rows (d : db) (s_id : uuid) (max_sem_date : option date)
  : list (course * enrollment) :=
  map (fun '(e, co, s, c) => (c, e))
      (filter (cgpa_where s_id max_sem_date)
         (inner_join
            (fun '(e, co, s) c => co_course_id co =? c_course_id c)
            (inner_join
               (fun '(e, co) s =>
                  holds (sql_cmp Z.eqb (co_semester_id co)
                                 (Some (sem_semester_id s))))
               (inner_join
                  (fun e co => e_offering_id e =? co_offering_id co)
                  (enrollments d) (course_offerings d))
               (semesters d))
            (courses d))).

(** The user with a given id. *)
Definition lookup_user (d : db) (i : uuid) : option user :=
  find (fun u => i =? u_user_id u) (users d).

(** The [WHERE] clause of [get_course_attendance_stats]. *)
Definition stats_where (o_id : uuid) (r : stats_row) : bool :=
  let '(e, s, u, ar) := r in
  (e_offering_id e =? o_id) && enrollment_status_eqb (e_status e) enrolled.

(** The rows [get_course_attendance_stats] groups. *)
Definition stats_rows (d : db) (o_id : uuid) : list stats_row :=
  filter (stats_where o_id) (stats_from d).

(** The row the [SELECT] list yields for a group when [total_class_days]
    is [n]. *)
Definition stats_value (g : stats_key * list stats_row)
  : attendance_stats :=
  let '(sid, name, roll, total_class_days) := fst g in
  let n := coalesce total_class_days 0 in
  let attended := count_filter is_present (snd g) in
  {| student_id := sid;
     full_name := name;
     roll_number := roll;
     total_classes := n;
     attended_classes := attended;
     attendance_percentage :=
       Some (if n >? 0
             then sql_trunc (inject_Z attended * num_100_0
                             / inject_Z n)%Q 2
             else num_0_0) |}.

(** The rows of one enrollment after the left join. *)
Definition attendance_of (d : db) (x : enrollment * student_row * user)
  : list stats_row :=
  match filter (fun ar =>
                  (e_offering_id (fst (fst x)) =? ar_offering_id ar)
                  && (e_student_id (fst (fst x)) =? ar_student_id ar))
               (attendance_records d) with
  | [] => [(x, None)]
  | m => map (fun ar => (x, Some ar)) m
  end.

(** What one enrollment contributes to [stats_rows], with the student
    and the user found by their keys. *)
Definition stats_rows_of (d : db) (o_id : uuid) (e : enrollment)
  : list stats_row :=
  if (e_offering_id e =? o_id) && enrollment_status_eqb (e_status e) enrolled
  then match lookup_student d (e_student_id e) with
       | Some s =>
           match lookup_user d (s_student_id s) with
           | Some u => attendance_of d (e, s, u)
           | None => []
           end
       | None => []
       end
  else [].

(** How [increment_all_student_semesters] changes one row. *)
Definition advance_student (s : student_row) : student_row :=
  if holds (sql_cmp Z.ltb (s_current_semester s) (Some 8))
  then {| s_student_id := s_student_id s;
          s_roll_number := s_roll_number s;
          s_stream := s_stream s;
          s_current_semester :=
            option_map (fun n => n + 1) (s_current_semester s) |}
  else s.

(** The row [get_student_course_history] yields for a joined row. *)
Definition history_value (d : db)
           (r : enrollment * course_offering * semester * course)
  : CourseHistory.row :=
  let '(e, co, s, c) := r in
  {| CourseHistory.course_code := c_course_code c;
     CourseHistory.course_name := c_course_name c;
     CourseHistory.semester_id := sem_semester_id s;
     CourseHistory.academic_year := sem_academic_year s;
     CourseHistory.season := sem_season s;
     CourseHistory.logical_semester := c_logical_semester c;
     CourseHistory.grade := e_grade e;
     CourseHistory.attendance_percentage :=
       Some (percentage_of
               (present_count d (e_student_id e) (e_offering_id e))
               (get_total_class_days d (e_offering_id e))) |}.

(** The rows [get_student_current_attendance] groups. *)
Definition current_rows (d : db) (s_id : uuid) : list current_row :=
  filter (current_where d s_id) (current_from d).

(** The row [get_student_current_attendance] yields for a group. *)
Definition current_value (d : db) (g : current_key * list current_row)
  : CurrentAttendance.row :=
  let attended := count_filter current_is_present (snd g) in
  {| CurrentAttendance.course_id := fst (fst g);
     CurrentAttendance.course_name := snd (fst g);
     CurrentAttendance.total_classes :=
       get_total_class_days d (fst (fst g));
     CurrentAttendance.attended_classes := attended;
     CurrentAttendance.attendance_percentage :=
       Some (percentage_of attended
                           (get_total_class_days d (fst (fst g)))) |}.

(** The rows of one enrollment of [current_from] after the left join. *)
Definition current_attendance_of (d : db)
           (x : enrollment * course_offering * course) : list current_row :=
  match filter (fun ar =>
                  (e_offering_id (fst (fst x)) =? ar_offering_id ar)
                  && (e_student_id (fst (fst x)) =? ar_student_id ar))
               (attendance_records d) with
  | [] => [(x, None)]
  | m => map (fun ar => (x, Some ar)) m
  end.

(** The course is meant for the student's current semester, or for
    none. *)
Definition in_current_scope (d : db) (s_id : uuid) (c : course) : bool :=
  holds (sql_cmp Z.eqb (c_logical_semester c) (student_semester_of d s_id)
         ||| is_null (c_logical_semester c)).

(** What one enrollment contributes to [current_rows], with the offering
    and the course found by their keys. *)
Definition current_rows_of (d : db) (s_id : uuid) (e : enrollment)
  : list current_row :=
  if (e_student_id e =? s_id) && enrollment_status_eqb (e_status e) enrolled
  then match lookup_offering d (e_offering_id e) with
       | Some co =>
           match lookup_course d (co_course_id co) with
           | Some c =>
               if in_current_scope d s_id c
               then current_attendance_of d (e, co, c)
               else []
           | None => []
           end
       | None => []
       end
  else [].

(** The student's current courses: enrolled, with an offering and a
    course in scope. *)
Definition is_current_offering (d : db) (s_id o_id : uuid) : Prop :=
  exists e co c,
    In e (enrollments d)
    /\ e_student_id e = s_id /\ e_offering_id e = o_id
    /\ e_status e = enrolled
    /\ lookup_offering d o_id = Some co
    /\ lookup_course d (co_course_id co) = Some c
    /\ in_current_scope d s_id c = true.

(** The stream and semester conditions of the query, for the student
    row found, if any. *)
Definition eligible (st : option student_row) (c : course) : Prop :=
  (c_stream c = COMMON \/ option_map s_stream st = Some (c_stream c))
  /\ (c_logical_semester c = None
      \/ exists n, c_logical_semester c = Some n
                   /\ match st with
                      | Some s => s_current_semester s
                      | None => None
                      end = Some n).

(* ================================================================== *)
(** * Properties *)

Import Sample.

(** ** Conditions *)

Lemma holds_and (a b : tri) :
  holds (a &&& b) = holds a && holds b.
Proof. destruct a as [[|]|], b as [[|]|]; reflexivity. Qed.

Lemma holds_or (a b : tri) :
  holds (a ||| b) = holds a || holds b.
Proof. destruct a as [[|]|], b as [[|]|]; reflexivity. Qed.

Lemma holds_lit (b : bool) : holds (lit b) = b.
Proof. destruct b; reflexivity. Qed.

Lemma holds_cmp_some {A} (op : A -> A -> bool) (x y : A) :
  holds (sql_cmp op (Some x) (Some y)) = op x y.
Proof. simpl. now destruct (op x y). Qed.

Lemma holds_cmp_eq (a : option Z) (y : Z) :
  holds (sql_cmp Z.eqb a (Some y)) = true <-> a = Some y.
Proof.
  destruct a as [x|]; simpl.
  - destruct (Z.eqb_spec x y); split; congruence.
  - split; discriminate.
Qed.

Lemma stream_type_eqb_eq (a b : stream_type) :
  stream_type_eqb a b = true <-> a = b.
Proof. destruct a, b; simpl; split; congruence. Qed.

Lemma enrollment_status_eqb_eq (a b : enrollment_status) :
  enrollment_status_eqb a b = true <-> a = b.
Proof. destruct a, b; simpl; split; congruence. Qed.



Lemma pair_eqb_eq (a b : Z * Z) : pair_eqb a b = true <-> a = b.
Proof.
  destruct a as [a1 a2], b as [b1 b2]; unfold pair_eqb; simpl.
  rewrite andb_true_iff, !Z.eqb_eq.
  split; [intros [-> ->]; reflexivity | intros [= -> ->]; auto].
Qed.

Lemma triple_eqb_eq (a b : Z * Z * Z) : triple_eqb a b = true <-> a = b.
Proof.
  destruct a as [a1 a2], b as [b1 b2]; unfold triple_eqb; simpl.
  rewrite andb_true_iff, pair_eqb_eq, Z.eqb_eq.
  split; [intros [-> ->]; reflexivity | intros [= -> ->]; auto].
Qed.

(** ** Keys *)

Section Distinct.
Context {K : Type} (eqb : K -> K -> bool).
Hypothesis eqb_eq : forall x y, eqb x y = true <-> x = y.

Lemma distinctb_NoDup (l : list K) :
  distinctb eqb l = true -> NoDup l.
Proof.
  induction l as [|k l IH]; simpl; intros H; constructor.
  - apply andb_true_iff in H as [H _].
    intros Hin. apply negb_true_iff in H.
    assert (existsb (eqb k) l = true) as E; [|congruence].
    apply existsb_exists. exists k. split; [assumption|].
    now apply eqb_eq.
  - apply IH. now apply andb_true_iff in H as [_ H].
Qed.
End Distinct.

(** Two rows of a table with the same key are the same row. *)
Lemma NoDup_map_eq {A K} (key : A -> K) (l : list A) (a b : A) :
  NoDup (map key l) -> In a l -> In b l -> key a = key b -> a = b.
Proof.
  induction l as [|x l IH]; simpl; [tauto|].
  intros H Ha Hb E. inversion H as [|? ? Hx Hl]; subst.
  destruct Ha as [->|Ha], Hb as [->|Hb]; auto.
  - exfalso. apply Hx. rewrite E. now apply in_map.
  - exfalso. apply Hx. rewrite <- E. now apply in_map.
Qed.

(** With a key, the rows that match it are the one [find] returns. *)
Lemma filter_key {A} (key : A -> Z) (k : Z) (l : list A) :
  NoDup (map key l) ->
  filter (fun a => k =? key a) l
  = match find (fun a => k =? key a) l with
    | Some a => [a]
    | None => []
    end.
Proof.
  induction l as [|x l IH]; simpl; [reflexivity|].
  intros H. inversion H as [|? ? Hx Hl]; subst.
  destruct (Z.eqb_spec k (key x)) as [E|E].
  - f_equal. subst k.
    destruct (filter (fun a => key x =? key a) l) as [|y m] eqn:F;
      [reflexivity|].
    exfalso. apply Hx.
    assert (In y (filter (fun a => key x =? key a) l)) as Hy
        by (rewrite F; now left).
    apply filter_In in Hy as [Hy Ey]. apply Z.eqb_eq in Ey.
    rewrite Ey. now apply in_map.
  - now apply IH.
Qed.

Lemma find_key_In {A} (key : A -> Z) (l : list A) (a : A) :
  NoDup (map key l) -> In a l ->
  find (fun x => key a =? key x) l = Some a.
Proof.
  intros H Ha.
  destruct (find (fun x => key a =? key x) l) as [b|] eqn:F.
  - apply find_some in F as [Hb E]. apply Z.eqb_eq in E.
    f_equal. symmetry. eapply NoDup_map_eq; eauto.
  - eapply find_none in F; eauto. now rewrite Z.eqb_refl in F.
Qed.

(** ** Advancing the semester of every student *)

Lemma students_check_range (s : student_row) (n : Z) :
  students_check s = true -> s_current_semester s = Some n -> 1 <= n <= 8.
Proof.
  unfold students_check. intros H E. rewrite E in H. simpl in H.
  destruct (Z.gtb_spec n 0), (Z.leb_spec n 8); simpl in H;
    try discriminate; lia.
Qed.

Lemma increment_row (s : student_row) :
  advanced s
    (if holds (sql_cmp Z.ltb (s_current_semester s) (Some 8))
     then {| s_student_id := s_student_id s;
             s_roll_number := s_roll_number s;
             s_stream := s_stream s;
             s_current_semester :=
               option_map (fun n => n + 1) (s_current_semester s) |}
     else s).
Proof.
  unfold advanced.
  destruct (s_current_semester s) as [n|] eqn:E; simpl.
  - destruct (Z.ltb_spec n 8) as [L|L]; simpl.
    + split; [reflexivity|]. split; [|split].
      * intros m [= <-] _. reflexivity.
      * intros [= ->]. lia.
      * intros H. pose proof (students_check_range s n H E) as R.
        split.
        -- unfold students_check. simpl.
           destruct (Z.gtb_spec (n + 1) 0), (Z.leb_spec (n + 1) 8);
             simpl; try reflexivity; lia.
        -- intros k [= <-]. lia.
    + split; [reflexivity|]. split; [|split].
      * intros m [= <-] ?. lia.
      * reflexivity.
      * intros H. split; [assumption|].
        intros k E'. eapply students_check_range; eauto.
  - split; [reflexivity|]. split; [|split]; try discriminate.
    intros H. split; [assumption|].
    intros k E'. eapply students_check_range; eauto.
Qed.

(** C5. [increment_all_student_semesters] (AdvanceAllSemesters) adds one
    to the current semester of every student below 8, leaves a student at
    8 as it is, and keeps every current semester within 1..8: the
    [CHECK] of [students] holds after it when it held before. *)
Theorem advance_all_semesters_capped (d : db) :
  forallb students_check (students d) = true ->
  Forall2 advanced (students d)
          (students (increment_all_student_semesters d))
  /\ forallb students_check
             (students (increment_all_student_semesters d)) = true
  /\ forall s' n',
      In s' (students (increment_all_student_semesters d)) ->
      s_current_semester s' = Some n' -> 1 <= n' <= 8.
Proof.
  intros H. simpl.
  assert (Forall2 advanced (students d)
            (map (fun s =>
                    if holds (sql_cmp Z.ltb (s_current_semester s) (Some 8))
                    then {| s_student_id := s_student_id s;
                            s_roll_number := s_roll_number s;
                            s_stream := s_stream s;
                            s_current_semester :=
                              option_map (fun n => n + 1)
                                         (s_current_semester s) |}
                    else s) (students d))) as F.
  { induction (students d) as [|s l IH]; simpl; constructor.
    - apply increment_row.
    - apply IH. simpl in H. now apply andb_true_iff in H as [_ H]. }
  split; [exact F|].
  rewrite forallb_forall in H.
  assert (forall s', In s' (map (fun s =>
                    if holds (sql_cmp Z.ltb (s_current_semester s) (Some 8))
                    then {| s_student_id := s_student_id s;
                            s_roll_number := s_roll_number s;
                            s_stream := s_stream s;
                            s_current_semester :=
                              option_map (fun n => n + 1)
                                         (s_current_semester s) |}
                    else s) (students d)) ->
                     students_check s' = true) as C.
  { intros s' Hs'. apply in_map_iff in Hs' as [s [<- Hs]].
    now apply (increment_row s), H. }
  split.
  - apply forallb_forall. exact C.
  - intros s' n' Hs' E. eapply students_check_range; eauto.
Qed.

Lemma advance_all_semesters_capped_witness :
  forallb students_check (students campus) = true
  /\ map s_current_semester
         (students (increment_all_student_semesters campus))
     = [Some 4; Some 8]
  /\ forall s' n',
      In s' (students (increment_all_student_semesters campus)) ->
      s_current_semester s' = Some n' -> 1 <= n' <= 8.
Proof.
  split; [reflexivity|]. split; [reflexivity|].
  apply (advance_all_semesters_capped campus). reflexivity.
Defined.

(** ** Starting a registration period *)





(** ** Reading the attendance records of an offering *)





(** ** The offerings available to a student *)

Lemma registration_open_iff (now : timestamptz) (s : semester) :
  registration_open now s = true <-> open_for_registration now s.
Proof.
  unfold registration_open, open_for_registration.
  rewrite !holds_and, !holds_lit, !andb_true_iff.
  rewrite Z.ltb_lt, Z.gtb_ltb, Z.ltb_lt.
  destruct (sem_is_active s) as [[|]|]; simpl;
    intuition (try discriminate; try lia; auto).
Qed.

(** What the [WHERE] clause of the query grants of a returned row. *)
Lemma available_offering_row (d : db) (now : timestamptz) (s_id : uuid)
      (r : available_offering) :
  In r (get_available_offerings_for_student d now s_id) ->
  exists sem,
    limit_1 (filter (registration_open now) (semesters d)) = Some sem
    /\ co_semester_id (ao_offering r) = Some (sem_semester_id sem)
    /\ In (ao_offering r) (course_offerings d)
    /\ In (ao_course r) (courses d)
    /\ co_course_id (ao_offering r) = c_course_id (ao_course r)
    /\ (forall st, lookup_student d s_id = Some st ->
          (c_stream (ao_course r) = s_stream st
           \/ c_stream (ao_course r) = COMMON)
          /\ (c_logical_semester (ao_course r) = s_current_semester st
              \/ c_logical_semester (ao_course r) = None))
    /\ (forall e, In e (enrollments d) -> e_student_id e = s_id ->
                  e_offering_id e <> co_offering_id (ao_offering r)).
Proof.
  unfold get_available_offerings_for_student.
  destruct (limit_1 (filter (registration_open now) (semesters d)))
    as [sem|] eqn:L; cbn [option_map]; [|contradiction].
  intros H. apply in_map_iff in H as ([co c] & <- & H).
  apply filter_In in H as [J W]. cbn [ao_offering ao_course].
  unfold inner_join in J. apply in_flat_map in J as (co' & Hco & J).
  apply in_map_iff in J as (c' & [= -> ->] & J).
  apply filter_In in J as [Hc On].
  rewrite !holds_and, !holds_or, !holds_lit, !andb_true_iff in W.
  destruct W as [[[W1 W2] W3] W4].
  exists sem. split; [reflexivity|].
  split; [now apply holds_cmp_eq in W1|].
  apply Z.eqb_eq in On.
  do 3 (split; [assumption|]). split.
  - intros st Hst. unfold lookup_student in Hst.
    replace (limit_1 (filter (fun s => s_student_id s =? s_id)
                             (students d))) with (Some st) in W2, W3.
    2:{ clear - Hst. induction (students d) as [|x l IH]; simpl in *;
          [discriminate|].
        rewrite (Z.eqb_sym (s_student_id x)).
        destruct (s_id =? s_student_id x); [exact (eq_sym Hst)|auto]. }
    cbn [option_map] in W2. rewrite holds_cmp_some in W2. split.
    + apply orb_true_iff in W2 as [W2|W2];
        [left | right]; now apply stream_type_eqb_eq.
    + apply orb_true_iff in W3 as [W3|W3].
      * left. destruct (c_logical_semester c) as [x|],
                (s_current_semester st) as [y|];
          try discriminate W3.
        rewrite holds_cmp_some in W3.
        apply Z.eqb_eq in W3. now subst.
      * right. now destruct (c_logical_semester c).
  - intros e He Es Eo. apply negb_true_iff in W4.
    assert (existsb (fun e => (e_student_id e =? s_id)
                              && (e_offering_id e =? co_offering_id co))
                    (enrollments d) = true) as X; [|congruence].
    apply existsb_exists. exists e. split; [assumption|].
    now rewrite Es, Eo, !Z.eqb_refl.
Qed.

Lemma limit_1_filter_none {A} (f : A -> bool) (l : list A) :
  (forall a, In a l -> f a = false) -> limit_1 (filter f l) = None.
Proof.
  induction l as [|x l IH]; simpl; intros H; [reflexivity|].
  rewrite (H x (or_introl eq_refl)). apply IH. auto.
Qed.

Lemma limit_1_filter_some {A} (f : A -> bool) (l : list A) (a : A) :
  In a l -> f a = true ->
  exists b, limit_1 (filter f l) = Some b /\ In b l /\ f b = true.
Proof.
  intros Ha Fa.
  destruct (filter f l) as [|b m] eqn:E.
  - assert (In a (filter f l)) as X by (apply filter_In; auto).
    rewrite E in X. contradiction.
  - exists b. split; [reflexivity|]. apply filter_In.
    rewrite E. now left.
Qed.

(** C4. Without a semester whose registration is open, that is, active
    with [now] strictly inside its registration window,
    [get_available_offerings_for_student] returns the empty list.  With
    one, every returned offering belongs to one such semester, the same
    for all; its course has the stream of the student or COMMON, and the
    logical semester of the student or none; and the student has no
    enrollment in it. *)
Theorem available_offerings_sound
        (d : db) (now : timestamptz) (s_id : uuid) :
  ((forall s, In s (semesters d) -> ~ open_for_registration now s) ->
   get_available_offerings_for_student d now s_id = [])
  /\ ((exists s, In s (semesters d) /\ open_for_registration now s) ->
      exists sem,
        In sem (semesters d) /\ open_for_registration now sem
        /\ forall r,
            In r (get_available_offerings_for_student d now s_id) ->
            admissible d s_id sem r).
Proof.
  split.
  - intros H. unfold get_available_offerings_for_student.
    rewrite limit_1_filter_none; [reflexivity|].
    intros s Hs. destruct (registration_open now s) eqn:E;
      [|reflexivity].
    apply registration_open_iff in E. now apply H in E.
  - intros (s & Hs & Os). apply registration_open_iff in Os.
    destruct (limit_1_filter_some _ _ s Hs Os) as (sem & L & Hsem & Osem).
    exists sem. split; [assumption|].
    split; [now apply registration_open_iff|].
    intros r Hr.
    destruct (available_offering_row d now s_id r Hr)
      as (sem' & L' & P).
    rewrite L in L'. injection L' as <-. exact P.
Qed.

Lemma available_offerings_sound_witness :
  (exists s, In s (semesters campus) /\ open_for_registration now s)
  /\ map (fun r => co_offering_id (ao_offering r))
         (get_available_offerings_for_student campus now 1) = [1001]
  /\ exists sem,
      In sem (semesters campus) /\ open_for_registration now sem
      /\ forall r,
          In r (get_available_offerings_for_student campus now 1) ->
          admissible campus 1 sem r.
Proof.
  assert (exists s, In s (semesters campus)
                    /\ open_for_registration now s) as H.
  { eexists. split; [right; left; reflexivity|].
    split; [reflexivity|]. split; reflexivity. }
  split; [exact H|]. split; [reflexivity|].
  exact (proj2 (available_offerings_sound campus now 1) H).
Defined.

(** C10. An offering for which the student has an enrollment row, of any
    status, enrolled, completed or dropped, is not among the offerings
    [get_available_offerings_for_student] returns: a dropped offering
    does not come back. *)
Theorem available_offerings_exclude_any_enrollment
        (d : db) (now : timestamptz) (s_id : uuid) (e : enrollment) :
  In e (enrollments d) ->
  e_student_id e = s_id ->
  forall r, In r (get_available_offerings_for_student d now s_id) ->
            co_offering_id (ao_offering r) <> e_offering_id e.
Proof.
  intros He Es r Hr.
  destruct (available_offering_row d now s_id r Hr)
    as (sem & _ & _ & _ & _ & _ & _ & X).
  intros E. now apply (X e He Es).
Qed.

(** Student 1 dropped offering 1003 of the open semester. *)
Lemma available_offerings_exclude_any_enrollment_witness :
  let e := mk_enrollment 5 1 1003 dropped None None in
  In e (enrollments campus)
  /\ e_status e = dropped
  /\ forall r, In r (get_available_offerings_for_student campus now 1) ->
               co_offering_id (ao_offering r) <> 1003.
Proof.
  split; [do 4 right; left; reflexivity|]. split; [reflexivity|].
  apply (available_offerings_exclude_any_enrollment campus now 1
           (mk_enrollment 5 1 1003 dropped None None)).
  - do 4 right; left; reflexivity.
  - reflexivity.
Defined.

(** ** Joins and ordering *)

Section Joins.
Context {A B : Type} (on : A -> B -> bool).

Lemma in_inner_join (l : list A) (r : list B) (a : A) (b : B) :
  In (a, b) (inner_join on l r) <-> In a l /\ In b r /\ on a b = true.
Proof.
  unfold inner_join. rewrite in_flat_map. split.
  - intros (x & Hx & H). apply in_map_iff in H as (y & [= -> ->] & H).
    apply filter_In in H. tauto.
  - intros (Ha & Hb & H). exists a. split; [assumption|].
    apply in_map. apply filter_In. tauto.
Qed.

Lemma NoDup_inner_join (l : list A) (r : list B) :
  NoDup l -> NoDup r -> NoDup (inner_join on l r).
Proof.
  intros Hl Hr. induction Hl as [|a l Ha Hl IH]; simpl; [constructor|].
  apply NoDup_app.
  - apply NoDup_map_NoDup_ForallPairs.
    + intros x y _ _ E. now injection E.
    + now apply NoDup_filter.
  - exact IH.
  - intros [x y] H1 H2.
    apply in_map_iff in H1 as (? & [= -> ->] & _).
    apply in_inner_join in H2 as [H2 _]. contradiction.
Qed.
End Joins.

Section Ordering.
Context {A : Type} (geb : A -> A -> bool).
Hypothesis geb_total : forall a b, geb a b = false -> geb b a = true.
Hypothesis geb_trans :
  forall a b c, geb a b = true -> geb b c = true -> geb a c = true.

Lemma insert_desc_perm (x : A) (l : list A) :
  Permutation (insert_desc geb x l) (x :: l).
Proof.
  induction l as [|y l IH]; simpl; [reflexivity|].
  destruct (geb x y); [reflexivity|].
  rewrite IH. apply perm_swap.
Qed.

Lemma order_by_desc_perm (l : list A) :
  Permutation (order_by_desc geb l) l.
Proof.
  induction l as [|x l IH]; simpl; [constructor|].
  rewrite insert_desc_perm. now constructor.
Qed.

Lemma insert_desc_sorted (x : A) (l : list A) :
  StronglySorted (fun a b => geb a b = true) l ->
  StronglySorted (fun a b => geb a b = true) (insert_desc geb x l).
Proof.
  induction 1 as [|y l Hl IH Hy]; simpl.
  - repeat constructor.
  - destruct (geb x y) eqn:E.
    + constructor; [now constructor|].
      constructor; [assumption|].
      eapply Forall_impl; [|exact Hy]. intros z. now apply geb_trans.
    + constructor; [exact IH|].
      apply (Permutation_Forall (Permutation_sym (insert_desc_perm x l))).
      constructor; [now apply geb_total | assumption].
Qed.

Lemma order_by_desc_sorted (l : list A) :
  StronglySorted (fun a b => geb a b = true) (order_by_desc geb l).
Proof.
  induction l as [|x l IH]; simpl; [constructor|].
  now apply insert_desc_sorted.
Qed.
End Ordering.

Lemma StronglySorted_map {A B} (f : A -> B) (R : B -> B -> Prop)
      (l : list A) :
  StronglySorted (fun a b => R (f a) (f b)) l ->
  StronglySorted R (map f l).
Proof.
  induction 1 as [|a l Hl IH Ha]; simpl; constructor; [assumption|].
  apply Forall_map. exact Ha.
Qed.

Lemma StronglySorted_impl_in {A} (R S : A -> A -> Prop) (l : list A) :
  (forall a b, In a l -> In b l -> R a b -> S a b) ->
  StronglySorted R l -> StronglySorted S l.
Proof.
  intros H. induction 1 as [|a l Hl IH Ha]; constructor.
  - apply IH. intros x y Hx Hy. apply H; now right.
  - apply Forall_forall. intros y Hy.
    apply H; [now left | now right |].
    rewrite Forall_forall in Ha. now apply Ha.
Qed.

(** ** The offerings of a teacher *)

Lemma desc_nulls_first_iff (a b : option date) :
  desc_nulls_first a b = true <-> not_before a b.
Proof.
  destruct a as [x|], b as [y|]; simpl; try tauto.
  - apply Z.leb_le.
  - split; [discriminate | contradiction].
Qed.

Lemma in_teacher_offerings_from (d : db) (t_id : uuid)
      (co : course_offering) (c : course) (s : semester) :
  In (co, c, s) (teacher_offerings_from d t_id)
  <-> In co (course_offerings d) /\ In c (courses d)
      /\ In s (semesters d)
      /\ co_course_id co = c_course_id c
      /\ co_semester_id co = Some (sem_semester_id s)
      /\ co_teacher_id co = t_id.
Proof.
  unfold teacher_offerings_from.
  rewrite filter_In, in_inner_join, in_inner_join.
  rewrite holds_cmp_eq, !Z.eqb_eq. tauto.
Qed.

Lemma teacher_offerings_rows_perm (d : db) (t_id : uuid) :
  Permutation (teacher_offerings_rows d t_id)
              (teacher_offerings_from d t_id).
Proof. apply order_by_desc_perm. Qed.

Lemma schema_pk_courses (d : db) :
  schema d -> NoDup (map c_course_id (courses d)).
Proof. intros H. eapply distinctb_NoDup, H. apply Z.eqb_eq. Qed.

Lemma schema_pk_semesters (d : db) :
  schema d -> NoDup (map sem_semester_id (semesters d)).
Proof. intros H. eapply distinctb_NoDup, H. apply Z.eqb_eq. Qed.

Lemma schema_pk_course_offerings (d : db) :
  schema d -> NoDup (map co_offering_id (course_offerings d)).
Proof. intros H. eapply distinctb_NoDup, H. apply Z.eqb_eq. Qed.

Lemma schema_pk_students (d : db) :
  schema d -> NoDup (map s_student_id (students d)).
Proof. intros H. eapply distinctb_NoDup, H. apply Z.eqb_eq. Qed.

Lemma schema_pk_users (d : db) :
  schema d -> NoDup (map u_user_id (users d)).
Proof. intros H. eapply distinctb_NoDup, H. apply Z.eqb_eq. Qed.

Lemma lookup_semester_In (d : db) (s : semester) :
  schema d -> In s (semesters d) ->
  lookup_semester d (sem_semester_id s) = Some s.
Proof.
  intros H Hs. unfold lookup_semester.
  apply find_key_In; [now apply schema_pk_semesters | assumption].
Qed.

Lemma teacher_offerings_from_key (d : db) (t_id : uuid) :
  schema d ->
  NoDup (map (fun r => co_offering_id (fst (fst r)))
             (teacher_offerings_from d t_id)).
Proof.
  intros H. apply NoDup_map_NoDup_ForallPairs.
  - intros [[co c] s] [[co' c'] s'] H1 H2 E. simpl in E.
    apply in_teacher_offerings_from in H1 as (Hco & Hc & Hs & Ec & Es & _).
    apply in_teacher_offerings_from
      in H2 as (Hco' & Hc' & Hs' & Ec' & Es' & _).
    assert (co = co') as <-.
    { eapply NoDup_map_eq; eauto using schema_pk_course_offerings. }
    assert (c = c') as <-.
    { eapply NoDup_map_eq; eauto using schema_pk_courses. congruence. }
    assert (s = s') as <-.
    { eapply NoDup_map_eq; eauto using schema_pk_semesters. congruence. }
    reflexivity.
  - unfold teacher_offerings_from. apply NoDup_filter.
    apply NoDup_inner_join; [apply NoDup_inner_join|].
    + eapply NoDup_map_inv, schema_pk_course_offerings, H.
    + eapply NoDup_map_inv, schema_pk_courses, H.
    + eapply NoDup_map_inv, schema_pk_semesters, H.
Qed.

Lemma teacher_offerings_select_start (d : db)
      (co : course_offering) (c : course) (s : semester) :
  schema d -> In s (semesters d) ->
  co_semester_id co = Some (sem_semester_id s) ->
  row_start_date d (teacher_offerings_select d (co, c, s))
  = sem_start_date s.
Proof.
  intros H Hs E. unfold row_start_date. simpl. rewrite E.
  now rewrite lookup_semester_In.
Qed.

(** C8, as the query has it.  [get_teacher_offerings_with_status] returns
    one row for every offering of the teacher that refers to a semester,
    and rows of such offerings only; [is_completed] is true exactly when
    an enrollment of the offering is completed; the rows are in
    descending order of the start date of their semester, a NULL start
    date first. *)
Theorem teacher_offerings_with_status_sound (d : db) (t_id : uuid) :
  schema d ->
  (forall co, In co (course_offerings d) ->
              co_teacher_id co = t_id -> co_semester_id co <> None ->
              exists r, In r (get_teacher_offerings_with_status d t_id)
                        /\ offering_id r = co_offering_id co)
  /\ (forall r, In r (get_teacher_offerings_with_status d t_id) ->
        teacher_id r = t_id
        /\ (exists co, In co (course_offerings d)
                       /\ co_offering_id co = offering_id r
                       /\ co_teacher_id co = t_id
                       /\ co_semester_id co = semester_id r
                       /\ semester_id r <> None)
        /\ (is_completed r = true
            <-> exists e, In e (enrollments d)
                          /\ e_offering_id e = offering_id r
                          /\ e_status e = completed))
  /\ NoDup (map offering_id (get_teacher_offerings_with_status d t_id))
  /\ StronglySorted
       (fun a b => not_before (row_start_date d a) (row_start_date d b))
       (get_teacher_offerings_with_status d t_id).
Proof.
  intros H. unfold get_teacher_offerings_with_status.
  pose proof (teacher_offerings_rows_perm d t_id) as P.
  split; [|split; [|split]].
  - intros co Hco Et Es.
    destruct (co_semester_id co) as [i|] eqn:Ei; [|congruence].
    assert (exists c, In c (courses d)
                      /\ co_course_id co = c_course_id c) as (c & Hc & Ec).
    { pose proof (course_offerings_course_fkey d H) as F.
      rewrite forallb_forall in F. specialize (F co Hco).
      apply existsb_exists in F as (c & Hc & Ec).
      apply Z.eqb_eq in Ec. eauto. }
    assert (exists s, In s (semesters d)
                      /\ i = sem_semester_id s) as (s & Hs & Eis).
    { pose proof (course_offerings_semester_fkey d H) as F.
      rewrite forallb_forall in F. specialize (F co Hco).
      rewrite Ei in F. apply existsb_exists in F as (s & Hs & Eis).
      apply Z.eqb_eq in Eis. eauto. }
    exists (teacher_offerings_select d (co, c, s)).
    split; [|reflexivity].
    apply in_map. apply (Permutation_in _ (Permutation_sym P)).
    apply in_teacher_offerings_from. subst i. tauto.
  - intros r Hr. apply in_map_iff in Hr as ([[co c] s] & <- & Hr).
    apply (Permutation_in _ P) in Hr.
    apply in_teacher_offerings_from in Hr as (Hco & Hc & Hs & Ec & Es & Et).
    simpl. split; [assumption|]. split.
    + exists co. rewrite Es. repeat split; auto. discriminate.
    + rewrite existsb_exists. split.
      * intros (e & He & E). apply andb_true_iff in E as [E1 E2].
        apply Z.eqb_eq in E1. apply enrollment_status_eqb_eq in E2. eauto.
      * intros (e & He & E1 & E2). exists e. split; [assumption|].
        rewrite E1, E2, Z.eqb_refl. reflexivity.
  - rewrite map_map.
    rewrite (map_ext _ (fun r => co_offering_id (fst (fst r))))
      by (intros [[? ?] ?]; reflexivity).
    apply (Permutation_NoDup
             (Permutation_map _ (Permutation_sym P))).
    now apply teacher_offerings_from_key.
  - apply StronglySorted_map.
    apply StronglySorted_impl_in
      with (R := fun a b =>
                   (let '(_, _, s1) := a in
                    fun '(_, _, s2) =>
                      desc_nulls_first (sem_start_date s1)
                                       (sem_start_date s2)) b = true).
    + intros [[co c] s] [[co' c'] s'] H1 H2 R.
      apply (Permutation_in _ P) in H1, H2.
      apply in_teacher_offerings_from in H1 as (_ & _ & Hs & _ & Es & _).
      apply in_teacher_offerings_from in H2 as (_ & _ & Hs' & _ & Es' & _).
      rewrite !teacher_offerings_select_start by assumption.
      now apply desc_nulls_first_iff.
    + apply order_by_desc_sorted.
      * intros [[? ?] s1] [[? ?] s2].
        destruct (sem_start_date s1), (sem_start_date s2); simpl;
          try congruence.
        rewrite !Z.leb_gt, Z.leb_le. lia.
      * intros [[? ?] s1] [[? ?] s2] [[? ?] s3].
        destruct (sem_start_date s1), (sem_start_date s2),
          (sem_start_date s3); simpl; try congruence.
        rewrite !Z.leb_le. lia.
Qed.

Lemma campus_schema : schema campus.
Proof. constructor; reflexivity. Qed.

Lemma teacher_offerings_with_status_sound_witness :
  schema campus
  /\ map offering_id (get_teacher_offerings_with_status campus 3)
     = [1001; 1002; 901]
  /\ map is_completed (get_teacher_offerings_with_status campus 3)
     = [false; false; true]
  /\ StronglySorted
       (fun a b => not_before (row_start_date campus a)
                              (row_start_date campus b))
       (get_teacher_offerings_with_status campus 3).
Proof.
  split; [exact campus_schema|]. split; [reflexivity|].
  split; [reflexivity|].
  apply (teacher_offerings_with_status_sound campus 3 campus_schema).
Defined.

(** C8, as stated, fails: offering 902 is taught by teacher 3 and has
    lost its semester; the inner join with [semesters] drops it. *)
Lemma teacher_offering_without_semester_missing :
  schema campus
  /\ (exists co, In co (course_offerings campus)
                 /\ co_offering_id co = 902 /\ co_teacher_id co = 3)
  /\ ~ In 902 (map offering_id (get_teacher_offerings_with_status campus 3)).
Proof.
  split; [exact campus_schema|]. split.
  - eexists. split; [do 2 right; left; reflexivity|].
    split; reflexivity.
  - intros H. vm_compute in H. intuition discriminate.
Qed.

(** ** Joins along a key *)

Lemma filter_flat_map {A B} (f : B -> bool) (h : A -> list B)
      (l : list A) :
  filter f (flat_map h l) = flat_map (fun a => filter f (h a)) l.
Proof.
  induction l as [|a l IH]; simpl; [reflexivity|].
  now rewrite filter_app, IH.
Qed.

Lemma map_flat_map {A B C} (f : B -> C) (h : A -> list B) (l : list A) :
  map f (flat_map h l) = flat_map (fun a => map f (h a)) l.
Proof.
  induction l as [|a l IH]; simpl; [reflexivity|].
  now rewrite map_app, IH.
Qed.

Lemma flat_map_flat_map {A B C} (f : B -> list C) (h : A -> list B)
      (l : list A) :
  flat_map f (flat_map h l) = flat_map (fun a => flat_map f (h a)) l.
Proof.
  induction l as [|a l IH]; simpl; [reflexivity|].
  now rewrite flat_map_app, IH.
Qed.

Lemma inner_join_flat_map {A B C} (on : B -> C -> bool)
      (h : A -> list B) (l : list A) (r : list C) :
  inner_join on (flat_map h l) r
  = flat_map (fun a => inner_join on (h a) r) l.
Proof. unfold inner_join. apply flat_map_flat_map. Qed.

Lemma inner_join_as_flat_map {A B} (on : A -> B -> bool)
      (l : list A) (r : list B) :
  inner_join on l r = flat_map (fun a => inner_join on [a] r) l.
Proof.
  unfold inner_join. apply flat_map_ext. intros a. simpl.
  now rewrite app_nil_r.
Qed.

Lemma inner_join_option_list {A B} (on : A -> B -> bool)
      (o : option A) (r : list B) :
  inner_join on (option_list o) r
  = match o with
    | Some a => map (pair a) (filter (on a) r)
    | None => []
    end.
Proof. destruct o; simpl; [apply app_nil_r | reflexivity]. Qed.

Lemma filter_key_list {A} (key : A -> Z) (k : Z) (l : list A) :
  NoDup (map key l) ->
  filter (fun a => k =? key a) l
  = option_list (find (fun a => k =? key a) l).
Proof. apply filter_key. Qed.

Lemma filter_nullable_key {A} (key : A -> Z) (k : option Z)
      (l : list A) :
  NoDup (map key l) ->
  filter (fun a => holds (sql_cmp Z.eqb k (Some (key a)))) l
  = match k with
    | Some i => option_list (find (fun a => i =? key a) l)
    | None => []
    end.
Proof.
  intros H. destruct k as [i|].
  - rewrite <- filter_key_list by assumption.
    apply filter_ext. intros a. apply holds_cmp_some.
  - induction l as [|a l IH]; simpl; [reflexivity|].
    apply IH. now inversion H.
Qed.

(** ** Division of numerics *)

Lemma log_nbase_spec (fuel : nat) (n : Z) :
  1 <= n < NBASE ^ (Z.of_nat fuel + 1) ->
  0 <= log_nbase fuel n
  /\ NBASE ^ log_nbase fuel n <= n < NBASE ^ (log_nbase fuel n + 1).
Proof.
  revert n. induction fuel as [|f IH]; intros n [L U].
  - simpl in *. change (NBASE ^ 1) with NBASE in *. lia.
  - cbn [log_nbase]. destruct (Z.ltb_spec n NBASE) as [Hs|Hs].
    + change (NBASE ^ 0) with 1. change (NBASE ^ (0 + 1)) with NBASE. lia.
    + assert (1 <= n / NBASE < NBASE ^ (Z.of_nat f + 1)) as R.
      { split.
        - apply Z.div_le_lower_bound; unfold NBASE in *; lia.
        - apply Z.div_lt_upper_bound; [unfold NBASE; lia|].
          replace (Z.of_nat (S f) + 1) with (Z.succ (Z.of_nat f + 1)) in U
            by lia.
          rewrite Z.pow_succ_r in U by lia. exact U. }
      destruct (IH _ R) as (W & A & B).
      set (w := log_nbase f (n / NBASE)) in *.
      split; [lia|].
      replace (1 + w + 1) with (Z.succ (w + 1)) by lia.
      replace (1 + w) with (Z.succ w) by lia.
      rewrite !Z.pow_succ_r by lia.
      pose proof (Z.div_mod n NBASE ltac:(unfold NBASE; lia)) as E.
      pose proof (Z.mod_pos_bound n NBASE ltac:(unfold NBASE; lia)) as M.
      split; nia.
Qed.

Lemma log_nbase_fuel (m n : Z) :
  1 <= n <= m ->
  1 <= n < NBASE ^ (Z.of_nat (Z.to_nat (Z.log2 m)) + 1).
Proof.
  intros [L U]. split; [exact L|].
  rewrite Z2Nat.id by apply Z.log2_nonneg.
  apply Z.le_lt_trans with m; [exact U|].
  apply Z.lt_le_trans with (2 ^ (Z.log2 m + 1)).
  - replace (Z.log2 m + 1) with (Z.succ (Z.log2 m)) by lia.
    apply Z.log2_spec. lia.
  - apply Z.pow_le_mono_l. unfold NBASE. lia.
Qed.

Lemma nonzero_abs_pos (n : Z) (d : positive) :
  ~ n # d == 0 -> 0 < Z.abs n.
Proof. unfold Qeq. simpl. lia. Qed.

Lemma numeric_weight_spec (x : Q) :
  ~ x == 0 ->
  (inject_Z NBASE ^ numeric_weight x <= Qabs x)%Q
  /\ (Qabs x < inject_Z NBASE ^ (numeric_weight x + 1))%Q.
Proof.
  destruct x as [n d]. intros N. apply nonzero_abs_pos in N.
  unfold numeric_weight, Qabs. cbn [Qnum Qden].
  set (a := Z.abs n) in *.
  destruct (Z.eqb_spec a 0) as [|_]; [lia|].
  destruct (Z.leb_spec (Zpos d) a) as [C|C].
  - assert (1 <= a / Zpos d <= a) as R.
    { split.
      - apply Z.div_le_lower_bound; lia.
      - apply Z.div_le_upper_bound; nia. }
    destruct (log_nbase_spec _ _ (log_nbase_fuel a _ R)) as (W & L & U).
    set (w := log_nbase _ _) in *.
    pose proof (Z.div_mod a (Zpos d) ltac:(lia)) as E.
    pose proof (Z.mod_pos_bound a (Zpos d) ltac:(lia)) as M.
    rewrite <- !Zpower_Qpower by lia.
    unfold Qle, Qlt. cbn [Qnum Qden inject_Z]. split; nia.
  - assert (1 <= (Zpos d - 1) / a <= Zpos d) as R.
    { split.
      - apply Z.div_le_lower_bound; lia.
      - apply Z.div_le_upper_bound; nia. }
    destruct (log_nbase_spec _ _ (log_nbase_fuel (Zpos d) _ R))
      as (W & L & U).
    set (w := log_nbase _ _) in *.
    pose proof (Z.div_mod (Zpos d - 1) a ltac:(lia)) as E.
    pose proof (Z.mod_pos_bound (Zpos d - 1) a ltac:(lia)) as M.
    assert (0 < NBASE ^ w) as P0 by (apply Z.pow_pos_nonneg; [reflexivity|lia]).
    assert (0 < NBASE ^ (1 + w)) as P1
        by (apply Z.pow_pos_nonneg; [reflexivity|lia]).
    replace (w + 1) with (1 + w) in U by lia.
    split.
    + rewrite Qpower_opp, <- Zpower_Qpower by lia.
      apply Qle_shift_inv_r.
      * unfold Qlt. cbn [Qnum Qden inject_Z]. lia.
      * unfold Qle. cbn [Qnum Qden inject_Z Qmult]. nia.
    + replace (- (1 + w) + 1) with (- w) by lia.
      rewrite Qpower_opp, <- Zpower_Qpower by lia.
      apply Qlt_shift_inv_l.
      * unfold Qlt. cbn [Qnum Qden inject_Z]. lia.
      * unfold Qlt. cbn [Qnum Qden inject_Z Qmult]. nia.
Qed.

Lemma nbase_power_pos (w : Z) : (0 < inject_Z NBASE ^ w)%Q.
Proof. now apply Qpower_0_lt. Qed.

Lemma nbase_power_le (v w : Z) :
  v <= w -> (inject_Z NBASE ^ v <= inject_Z NBASE ^ w)%Q.
Proof. intros H. apply Qpower_le_compat_l; [exact H | discriminate]. Qed.

Lemma nbase_power_succ (w : Z) :
  (inject_Z NBASE ^ (w + 1) == inject_Z NBASE * inject_Z NBASE ^ w)%Q.
Proof.
  rewrite Qpower_plus by discriminate. rewrite Qmult_comm.
  reflexivity.
Qed.

Lemma weight_unique (v : Q) (w w' : Z) :
  (inject_Z NBASE ^ w <= v)%Q -> (v < inject_Z NBASE ^ (w + 1))%Q ->
  (inject_Z NBASE ^ w' <= v)%Q -> (v < inject_Z NBASE ^ (w' + 1))%Q ->
  w = w'.
Proof.
  intros L U L' U'.
  destruct (Z.lt_trichotomy w w') as [C|[C|C]]; [|exact C|]; exfalso.
  - pose proof (nbase_power_le (w + 1) w' ltac:(lia)). lra.
  - pose proof (nbase_power_le (w' + 1) w ltac:(lia)). lra.
Qed.

Lemma numeric_weight_zero (x : Q) : x == 0 -> numeric_weight x = 0.
Proof.
  destruct x as [n d]. unfold Qeq, numeric_weight. simpl. intros E.
  assert (n = 0) as -> by lia. reflexivity.
Qed.

Lemma numeric_weight_comp (x y : Q) :
  x == y -> numeric_weight x = numeric_weight y.
Proof.
  intros E. destruct (Qeq_dec x 0) as [Z0|N].
  - rewrite (numeric_weight_zero x Z0).
    symmetry. apply numeric_weight_zero. now rewrite <- E.
  - assert (~ y == 0) as N' by now rewrite <- E.
    destruct (numeric_weight_spec x N) as [L U].
    destruct (numeric_weight_spec y N') as [L' U'].
    assert (Qabs x == Qabs y) as A by now rewrite E.
    rewrite <- A in L', U'.
    eapply weight_unique; eassumption.
Qed.

Lemma numeric_first_digit_comp (x y : Q) :
  x == y -> numeric_first_digit x = numeric_first_digit y.
Proof.
  intros E. unfold numeric_first_digit.
  rewrite (numeric_weight_comp x y E). apply Qfloor_comp.
  now rewrite E.
Qed.

Lemma numeric_first_digit_spec (x : Q) :
  (inject_Z (numeric_first_digit x) * inject_Z NBASE ^ numeric_weight x
   <= Qabs x)%Q
  /\ (Qabs x < (inject_Z (numeric_first_digit x) + 1)
               * inject_Z NBASE ^ numeric_weight x)%Q.
Proof.
  unfold numeric_first_digit.
  set (p := (inject_Z NBASE ^ numeric_weight x)%Q).
  assert (0 < p)%Q as P by apply nbase_power_pos.
  pose proof (Qfloor_le (Qabs x / p)) as L.
  pose proof (Qlt_floor (Qabs x / p)) as U.
  rewrite inject_Z_plus in U.
  assert (Qabs x == Qabs x / p * p)%Q as E.
  { field. lra. }
  split.
  - rewrite E at 2.
    apply Qmult_le_compat_r; [exact L | now apply Qlt_le_weak].
  - rewrite E at 1. apply Qmult_lt_compat_r; [exact P | exact U].
Qed.

Lemma numeric_first_digit_pos (x : Q) :
  ~ x == 0 -> 1 <= numeric_first_digit x.
Proof.
  intros N. destruct (numeric_weight_spec x N) as [L _].
  unfold numeric_first_digit.
  set (p := (inject_Z NBASE ^ numeric_weight x)%Q) in *.
  assert (0 < p)%Q as P by apply nbase_power_pos.
  change 1 with (Qfloor 1). apply Qfloor_resp_le.
  apply Qle_shift_div_l; lra.
Qed.

Lemma numeric_first_digit_zero (x : Q) :
  x == 0 -> numeric_first_digit x = 0.
Proof.
  intros E. rewrite (numeric_first_digit_comp x 0 E). reflexivity.
Qed.

(** The estimate never exceeds the weight of the quotient by much: a
    quotient below the base has an estimate of 0 or less. *)
Lemma estimate_qweight_nonpos (x y : Q) :
  (1 <= Qabs y)%Q ->
  (Qabs x < inject_Z NBASE * Qabs y)%Q ->
  estimate_qweight x y <= 0.
Proof.
  intros Y H.
  assert (~ y == 0) as Ny.
  { intros E. rewrite E in Y. unfold Qle in Y. simpl in Y. lia. }
  destruct (numeric_weight_spec y Ny) as [Ly Uy].
  destruct (numeric_first_digit_spec y) as [Fy Gy].
  pose proof (numeric_first_digit_pos y Ny) as Py.
  assert (0 <= numeric_weight y) as Wy.
  { destruct (Z.le_gt_cases 0 (numeric_weight y)) as [C|C]; [exact C|].
    exfalso.
    pose proof (nbase_power_le (numeric_weight y + 1) 0 ltac:(lia)) as K.
    change (inject_Z NBASE ^ 0)%Q with 1%Q in K. lra. }
  unfold estimate_qweight.
  destruct (Qeq_dec x 0) as [Zx|Nx].
  - rewrite (numeric_weight_zero x Zx), (numeric_first_digit_zero x Zx).
    destruct (Z.leb_spec 0 (numeric_first_digit y)); lia.
  - destruct (numeric_weight_spec x Nx) as [Lx Ux].
    destruct (numeric_first_digit_spec x) as [Fx Gx].
    set (wx := numeric_weight x) in *. set (wy := numeric_weight y) in *.
    set (fx := numeric_first_digit x) in *.
    set (fy := numeric_first_digit y) in *.
    pose proof (nbase_power_succ wy) as Sy.
    pose proof (nbase_power_pos wy) as Qy.
    assert (wx <= wy + 1) as W1.
    { destruct (Z.le_gt_cases wx (wy + 1)) as [C|C]; [exact C|]. exfalso.
      pose proof (nbase_power_le (wy + 1 + 1) wx ltac:(lia)) as K.
      pose proof (nbase_power_succ (wy + 1)) as Sy'.
      assert (inject_Z NBASE * Qabs y
              < inject_Z NBASE * inject_Z NBASE ^ (wy + 1))%Q.
      { apply Qmult_lt_l; [reflexivity | exact Uy]. }
      lra. }
    destruct (Z.leb_spec fx fy) as [C|C]; [lia|].
    destruct (Z.eq_dec wx (wy + 1)) as [E|E]; [exfalso|lia].
    rewrite E, Sy in Fx.
    assert (inject_Z fy + 1 <= inject_Z fx)%Q as F.
    { unfold Qle. simpl. lia. }
    assert ((inject_Z fy + 1) * inject_Z NBASE ^ wy
            <= inject_Z fx * inject_Z NBASE ^ wy)%Q as F'.
    { apply Qmult_le_compat_r; lra. }
    assert (inject_Z NBASE * Qabs y
            < inject_Z NBASE * ((inject_Z fy + 1) * inject_Z NBASE ^ wy))%Q
      as G.
    { apply Qmult_lt_l; [reflexivity | exact Gy]. }
    assert (inject_Z NBASE * (inject_Z fx * inject_Z NBASE ^ wy)
            == inject_Z fx * (inject_Z NBASE * inject_Z NBASE ^ wy))%Q
      as R by ring.
    assert (inject_Z NBASE * ((inject_Z fy + 1) * inject_Z NBASE ^ wy)
            <= inject_Z NBASE * (inject_Z fx * inject_Z NBASE ^ wy))%Q
      as F''.
    { apply Qmult_le_l; [reflexivity | exact F']. }
    lra.
Qed.

Lemma select_div_scale_bounds (x y : Q) (dscale1 dscale2 : Z) :
  0 <= dscale1 <= NUMERIC_MAX_DISPLAY_SCALE ->
  dscale1 <= select_div_scale x dscale1 y dscale2
  /\ 0 <= select_div_scale x dscale1 y dscale2
     <= NUMERIC_MAX_DISPLAY_SCALE
  /\ (estimate_qweight x y <= 0 ->
      NUMERIC_MIN_SIG_DIGITS <= select_div_scale x dscale1 y dscale2).
Proof.
  unfold select_div_scale, NUMERIC_MAX_DISPLAY_SCALE,
    NUMERIC_MIN_DISPLAY_SCALE, NUMERIC_MIN_SIG_DIGITS, DEC_DIGITS.
  lia.
Qed.

Lemma select_div_scale_comp (x x' y y' : Q) (dscale1 dscale2 : Z) :
  x == x' -> y == y' ->
  select_div_scale x dscale1 y dscale2
  = select_div_scale x' dscale1 y' dscale2.
Proof.
  intros Ex Ey. unfold select_div_scale, estimate_qweight.
  now rewrite (numeric_weight_comp x x' Ex), (numeric_weight_comp y y' Ey),
    (numeric_first_digit_comp x x' Ex), (numeric_first_digit_comp y y' Ey).
Qed.

Lemma scale_factor_pos (r : Z) : (0 < scale_factor r)%Q.
Proof. reflexivity. Qed.

Lemma scale_factor_power (r : Z) :
  0 <= r -> scale_factor r = inject_Z (10 ^ r).
Proof.
  intros H. unfold scale_factor. rewrite Z2Pos.id; [reflexivity|].
  now apply Z.pow_pos_nonneg.
Qed.

Lemma Qnum_sgn_comp (x y : Q) : x == y -> Z.sgn (Qnum x) = Z.sgn (Qnum y).
Proof.
  destruct x as [n d], y as [m e]. unfold Qeq. cbn [Qnum Qden]. nia.
Qed.

Lemma round_var_comp (x y : Q) (r : Z) :
  x == y -> round_var x r = round_var y r.
Proof.
  intros E. unfold round_var. rewrite (Qnum_sgn_comp x y E).
  f_equal. f_equal. apply Qfloor_comp. now rewrite E.
Qed.

Lemma round_var_value (x : Q) (r : Z) :
  round_var x r
  == inject_Z (Z.sgn (Qnum x))
     * (inject_Z (Qfloor (Qabs x * scale_factor r + (1 # 2)))
        / scale_factor r).
Proof.
  unfold round_var, scale_factor.
  rewrite Qmake_Qdiv, inject_Z_mult. field. discriminate.
Qed.

Lemma Qabs_sgn (x : Q) : x == inject_Z (Z.sgn (Qnum x)) * Qabs x.
Proof.
  destruct x as [[|p|p] d]; unfold Qeq; simpl; lia.
Qed.

Lemma Qfloor_half (q : Q) : q == 1 # 2 -> Qfloor q = 0.
Proof. intros E. now rewrite (Qfloor_comp _ _ E). Qed.

Lemma round_var_nonneg_value (x : Q) (r : Z) :
  (0 <= x)%Q ->
  round_var x r
  == inject_Z (Qfloor (x * scale_factor r + (1 # 2))) / scale_factor r.
Proof.
  intros H. rewrite round_var_value.
  destruct x as [[|p|p] d].
  - rewrite (Qfloor_half (Qabs (0 # d) * scale_factor r + (1 # 2))),
      (Qfloor_half ((0 # d) * scale_factor r + (1 # 2))).
    + reflexivity.
    + assert (0 # d == 0) as -> by reflexivity. ring.
    + assert (Qabs (0 # d) == 0) as -> by reflexivity. ring.
  - cbn [Qnum Z.sgn Qabs Z.abs]. ring.
  - exfalso. unfold Qle in H. simpl in H. lia.
Qed.

Lemma round_var_nonneg (x : Q) (r : Z) :
  (0 <= x)%Q -> (0 <= round_var x r)%Q.
Proof.
  intros H. rewrite round_var_nonneg_value by exact H.
  apply Qle_shift_div_l; [apply scale_factor_pos|].
  rewrite Qmult_0_l. change 0%Q with (inject_Z 0). rewrite <- Zle_Qle.
  change 0 with (Qfloor 0). apply Qfloor_resp_le.
  pose proof (scale_factor_pos r).
  assert (0 <= x * scale_factor r)%Q by (apply Qmult_le_0_compat; lra).
  lra.
Qed.

Lemma round_var_monotone (x y : Q) (r : Z) :
  (0 <= x)%Q -> (x <= y)%Q -> (round_var x r <= round_var y r)%Q.
Proof.
  intros Hx H. rewrite !round_var_nonneg_value by lra.
  pose proof (scale_factor_pos r) as P.
  apply Qmult_le_compat_r; [|apply Qlt_le_weak, Qinv_lt_0_compat, P].
  rewrite <- Zle_Qle. apply Qfloor_resp_le.
  assert (x * scale_factor r <= y * scale_factor r)%Q
    by (apply Qmult_le_compat_r; lra).
  lra.
Qed.

(** A value that has no more than [r] decimals is left as it is. *)
Lemma round_var_exact (x : Q) (r : Z) (m : Z) :
  (0 <= x)%Q -> x * scale_factor r == inject_Z m -> round_var x r == x.
Proof.
  intros Hx E. rewrite round_var_nonneg_value by exact Hx.
  pose proof (scale_factor_pos r) as P.
  assert (Qfloor (x * scale_factor r + (1 # 2)) = m) as ->.
  { rewrite (Qfloor_comp _ (inject_Z m + (1 # 2))) by now rewrite E.
    pose proof (Qfloor_le (inject_Z m + (1 # 2))) as L.
    pose proof (Qlt_floor (inject_Z m + (1 # 2))) as U.
    set (k := Qfloor _) in *.
    assert (inject_Z k < inject_Z (m + 1))%Q as L'.
    { rewrite inject_Z_plus. change (inject_Z 1) with 1%Q. lra. }
    assert (inject_Z m < inject_Z (k + 1))%Q as U' by lra.
    rewrite <- Zlt_Qlt in L', U'. lia. }
  rewrite <- E. field. lra.
Qed.

(** Rounding moves a value by half a unit of the last place at most. *)
Lemma round_var_error (x : Q) (r : Z) :
  (Qabs (round_var x r - x) <= (1 # 2) / scale_factor r)%Q.
Proof.
  pose proof (scale_factor_pos r) as P.
  set (s := scale_factor r) in *.
  set (k := Qfloor (Qabs x * s + (1 # 2))).
  assert (round_var x r - x
          == inject_Z (Z.sgn (Qnum x)) * (inject_Z k / s - Qabs x))%Q as E.
  { rewrite round_var_value. fold s. fold k.
    rewrite (Qabs_sgn x) at 2. ring. }
  rewrite E, Qabs_Qmult.
  assert (Qabs (inject_Z (Z.sgn (Qnum x))) <= 1)%Q as S1.
  { destruct (Qnum x); discriminate. }
  assert (Qabs (inject_Z k / s - Qabs x) <= (1 # 2) / s)%Q as S2.
  { pose proof (Qfloor_le (Qabs x * s + (1 # 2))) as L.
    pose proof (Qlt_floor (Qabs x * s + (1 # 2))) as U.
    fold k in L, U. rewrite inject_Z_plus in U.
    change (inject_Z 1) with 1%Q in U.
    assert ((inject_Z k / s - Qabs x) * s == inject_Z k - Qabs x * s)%Q
      as M by (field; lra).
    apply Qabs_Qle_condition. split.
    - assert (- ((1 # 2) / s) == (- (1 # 2)) / s)%Q as -> by (field; lra).
      apply Qle_shift_div_r; [exact P|]. rewrite M. lra.
    - apply Qle_shift_div_l; [exact P|]. rewrite M. lra. }
  pose proof (Qabs_nonneg (inject_Z k / s - Qabs x)) as N.
  pose proof (Qabs_nonneg (inject_Z (Z.sgn (Qnum x)))) as N'.
  apply Qle_trans with (1 * Qabs (inject_Z k / s - Qabs x))%Q.
  - apply Qmult_le_compat_r; assumption.
  - now rewrite Qmult_1_l.
Qed.

(** ** Grade point averages *)

Lemma sql_sum_spec (l : list (option Q)) :
  match sql_sum l with
  | Some q => q == Qsum (non_null l) /\ non_null l <> []
  | None => non_null l = []
  end.
Proof.
  induction l as [|[x|] l IH]; simpl; [reflexivity| |exact IH].
  destruct (sql_sum l) as [q|].
  - destruct IH as [IH _]. split; [|discriminate].
    now rewrite IH.
  - rewrite IH. simpl. split; [ring | discriminate].
Qed.

Lemma credit_points_products (rows : list (course * enrollment)) :
  non_null (map (fun '(c, e) =>
                   sql_mul (option_map inject_Z (c_credits c))
                           (e_grade_point e)) rows)
  = map (fun '(cr, gp) => inject_Z cr * gp)%Q (credit_points rows).
Proof.
  induction rows as [|[c e] rows IH]; simpl; [reflexivity|].
  unfold non_null in *. rewrite map_app, <- IH.
  now destruct (c_credits c), (e_grade_point e).
Qed.

Lemma credit_points_credits (rows : list (course * enrollment)) :
  Forall (fun r => e_grade_point (snd r) <> None) rows ->
  non_null (map (fun '(c, e) => option_map inject_Z (c_credits c)) rows)
  = map (fun '(cr, _) => inject_Z cr) (credit_points rows).
Proof.
  induction 1 as [|[c e] rows G _ IH]; simpl; [reflexivity|].
  unfold non_null in *. rewrite map_app, <- IH. simpl in G.
  destruct (c_credits c), (e_grade_point e); simpl; congruence.
Qed.

Lemma credit_points_positive (rows : list (course * enrollment)) :
  Forall (fun r => courses_check (fst r) = true) rows ->
  Forall (fun x => 0 < fst x) (credit_points rows).
Proof.
  induction 1 as [|[c e] rows G _ IH]; simpl; [constructor|].
  apply Forall_app. split; [|exact IH].
  simpl in G. unfold courses_check in G.
  apply andb_true_iff in G as [G _].
  destruct (c_credits c) as [cr|], (e_grade_point e); constructor;
    try constructor.
  simpl in *. destruct (Z.gtb_spec cr 0); [lia | discriminate].
Qed.

Lemma Qsum_credits_positive (l : list (Z * Q)) :
  l <> [] -> Forall (fun x => 0 < fst x) l ->
  (0 < Qsum (map (fun '(cr, _) => inject_Z cr) l))%Q.
Proof.
  intros N H. induction H as [|[cr gp] l P _ IH]; [congruence|].
  simpl in *. destruct l as [|y l].
  - simpl. rewrite Qplus_0_r. unfold Qlt. simpl. lia.
  - apply Qlt_le_trans with (0 + Qsum (map (fun '(cr, _) => inject_Z cr)
                                           (y :: l)))%Q.
    + rewrite Qplus_0_l. apply IH. discriminate.
    + apply Qplus_le_l. unfold Qle. simpl. lia.
Qed.

Lemma Qsum_credits_ge_1 (l : list (Z * Q)) :
  l <> [] -> Forall (fun x => 0 < fst x) l -> (1 <= total_credits l)%Q.
Proof.
  intros N H. unfold total_credits.
  induction H as [|[cr gp] l P _ IH]; [congruence|].
  simpl in *. destruct l as [|y l].
  - simpl. rewrite Qplus_0_r. unfold Qle. simpl. lia.
  - specialize (IH ltac:(discriminate)).
    assert (1 <= inject_Z cr)%Q by (unfold Qle; simpl; lia). lra.
Qed.

(** The [SELECT] list of both functions: never an error on graded rows
    of courses with positive credits; 0.0 over no row that counts, and
    otherwise the weighted average of what the sums take in, rounded to
    the scale of the division. *)
Lemma select_gpa_value (rows : list (course * enrollment)) :
  Forall (fun r => e_grade_point (snd r) <> None) rows ->
  Forall (fun r => courses_check (fst r) = true) rows ->
  exists q, select_gpa rows = Ok q
            /\ (credit_points rows = [] -> q = num_0_0)
            /\ (credit_points rows <> [] ->
                q = round_var (weighted_average (credit_points rows))
                              (gpa_scale (credit_points rows))).
Proof.
  intros G C. unfold select_gpa.
  pose proof (sql_sum_spec
                (map (fun '(c, e) =>
                        sql_mul (option_map inject_Z (c_credits c))
                                (e_grade_point e)) rows)) as S1.
  pose proof (sql_sum_spec
                (map (fun '(c, e) => option_map inject_Z (c_credits c))
                     rows)) as S2.
  rewrite credit_points_products in S1.
  rewrite credit_points_credits in S2 by assumption.
  pose proof (credit_points_positive rows C) as P.
  destruct (credit_points rows) as [|x l] eqn:E.
  - destruct (sql_sum _) as [?|]; [now destruct S1|].
    destruct (sql_sum _) as [?|]; [now destruct S2|].
    simpl. eexists. split; [reflexivity|]. split; [reflexivity|].
    congruence.
  - destruct (sql_sum _) as [n|]; [|discriminate S1].
    destruct (sql_sum _) as [m|]; [|discriminate S2].
    destruct S1 as [S1 _], S2 as [S2 _].
    assert (0 < m)%Q as M.
    { rewrite S2. apply Qsum_credits_positive; [discriminate | exact P]. }
    cbn [numeric_div]. destruct (Qeq_bool m 0) eqn:Z0.
    + apply Qeq_bool_eq in Z0. rewrite Z0 in M.
      now apply Qlt_irrefl in M.
    + cbn [bind coalesce]. eexists. split; [reflexivity|].
      split; [discriminate|]. intros _.
      unfold gpa_scale, weighted_points, total_credits.
      rewrite (select_div_scale_comp n _ m _ 2 0 S1 S2).
      apply round_var_comp. unfold weighted_average.
      now rewrite S1, S2.
Qed.

Lemma get_student_sgpa_rows (d : db) (s_id target_sem_id : uuid) :
  get_student_sgpa d s_id target_sem_id
  = select_gpa (sgpa_rows d s_id target_sem_id).
Proof. reflexivity. Qed.

Lemma sgpa_rows_by_enrollment (d : db) (s_id sem_id : uuid) :
  schema d ->
  sgpa_rows d s_id sem_id
  = flat_map
      (fun e =>
         match lookup_offering d (e_offering_id e) with
         | Some co =>
             match lookup_course d (co_course_id co) with
             | Some c =>
                 if sgpa_where s_id sem_id (e, co, c) then [(c, e)] else []
             | None => []
             end
         | None => []
         end)
      (enrollments d).
Proof.
  intros H. unfold sgpa_rows.
  rewrite (inner_join_as_flat_map _ (enrollments d)).
  rewrite inner_join_flat_map, filter_flat_map, map_flat_map.
  apply flat_map_ext. intros e.
  change (inner_join (fun e0 co => e_offering_id e0 =? co_offering_id co)
                     [e] (course_offerings d))
    with (map (pair e)
              (filter (fun co => e_offering_id e =? co_offering_id co)
                      (course_offerings d)) ++ []).
  rewrite app_nil_r, filter_key_list
    by now apply schema_pk_course_offerings.
  fold (lookup_offering d (e_offering_id e)).
  destruct (lookup_offering d (e_offering_id e)) as [co|];
    [|reflexivity].
  change (inner_join (fun '(_, co0) c => co_course_id co0 =? c_course_id c)
                     (map (pair e) (option_list (Some co))) (courses d))
    with (map (pair (e, co))
              (filter (fun c => co_course_id co =? c_course_id c)
                      (courses d)) ++ []).
  rewrite app_nil_r, filter_key_list by now apply schema_pk_courses.
  fold (lookup_course d (co_course_id co)).
  destruct (lookup_course d (co_course_id co)) as [c|]; [|reflexivity].
  simpl. now destruct (holds _).
Qed.

Lemma lookup_course_check (d : db) (i : uuid) (c : course) :
  schema d -> lookup_course d i = Some c -> courses_check c = true.
Proof.
  intros H L. apply find_some in L as [L _].
  pose proof (courses_checks d H) as F. rewrite forallb_forall in F. auto.
Qed.

Lemma sgpa_rows_graded (d : db) (s_id sem_id : uuid) :
  schema d ->
  Forall (fun r => e_grade_point (snd r) <> None)
         (sgpa_rows d s_id sem_id)
  /\ Forall (fun r => courses_check (fst r) = true)
            (sgpa_rows d s_id sem_id).
Proof.
  intros H. rewrite sgpa_rows_by_enrollment by assumption.
  rewrite !Forall_forall.
  split; intros [c e] Hr; apply in_flat_map in Hr as (e' & _ & Hr);
    destruct (lookup_offering d (e_offering_id e')) as [co|];
    try contradiction;
    destruct (lookup_course d (co_course_id co)) as [c'|] eqn:L;
    try contradiction;
    destruct (sgpa_where s_id sem_id (e', co, c')) eqn:W;
    try contradiction;
    destruct Hr as [[= <- <-]|[]]; simpl.
  - unfold sgpa_where in W. rewrite !holds_and in W.
    destruct (e_grade_point e'); [discriminate|].
    simpl in W. now rewrite andb_false_r in W.
  - eapply lookup_course_check; eauto.
Qed.

Lemma sgpa_credit_points (d : db) (s_id sem_id : uuid) :
  schema d ->
  credit_points (sgpa_rows d s_id sem_id)
  = graded_credits d (in_semester sem_id) s_id.
Proof.
  intros H. rewrite sgpa_rows_by_enrollment by assumption.
  unfold credit_points, graded_credits. rewrite flat_map_flat_map.
  apply flat_map_ext. intros e.
  unfold graded_credit, in_semester.
  destruct (lookup_offering d (e_offering_id e)) as [co|];
    [|now destruct (e_student_id e =? s_id), (e_status e),
        (e_grade_point e)].
  destruct (lookup_course d (co_course_id co)) as [c|].
  - unfold sgpa_where. cbn beta iota. rewrite !holds_and, !holds_lit.
    destruct (e_student_id e =? s_id), (e_status e),
      (e_grade_point e) as [gp|] eqn:G, (co_semester_id co) as [i|];
      try reflexivity;
      try (rewrite holds_cmp_some; destruct (i =? sem_id));
      simpl; rewrite ?G; try reflexivity;
      now destruct (c_credits c).
  - destruct (e_student_id e =? s_id), (e_status e),
      (e_grade_point e), (co_semester_id co) as [i|];
      try reflexivity; simpl; now destruct (i =? sem_id).
Qed.

Lemma get_student_cgpa_rows (d : db) (s_id : uuid)
      (max_sem_date : option date) :
  get_student_cgpa d s_id max_sem_date
  = select_gpa (cgpa_rows d s_id max_sem_date).
Proof. reflexivity. Qed.

Lemma cgpa_rows_by_enrollment (d : db) (s_id : uuid)
      (cutoff : option date) :
  schema d ->
  cgpa_rows d s_id cutoff
  = flat_map
      (fun e =>
         match lookup_offering d (e_offering_id e) with
         | Some co =>
             match co_semester_id co with
             | Some i =>
                 match lookup_semester d i,
                       lookup_course d (co_course_id co) with
                 | Some s, Some c =>
                     if cgpa_where s_id cutoff (e, co, s, c)
                     then [(c, e)] else []
                 | _, _ => []
                 end
             | None => []
             end
         | None => []
         end)
      (enrollments d).
Proof.
  intros H. unfold cgpa_rows.
  rewrite (inner_join_as_flat_map _ (enrollments d)).
  rewrite !inner_join_flat_map, filter_flat_map, map_flat_map.
  apply flat_map_ext. intros e.
  change (inner_join (fun e0 co => e_offering_id e0 =? co_offering_id co)
                     [e] (course_offerings d))
    with (map (pair e)
              (filter (fun co => e_offering_id e =? co_offering_id co)
                      (course_offerings d)) ++ []).
  rewrite app_nil_r, filter_key_list
    by now apply schema_pk_course_offerings.
  fold (lookup_offering d (e_offering_id e)).
  destruct (lookup_offering d (e_offering_id e)) as [co|];
    [|reflexivity].
  change (inner_join
            (fun '(_, co0) s =>
               holds (sql_cmp Z.eqb (co_semester_id co0)
                              (Some (sem_semester_id s))))
            (map (pair e) (option_list (Some co))) (semesters d))
    with (map (pair (e, co))
              (filter (fun s =>
                         holds (sql_cmp Z.eqb (co_semester_id co)
                                        (Some (sem_semester_id s))))
                      (semesters d)) ++ []).
  rewrite app_nil_r, filter_nullable_key by now apply schema_pk_semesters.
  destruct (co_semester_id co) as [i|]; [|reflexivity].
  fold (lookup_semester d i).
  destruct (lookup_semester d i) as [s|]; [|reflexivity].
  change (inner_join
            (fun '(_, co0, _) c => co_course_id co0 =? c_course_id c)
            (map (pair (e, co)) (option_list (Some s))) (courses d))
    with (map (pair (e, co, s))
              (filter (fun c => co_course_id co =? c_course_id c)
                      (courses d)) ++ []).
  rewrite app_nil_r, filter_key_list by now apply schema_pk_courses.
  fold (lookup_course d (co_course_id co)).
  destruct (lookup_course d (co_course_id co)) as [c|]; [|reflexivity].
  simpl. now destruct (holds _).
Qed.

Lemma cgpa_rows_graded (d : db) (s_id : uuid) (cutoff : option date) :
  schema d ->
  Forall (fun r => e_grade_point (snd r) <> None)
         (cgpa_rows d s_id cutoff)
  /\ Forall (fun r => courses_check (fst r) = true)
            (cgpa_rows d s_id cutoff).
Proof.
  intros H. rewrite cgpa_rows_by_enrollment by assumption.
  rewrite !Forall_forall.
  split; intros [c e] Hr; apply in_flat_map in Hr as (e' & _ & Hr);
    destruct (lookup_offering d (e_offering_id e')) as [co|];
    try contradiction;
    destruct (co_semester_id co) as [i|]; try contradiction;
    destruct (lookup_semester d i) as [s|]; try contradiction;
    destruct (lookup_course d (co_course_id co)) as [c'|] eqn:L;
    try contradiction;
    destruct (cgpa_where s_id cutoff (e', co, s, c')) eqn:W;
    try contradiction;
    destruct Hr as [[= <- <-]|[]]; simpl.
  - unfold cgpa_where in W. rewrite !holds_and in W.
    destruct (e_grade_point e'); [discriminate|].
    simpl in W. now rewrite andb_false_r in W.
  - eapply lookup_course_check; eauto.
Qed.

Lemma cgpa_credit_points (d : db) (s_id : uuid) (cutoff : option date) :
  schema d ->
  credit_points (cgpa_rows d s_id cutoff)
  = graded_credits d (started_by d cutoff) s_id.
Proof.
  intros H. rewrite cgpa_rows_by_enrollment by assumption.
  unfold credit_points, graded_credits. rewrite flat_map_flat_map.
  apply flat_map_ext. intros e.
  unfold graded_credit, started_by.
  destruct (lookup_offering d (e_offering_id e)) as [co|];
    [|now destruct (e_student_id e =? s_id), (e_status e),
        (e_grade_point e)].
  destruct (co_semester_id co) as [i|];
    [|now destruct (e_student_id e =? s_id), (e_status e),
        (e_grade_point e)].
  destruct (lookup_semester d i) as [s|],
    (lookup_course d (co_course_id co)) as [c|];
    try (now destruct (e_student_id e =? s_id), (e_status e),
          (e_grade_point e), cutoff).
  - unfold cgpa_where. cbn beta iota.
    rewrite !holds_and, !holds_or, !holds_lit.
    destruct (e_student_id e =? s_id), (e_status e),
      (e_grade_point e) as [gp|] eqn:G, cutoff as [cut|];
      try reflexivity;
      try (destruct (sem_start_date s) as [sd|];
           [rewrite holds_cmp_some; destruct (sd <=? cut)|]);
      simpl; rewrite ?G; try reflexivity;
      now destruct (c_credits c).
  - destruct (e_student_id e =? s_id), (e_status e), (e_grade_point e),
      cutoff as [cut|]; try reflexivity.
    now destruct (sem_start_date s) as [sd|]; [destruct (sd <=? cut)|].
Qed.

(** The grade points of the rows that count are [DECIMAL(4, 2)]. *)
Lemma decimal_4_2_spec (x : Q) :
  decimal_4_2 x = true ->
  (exists k, x * 100 == inject_Z k)
  /\ (- (9999 # 100) <= x)%Q /\ (x <= 9999 # 100)%Q.
Proof.
  destruct x as [n d]. unfold decimal_4_2. cbn [Qnum Qden]. intros H.
  apply andb_true_iff in H as [H1 H2].
  apply Z.eqb_eq in H1. apply Z.leb_le in H2.
  pose proof (Z.div_mod (n * 100) (Zpos d) ltac:(lia)) as E.
  rewrite H1, Z.add_0_r in E.
  set (k := n * 100 / Zpos d) in *.
  split.
  - exists k. unfold Qeq. simpl. lia.
  - unfold Qle. simpl. split; nia.
Qed.

Lemma graded_credits_typed (d : db) (scope : course_offering -> bool)
      (s_id : uuid) :
  grade_points_typed d ->
  Forall (fun x => decimal_4_2 (snd x) = true)
         (graded_credits d scope s_id).
Proof.
  intros H. apply Forall_forall. intros [cr gp] Hx.
  unfold graded_credits in Hx.
  apply in_flat_map in Hx as (e & He & Hx).
  destruct (e_student_id e =? s_id); [|contradiction].
  unfold graded_credit in Hx.
  destruct (e_status e); try contradiction.
  destruct (e_grade_point e) as [g|] eqn:G; [|contradiction].
  destruct (lookup_offering d (e_offering_id e)) as [co|];
    [|contradiction].
  destruct (scope co); [|contradiction].
  destruct (lookup_course d (co_course_id co)) as [c|]; [|contradiction].
  destruct (c_credits c) as [k|]; [|contradiction].
  destruct Hx as [[= <- <-]|[]].
  unfold grade_points_typed in H. rewrite forallb_forall in H.
  specialize (H e He). now rewrite G in H.
Qed.

Lemma weighted_points_range (lo hi : Q) (l : list (Z * Q)) :
  Forall (fun x => 0 < fst x /\ (lo <= snd x)%Q /\ (snd x <= hi)%Q) l ->
  (lo * total_credits l <= weighted_points l)%Q
  /\ (weighted_points l <= hi * total_credits l)%Q.
Proof.
  unfold weighted_points, total_credits.
  induction 1 as [|[cr gp] l (C & L & U) _ [IH1 IH2]]; simpl.
  - split; lra.
  - simpl in C, L, U.
    assert (0 < inject_Z cr)%Q as Cq by (unfold Qlt; simpl; lia).
    assert (inject_Z cr * lo <= inject_Z cr * gp)%Q as P1
        by now apply Qmult_le_l.
    assert (inject_Z cr * gp <= inject_Z cr * hi)%Q as P2
        by now apply Qmult_le_l.
    split; lra.
Qed.

(** Sixteen decimals or more: the average of grade points below 100 has
    its first digit before the decimal point. *)
Lemma gpa_scale_sixteen (l : list (Z * Q)) :
  l <> [] ->
  Forall (fun x => 0 < fst x) l ->
  Forall (fun x => decimal_4_2 (snd x) = true) l ->
  16 <= gpa_scale l.
Proof.
  intros N P T.
  pose proof (Qsum_credits_ge_1 l N P) as C1.
  assert (Forall (fun x => 0 < fst x /\ (- (9999 # 100) <= snd x)%Q
                           /\ (snd x <= 9999 # 100)%Q) l) as F.
  { rewrite Forall_forall in P, T |- *. intros x Hx.
    split; [now apply P|]. now apply decimal_4_2_spec, T. }
  destruct (weighted_points_range _ _ l F) as [L U].
  apply (select_div_scale_bounds (weighted_points l) (total_credits l) 2 0);
    [unfold NUMERIC_MAX_DISPLAY_SCALE; lia|].
  assert (Qabs (total_credits l) == total_credits l)%Q as A
      by (apply Qabs_pos; lra).
  apply estimate_qweight_nonpos.
  - now rewrite A.
  - rewrite A. apply Qabs_Qlt_condition.
    change (inject_Z NBASE) with 10000%Q. split; lra.
Qed.

Lemma scale_factor_sixteen (r : Z) :
  16 <= r -> ((1 # 2) / scale_factor r <= 1 # 20000000000000000)%Q.
Proof.
  intros H. rewrite scale_factor_power by lia.
  assert (10 ^ 16 <= 10 ^ r) as K by (apply Z.pow_le_mono_r; lia).
  apply Qle_shift_div_r.
  - change 0%Q with (inject_Z 0). rewrite <- Zlt_Qlt. lia.
  - unfold Qle. cbn [Qnum Qden Qmult inject_Z].
    change (10 ^ 16) with 10000000000000000 in K. lia.
Qed.

Lemma select_gpa_rounded (rows : list (course * enrollment))
      (l : list (Z * Q)) :
  Forall (fun r => e_grade_point (snd r) <> None) rows ->
  Forall (fun r => courses_check (fst r) = true) rows ->
  credit_points rows = l ->
  Forall (fun x => decimal_4_2 (snd x) = true) l ->
  exists q, select_gpa rows = Ok q /\ rounded_average l q.
Proof.
  intros G C E T.
  destruct (select_gpa_value rows G C) as (q & Eq & Z0 & R).
  pose proof (credit_points_positive rows C) as P.
  rewrite E in Z0, R, P.
  exists q. split; [exact Eq|]. split; [exact Z0|].
  destruct l as [|x l].
  - split; [congruence|]. rewrite (Z0 eq_refl). discriminate.
  - assert (x :: l <> []) as N by discriminate.
    pose proof (gpa_scale_sixteen _ N P T) as S.
    split; [intros _; split; [now apply R | exact S]|].
    rewrite (R N).
    eapply Qle_trans; [apply round_var_error|].
    now apply scale_factor_sixteen.
Qed.

(** C3, as the queries have it.  The SGPA of a student in a semester is
    the credit-weighted average [Σ(credits·grade_point) / Σ(credits)]
    over the completed enrollments with a grade point whose offering
    belongs to the semester; the CGPA is the same average over the
    completed enrollments with a grade point whose offering refers to a
    semester, with a cutoff only those whose semester started on or
    before it.  Courses without credits do not count.  The average is
    returned as the division of numerics yields it: rounded, half away
    from zero, to a scale of sixteen decimals or more, so within half a
    unit of the sixteenth decimal of the exact average.  Both are 0.0
    over no course, and neither raises an error. *)
Theorem gpa_weighted_average (d : db) (s_id : uuid) :
  schema d ->
  grade_points_typed d ->
  (forall sem_id,
      exists q,
        get_student_sgpa d s_id sem_id = Ok q
        /\ rounded_average (graded_credits d (in_semester sem_id) s_id) q)
  /\ (forall cutoff,
         exists q,
           get_student_cgpa d s_id cutoff = Ok q
           /\ rounded_average
                (graded_credits d (started_by d cutoff) s_id) q).
Proof.
  intros H T. split.
  - intros sem_id. rewrite get_student_sgpa_rows.
    destruct (sgpa_rows_graded d s_id sem_id H) as [G C].
    apply (select_gpa_rounded _ _ G C).
    + now apply sgpa_credit_points.
    + now apply graded_credits_typed.
  - intros cutoff. rewrite get_student_cgpa_rows.
    destruct (cgpa_rows_graded d s_id cutoff H) as [G C].
    apply (select_gpa_rounded _ _ G C).
    + now apply cgpa_credit_points.
    + now apply graded_credits_typed.
Qed.

(** Student 5 in semester 9: 4 credits at 8 and 3 credits at 9, so
    59.00 / 7, returned with sixteen decimals. *)
Lemma gpa_weighted_average_witness :
  schema campus
  /\ grade_points_typed campus
  /\ get_student_sgpa campus 5 9
     = Ok (84285714285714286 # 10000000000000000)
  /\ graded_credits campus (in_semester 9) 5 = [(4, 8%Q); (3, 9%Q)]
  /\ gpa_scale [(4, 8%Q); (3, 9%Q)] = 16
  /\ exists q,
      get_student_cgpa campus 5 (Some 50) = Ok q
      /\ rounded_average
           (graded_credits campus (started_by campus (Some 50)) 5) q.
Proof.
  split; [exact campus_schema|]. do 4 (split; [reflexivity|]).
  exact (proj2 (gpa_weighted_average campus 5 campus_schema eq_refl)
               (Some 50)).
Defined.

(** C3, as stated, fails: student 5 has three completed, graded
    enrollments, in courses of 4, 3 and 4 credits with grade points 8, 9
    and 8; without a cutoff the average over all of them is 91/11, and
    [get_student_cgpa] returns 59/7 to sixteen decimals, the average
    over the two whose offering still refers to a semester: more than a
    tenth above 91/11, and not 59/7 itself. *)
Lemma cgpa_skips_offering_without_semester :
  schema campus
  /\ spec_cgpa campus 5 None = Some (91 # 11)
  /\ get_student_cgpa campus 5 None
     = Ok (84285714285714286 # 10000000000000000)
  /\ ~ (84285714285714286 # 10000000000000000 == 91 # 11)
  /\ (1 # 10 < (84285714285714286 # 10000000000000000) - (91 # 11))%Q
  /\ ~ (84285714285714286 # 10000000000000000 == 59 # 7).
Proof.
  split; [exact campus_schema|]. split; [reflexivity|].
  split; [reflexivity|]. split; [discriminate|].
  split; [reflexivity | discriminate].
Qed.

(** ** Attendance statistics of an offering *)

Lemma mapM_Ok {A B} (f : A -> result B) (g : A -> B) (l : list A) :
  (forall a, In a l -> f a = Ok (g a)) -> mapM f l = Ok (map g l).
Proof.
  induction l as [|a l IH]; simpl; intros H; [reflexivity|].
  rewrite (H a (or_introl eq_refl)). simpl.
  rewrite IH by auto. reflexivity.
Qed.

Lemma stats_select_value (g : stats_key * list stats_row) (n : Z) :
  snd (fst g) = Some n -> stats_select g = Ok (stats_value g).
Proof.
  destruct g as [[[[sid name] roll] t] rows]. simpl. intros ->.
  unfold stats_select, stats_value. simpl.
  destruct (Z.gtb_spec n 0) as [P|P]; [|reflexivity].
  simpl. destruct (Qeq_bool (inject_Z n) 0) eqn:E; [|reflexivity].
  apply Qeq_bool_eq in E. unfold Qeq in E. simpl in E. lia.
Qed.

Lemma group_by_keys {A K} (dec : forall x y : K, {x = y} + {x <> y})
      (key : A -> K) (rows : list A) (g : K * list A) :
  In g (group_by dec key rows) ->
  In (fst g) (map key rows)
  /\ snd g = filter (fun r => if dec (key r) (fst g) then true else false)
                    rows.
Proof.
  unfold group_by. intros H. apply in_map_iff in H as (k & <- & H).
  apply nodup_In in H. split; [assumption | reflexivity].
Qed.

(** The function never raises: the division is guarded by the [CASE]. *)
Lemma get_course_attendance_stats_value (d : db) (o_id : uuid) :
  get_course_attendance_stats d o_id
  = Ok (map stats_value
            (group_by stats_key_dec
                      (stats_key_of (Some (get_total_class_days d o_id)))
                      (stats_rows d o_id))).
Proof.
  unfold get_course_attendance_stats. apply mapM_Ok.
  intros g Hg. apply stats_select_value with (get_total_class_days d o_id).
  apply group_by_keys in Hg as [Hg _].
  apply in_map_iff in Hg as ([[[e s] u] ar] & <- & _). reflexivity.
Qed.

Lemma left_join_as_flat_map {A B} (on : A -> B -> bool)
      (l : list A) (r : list B) :
  left_join on l r = flat_map (fun a => left_join on [a] r) l.
Proof.
  unfold left_join. apply flat_map_ext. intros a. simpl.
  now rewrite app_nil_r.
Qed.

Lemma left_join_flat_map {A B C} (on : B -> C -> bool)
      (h : A -> list B) (l : list A) (r : list C) :
  left_join on (flat_map h l) r
  = flat_map (fun a => left_join on (h a) r) l.
Proof. unfold left_join. apply flat_map_flat_map. Qed.

Lemma stats_rows_by_enrollment (d : db) (o_id : uuid) :
  schema d ->
  stats_rows d o_id = flat_map (stats_rows_of d o_id) (enrollments d).
Proof.
  intros H. unfold stats_rows, stats_from.
  rewrite (inner_join_as_flat_map _ (enrollments d)).
  rewrite inner_join_flat_map, left_join_flat_map, filter_flat_map.
  apply flat_map_ext. intros e. unfold stats_rows_of.
  change (inner_join (fun e0 s => e_student_id e0 =? s_student_id s)
                     [e] (students d))
    with (map (pair e)
              (filter (fun s => e_student_id e =? s_student_id s)
                      (students d)) ++ []).
  rewrite app_nil_r, filter_key_list by now apply schema_pk_students.
  fold (lookup_student d (e_student_id e)).
  destruct (lookup_student d (e_student_id e)) as [s|];
    [|now destruct (_ && _)].
  change (inner_join (fun '(_, s0) u => s_student_id s0 =? u_user_id u)
                     (map (pair e) (option_list (Some s))) (users d))
    with (map (pair (e, s))
              (filter (fun u => s_student_id s =? u_user_id u)
                      (users d)) ++ []).
  rewrite app_nil_r, filter_key_list by now apply schema_pk_users.
  fold (lookup_user d (s_student_id s)).
  destruct (lookup_user d (s_student_id s)) as [u|];
    [|now destruct (_ && _)].
  change (left_join
            (fun '(e0, _, _) ar =>
               (e_offering_id e0 =? ar_offering_id ar)
               && (e_student_id e0 =? ar_student_id ar))
            (map (pair (e, s)) (option_list (Some u)))
            (attendance_records d))
    with (attendance_of d (e, s, u) ++ []).
  rewrite app_nil_r.
  destruct ((e_offering_id e =? o_id)
            && enrollment_status_eqb (e_status e) enrolled) eqn:W.
  - apply forallb_filter_id. apply forallb_forall.
    intros [[[e' s'] u'] ar] Hr. unfold attendance_of in Hr.
    destruct (filter _ (attendance_records d)) as [|a m].
    + destruct Hr as [[= <- <- <- <-]|[]]. exact W.
    + apply in_map_iff in Hr as (? & [= <- <- <- <-] & _). exact W.
  - clear H. unfold attendance_of.
    destruct (filter _ (attendance_records d)) as [|a m];
      [simpl; now rewrite W|].
    induction (a :: m) as [|b l IH]; simpl; [reflexivity|].
    now rewrite W.
Qed.

Lemma schema_uq_enrollments (d : db) :
  schema d ->
  NoDup (map (fun e => (e_student_id e, e_offering_id e)) (enrollments d)).
Proof. intros H. eapply distinctb_NoDup, H. apply pair_eqb_eq. Qed.

Lemma schema_uq_attendance (d : db) :
  schema d ->
  NoDup (map (fun ar => (ar_offering_id ar, ar_student_id ar, ar_date ar))
             (attendance_records d)).
Proof. intros H. eapply distinctb_NoDup, H. apply triple_eqb_eq. Qed.

Lemma attendance_of_nonempty (d : db) (x : enrollment * student_row * user) :
  exists r, In r (attendance_of d x).
Proof.
  unfold attendance_of.
  destruct (filter _ (attendance_records d)) as [|a m];
    eexists; left; reflexivity.
Qed.

Lemma in_attendance_of (d : db) (x : enrollment * student_row * user)
      (r : stats_row) :
  In r (attendance_of d x) -> fst r = x.
Proof.
  unfold attendance_of.
  destruct (filter _ (attendance_records d)) as [|a m].
  - intros [<-|[]]. reflexivity.
  - intros H. apply in_map_iff in H as (? & <- & _). reflexivity.
Qed.

(** What a row of [stats_rows_of] is made of. *)
Lemma in_stats_rows_of (d : db) (o_id : uuid) (e : enrollment)
      (r : stats_row) :
  In r (stats_rows_of d o_id e) ->
  exists s u,
    e_offering_id e = o_id /\ e_status e = enrolled
    /\ lookup_student d (e_student_id e) = Some s
    /\ s_student_id s = e_student_id e
    /\ lookup_user d (s_student_id s) = Some u
    /\ stats_rows_of d o_id e = attendance_of d (e, s, u)
    /\ fst r = (e, s, u).
Proof.
  unfold stats_rows_of.
  destruct (_ && _) eqn:W; [|contradiction].
  apply andb_true_iff in W as [W1 W2].
  apply Z.eqb_eq in W1. apply enrollment_status_eqb_eq in W2.
  destruct (lookup_student d (e_student_id e)) as [s|] eqn:Ls;
    [|contradiction].
  destruct (lookup_user d (s_student_id s)) as [u|] eqn:Lu;
    [|contradiction].
  intros Hr. exists s, u. repeat split; try assumption.
  - unfold lookup_student in Ls. apply find_some in Ls as [_ Ls].
    apply Z.eqb_eq in Ls. congruence.
  - now apply in_attendance_of in Hr.
Qed.

Lemma flat_map_nil {A B} (h : A -> list B) (l : list A) :
  (forall a, In a l -> h a = []) -> flat_map h l = [].
Proof.
  induction l as [|a l IH]; simpl; intros H; [reflexivity|].
  rewrite (H a (or_introl eq_refl)), IH by auto. reflexivity.
Qed.

(** With a key on [l], a [flat_map] to which one row only contributes. *)
Lemma flat_map_single {A B K} (kf : A -> K) (h : A -> list B)
      (l : list A) (a1 : A) :
  NoDup (map kf l) -> In a1 l ->
  (forall a, In a l -> kf a <> kf a1 -> h a = []) ->
  flat_map h l = h a1.
Proof.
  induction l as [|x l IH]; simpl; [tauto|].
  intros N [->|Hin] H; inversion N as [|? ? Nx Nl]; subst.
  - rewrite flat_map_nil; [apply app_nil_r|].
    intros a Ha. apply H; [now right|].
    intros E. apply Nx. rewrite <- E. now apply in_map.
  - rewrite (H x (or_introl eq_refl)).
    + simpl. apply IH; auto.
    + intros E. apply Nx. rewrite E. now apply in_map.
Qed.

Lemma list_empty {A} (l : list A) : (forall x, ~ In x l) -> l = [].
Proof.
  destruct l as [|a l]; [reflexivity|].
  intros H. exfalso. apply (H a). now left.
Qed.

(** Under the schema, the group of a row is what its enrollment
    contributes. *)
Lemma stats_group (d : db) (o_id : uuid) (t : option Z)
      (e : enrollment) (r : stats_row) :
  schema d -> In e (enrollments d) -> In r (stats_rows_of d o_id e) ->
  filter (fun r' => if stats_key_dec (stats_key_of t r')
                                     (stats_key_of t r)
                    then true else false)
         (stats_rows d o_id)
  = stats_rows_of d o_id e.
Proof.
  intros H He Hr.
  destruct (in_stats_rows_of d o_id e r Hr)
    as (s & u & Eo & Est & Ls & Es & Lu & _ & Er).
  rewrite stats_rows_by_enrollment, filter_flat_map by assumption.
  rewrite (flat_map_single (fun e => (e_student_id e, e_offering_id e))
                           _ _ e (schema_uq_enrollments d H) He).
  - apply forallb_filter_id. apply forallb_forall. intros r' Hr'.
    destruct (in_stats_rows_of d o_id e r' Hr')
      as (s' & u' & _ & _ & Ls' & _ & Lu' & _ & Er').
    assert (s' = s) as -> by congruence.
    assert (u' = u) as -> by congruence.
    destruct r as [x ar], r' as [x' ar']. simpl in Er, Er'. subst x x'.
    change (stats_key_of t (e, s, u, ar'))
      with (stats_key_of t (e, s, u, ar)).
    now destruct (stats_key_dec _ _).
  - intros e' He' Ne. apply list_empty. intros r' Hr'.
    apply filter_In in Hr' as [Hr' K].
    destruct (in_stats_rows_of d o_id e' r' Hr')
      as (s' & u' & Eo' & _ & _ & Es' & _ & _ & Er').
    destruct r as [x ar], r' as [x' ar']. simpl in Er, Er'. subst x x'.
    destruct (stats_key_dec _ _) as [K'|]; [|discriminate].
    unfold stats_key_of in K'. injection K' as K1 _ _.
    apply Ne. congruence.
Qed.

Lemma count_present_attendance_of (d : db)
      (x : enrollment * student_row * user) :
  count_filter is_present (attendance_of d x)
  = present_count d (e_student_id (fst (fst x)))
                  (e_offering_id (fst (fst x))).
Proof.
  unfold count_filter, present_count, attendance_of. f_equal.
  set (on := fun ar =>
               (e_offering_id (fst (fst x)) =? ar_offering_id ar)
               && (e_student_id (fst (fst x)) =? ar_student_id ar)).
  assert (filter (fun ar => on ar
                            && attendance_status_eqb (ar_status ar) present)
                 (attendance_records d)
          = filter (fun ar => attendance_status_eqb (ar_status ar) present)
                   (filter on (attendance_records d))) as F.
  { induction (attendance_records d) as [|a l IH]; simpl; [reflexivity|].
    destruct (on a); simpl; rewrite IH; reflexivity. }
  transitivity
    (length (filter (fun ar => attendance_status_eqb (ar_status ar) present)
                    (filter on (attendance_records d))));
    [|now rewrite <- F].
  assert (forall m,
             length (filter is_present (map (fun ar => (x, Some ar)) m))
             = length (filter (fun ar =>
                                 attendance_status_eqb (ar_status ar)
                                                       present) m)) as M.
  { induction m as [|a m IH]; simpl; [reflexivity|].
    destruct x as [[e s] u]. simpl in *.
    destruct (attendance_status_eqb (ar_status a) present); simpl;
      now rewrite <- IH. }
  destruct (filter on (attendance_records d)) as [|a m] eqn:E.
  - destruct x as [[e s] u]. reflexivity.
  - apply M.
Qed.

(** Every returned row is the row of an enrolled student of the
    offering, over the records [attendance_of] finds. *)
Lemma stats_row_inv (d : db) (o_id : uuid) (st : attendance_stats) :
  schema d ->
  In st (map stats_value
             (group_by stats_key_dec
                (stats_key_of (Some (get_total_class_days d o_id)))
                (stats_rows d o_id))) ->
  exists e s u,
    In e (enrollments d)
    /\ e_offering_id e = o_id /\ e_status e = enrolled
    /\ lookup_student d (e_student_id e) = Some s
    /\ lookup_user d (s_student_id s) = Some u
    /\ st = stats_value
              ((e_student_id e, u_full_name u, s_roll_number s,
                Some (get_total_class_days d o_id)),
               attendance_of d (e, s, u)).
Proof.
  intros H Hst. apply in_map_iff in Hst as (g & <- & Hg).
  apply group_by_keys in Hg as [Hk Hg].
  apply in_map_iff in Hk as (r & Kr & Hr).
  pose proof Hr as Hr'.
  rewrite stats_rows_by_enrollment in Hr' by assumption.
  apply in_flat_map in Hr' as (e & He & Hre).
  destruct (in_stats_rows_of d o_id e r Hre)
    as (s & u & Eo & Est & Ls & Es & Lu & Ea & Er).
  exists e, s, u. repeat split; try assumption.
  rewrite <- Kr in Hg. rewrite (stats_group d o_id _ e r H He Hre) in Hg.
  destruct g as [k rows]. simpl in *. subst k rows.
  destruct r as [x ar]. simpl in Er. subst x. simpl.
  rewrite Es, Ea. reflexivity.
Qed.

(** ** Truncation *)

Lemma sql_trunc_2 (x : Q) :
  sql_trunc x 2 = Z.quot (Qnum x * 100) (Zpos (Qden x)) # 100.
Proof. reflexivity. Qed.

(** [TRUNC] depends on the value only, not on how the fraction is
    written. *)
Lemma sql_trunc_2_proper (x y : Q) :
  x == y -> sql_trunc x 2 = sql_trunc y 2.
Proof.
  intros E. rewrite !sql_trunc_2. f_equal.
  unfold Qeq in E.
  rewrite <- (Z.quot_mul_cancel_r (Qnum x * 100) _ (Zpos (Qden y)))
    by lia.
  rewrite <- (Z.quot_mul_cancel_r (Qnum y * 100) _ (Zpos (Qden x)))
    by lia.
  f_equal; lia.
Qed.

Lemma sql_trunc_2_bounds (x : Q) :
  (0 <= x -> x <= 100 -> 0 <= sql_trunc x 2 /\ sql_trunc x 2 <= 100)%Q.
Proof.
  intros L U. rewrite sql_trunc_2.
  unfold Qle in *. simpl in *.
  assert (0 <= Qnum x) as N by lia.
  rewrite Z.quot_div_nonneg by lia.
  split.
  - rewrite Z.mul_1_r. apply Z.div_pos; lia.
  - assert (Qnum x * 100 / Zpos (Qden x) <= 10000); [|lia].
    apply Z.div_le_upper_bound; lia.
Qed.

(** ** Attendance percentage, roster and bounds *)

Lemma get_total_class_days_nonneg (d : db) (o_id : uuid) :
  0 <= get_total_class_days d o_id.
Proof. unfold get_total_class_days, count_distinct. lia. Qed.

Lemma NoDup_map_filter {A K} (key : A -> K) (f : A -> bool) (l : list A) :
  NoDup (map key l) -> NoDup (map key (filter f l)).
Proof.
  induction l as [|a l IH]; simpl; intros H; [constructor|].
  inversion H as [|? ? Ha Hl]; subst.
  destruct (f a); simpl; [constructor|]; auto.
  intros Hin. apply Ha. apply in_map_iff in Hin as (b & E & Hb).
  apply filter_In in Hb as [Hb _]. rewrite <- E. now apply in_map.
Qed.

(** One record per student and class day: a student is present on no
    more days than the offering has class days. *)
Lemma present_count_le_total (d : db) (s_id o_id : uuid) :
  schema d ->
  0 <= present_count d s_id o_id <= get_total_class_days d o_id.
Proof.
  intros H. unfold present_count, get_total_class_days, count_distinct.
  split; [lia|]. apply inj_le.
  set (m := filter (fun ar => (o_id =? ar_offering_id ar)
                              && (s_id =? ar_student_id ar))
                   (attendance_records d)).
  transitivity (length (map ar_date m)).
  - rewrite length_map.
    assert (filter (fun ar => (o_id =? ar_offering_id ar)
                              && (s_id =? ar_student_id ar)
                              && attendance_status_eqb (ar_status ar)
                                                       present)
                   (attendance_records d)
            = filter (fun ar => attendance_status_eqb (ar_status ar)
                                                      present) m) as ->.
    { unfold m. induction (attendance_records d) as [|a l IH]; simpl;
        [reflexivity|].
      destruct ((o_id =? ar_offering_id a) && (s_id =? ar_student_id a));
        simpl; rewrite IH; reflexivity. }
    apply filter_length_le.
  - apply NoDup_incl_length.
    + apply NoDup_map_NoDup_ForallPairs.
      * intros a b Ha Hb E.
        apply filter_In in Ha as [Ha Ka], Hb as [Hb Kb].
        apply andb_true_iff in Ka as [Ka1 Ka2], Kb as [Kb1 Kb2].
        apply Z.eqb_eq in Ka1, Ka2, Kb1, Kb2.
        apply (NoDup_map_eq _ _ a b (schema_uq_attendance d H) Ha Hb).
        congruence.
      * apply NoDup_filter.
        eapply NoDup_map_inv, schema_uq_attendance, H.
    + intros x Hx. apply nodup_In.
      apply in_map_iff in Hx as (a & <- & Ha).
      apply filter_In in Ha as [Ha Ka].
      apply andb_true_iff in Ka as [Ka _].
      apply in_map. apply filter_In. split; [assumption|].
      now rewrite Z.eqb_sym.
Qed.

Lemma percentage_as_computed (p n : Z) :
  0 <= n ->
  (if n >? 0
   then sql_trunc (inject_Z p * num_100_0 / inject_Z n)%Q 2
   else num_0_0)
  = percentage_of p n.
Proof.
  intros N. unfold percentage_of.
  destruct (Z.gtb_spec n 0), (Z.eqb_spec n 0); try lia; [|reflexivity].
  apply sql_trunc_2_proper. unfold num_100_0. field.
  intros E. unfold Qeq in E. simpl in E. lia.
Qed.

Lemma percentage_of_bounds (p n : Z) :
  0 <= p <= n ->
  (0 <= percentage_of p n /\ percentage_of p n <= 100)%Q.
Proof.
  intros B. unfold percentage_of.
  destruct (Z.eqb_spec n 0); [split; discriminate|].
  apply sql_trunc_2_bounds.
  - apply Qmult_le_0_compat; [|discriminate].
    apply Qle_shift_div_l; unfold Qlt, Qle; simpl; lia.
  - setoid_replace (100 : Q) with (1 * 100)%Q by ring.
    apply Qmult_le_compat_r; [|discriminate].
    apply Qle_shift_div_r; [|rewrite Qmult_1_l];
      unfold Qlt, Qle; simpl; lia.
Qed.

Lemma stats_row_fields (d : db) (o_id : uuid) (st : attendance_stats) :
  schema d ->
  In st (map stats_value
             (group_by stats_key_dec
                (stats_key_of (Some (get_total_class_days d o_id)))
                (stats_rows d o_id))) ->
  is_enrolled_in d o_id (student_id st)
  /\ total_classes st = get_total_class_days d o_id
  /\ attended_classes st = present_count d (student_id st) o_id
  /\ attendance_percentage st
     = Some (percentage_of (present_count d (student_id st) o_id)
                           (get_total_class_days d o_id)).
Proof.
  intros H Hst.
  destruct (stats_row_inv d o_id st H Hst)
    as (e & s & u & He & Eo & Est & Ls & Lu & ->).
  unfold stats_value. cbn [fst snd coalesce student_id total_classes
                           attended_classes attendance_percentage].
  rewrite count_present_attendance_of. cbn [fst]. rewrite Eo.
  split; [exists e; auto|]. split; [reflexivity|].
  split; [reflexivity|]. f_equal.
  apply percentage_as_computed, get_total_class_days_nonneg.
Qed.

(** TotalClassDays: the number of distinct dates that have an attendance
    record for the offering. *)
Lemma get_total_class_days_counts (d : db) (o_id : uuid) :
  exists days,
    NoDup days
    /\ (forall x, In x days
                  <-> exists ar, In ar (attendance_records d)
                                 /\ ar_offering_id ar = o_id
                                 /\ ar_date ar = x)
    /\ get_total_class_days d o_id = Z.of_nat (length days).
Proof.
  eexists. split; [apply NoDup_nodup|]. split; [|reflexivity].
  intros x. rewrite nodup_In, in_map_iff. split.
  - intros (ar & E & H). apply filter_In in H as [H O].
    apply Z.eqb_eq in O. eauto.
  - intros (ar & H & O & E). exists ar. split; [assumption|].
    apply filter_In. split; [assumption|]. now apply Z.eqb_eq.
Qed.

(** C1. [get_course_attendance_stats] returns on every state, it never
    raises a division by zero.  In a state of the schema every row gives,
    as the attendance percentage of its student in the offering,
    [present_count / TotalClassDays * 100] truncated to 2 decimals when
    the offering has class days, and 0.0 when it has none, where
    TotalClassDays is the number of distinct dates with an attendance
    record for the offering.  With 10 class days and 8 'present' records
    the percentage is 80.00. *)
Theorem attendance_percentage_formula (d : db) (o_id : uuid) :
  exists rows days,
    get_course_attendance_stats d o_id = Ok rows
    /\ NoDup days
    /\ (forall x, In x days
                  <-> exists ar, In ar (attendance_records d)
                                 /\ ar_offering_id ar = o_id
                                 /\ ar_date ar = x)
    /\ get_total_class_days d o_id = Z.of_nat (length days)
    /\ (schema d ->
        forall r, In r rows ->
          let p := present_count d (student_id r) o_id in
          let n := get_total_class_days d o_id in
          attended_classes r = p
          /\ (0 < n ->
              attendance_percentage r
              = Some (sql_trunc (inject_Z p / inject_Z n * 100)%Q 2))
          /\ (n = 0 -> attendance_percentage r = Some num_0_0)
          /\ (n = 10 -> p = 8 ->
              attendance_percentage r = Some (8000 # 100))).
Proof.
  destruct (get_total_class_days_counts d o_id) as (days & N & D & L).
  eexists. exists days.
  split; [apply get_course_attendance_stats_value|].
  do 3 (split; [assumption|]).
  intros H r Hr p n.
  destruct (stats_row_fields d o_id r H Hr) as (_ & _ & A & P).
  fold p n in A, P. split; [exact A|].
  unfold percentage_of in P. split; [|split].
  - intros Hn. rewrite P. destruct (Z.eqb_spec n 0); [lia | reflexivity].
  - intros Hn. rewrite P, Hn. reflexivity.
  - intros Hn E. rewrite P, Hn, E. reflexivity.
Qed.

(** The scenario of the specification: student 1 in offering 1000. *)
Lemma attendance_percentage_formula_witness :
  schema campus
  /\ get_total_class_days campus 1000 = 10
  /\ present_count campus 1 1000 = 8
  /\ exists rows,
      get_course_attendance_stats campus 1000 = Ok rows
      /\ map student_id rows = [1]
      /\ forall r, In r rows ->
                   attendance_percentage r = Some (8000 # 100).
Proof.
  split; [exact campus_schema|]. do 2 (split; [reflexivity|]).
  destruct (attendance_percentage_formula campus 1000)
    as (rows & days & E & _ & _ & _ & F).
  exists rows. split; [exact E|].
  assert (rows = match get_course_attendance_stats campus 1000 with
                 | Ok l => l
                 | Error _ => []
                 end) as R by now rewrite E.
  split; [rewrite R; reflexivity|].
  intros r Hr.
  destruct (F campus_schema r Hr) as (_ & _ & _ & G).
  apply G; [reflexivity|].
  rewrite R in Hr. vm_compute in Hr. destruct Hr as [<-|[]]. reflexivity.
Defined.

Lemma stats_key_student (d : db) (o_id : uuid) (t : option Z)
      (r r' : stats_row) :
  schema d -> In r (stats_rows d o_id) -> In r' (stats_rows d o_id) ->
  fst (fst (fst (stats_key_of t r))) = fst (fst (fst (stats_key_of t r'))) ->
  stats_key_of t r = stats_key_of t r'.
Proof.
  intros H Hr Hr' E.
  rewrite stats_rows_by_enrollment in Hr, Hr' by assumption.
  apply in_flat_map in Hr as (e & He & Hr), Hr' as (e' & He' & Hr').
  destruct (in_stats_rows_of d o_id e r Hr)
    as (s & u & Eo & _ & Ls & Es & Lu & _ & Er).
  destruct (in_stats_rows_of d o_id e' r' Hr')
    as (s' & u' & Eo' & _ & Ls' & Es' & Lu' & _ & Er').
  destruct r as [x ar], r' as [x' ar']. simpl in Er, Er'. subst x x'.
  unfold stats_key_of in *. simpl in E.
  assert (s' = s) as -> by congruence.
  assert (u' = u) as -> by congruence.
  reflexivity.
Qed.

(** C2. [get_course_attendance_stats] returns one row for each student
    with an enrollment of status 'enrolled' in the offering, and for no
    one else; every row carries, as [total_classes], the one
    [get_total_class_days] of the offering. *)
Theorem attendance_stats_roster (d : db) (o_id : uuid) :
  schema d ->
  exists rows,
    get_course_attendance_stats d o_id = Ok rows
    /\ (forall s_id, In s_id (map student_id rows)
                     <-> is_enrolled_in d o_id s_id)
    /\ NoDup (map student_id rows)
    /\ forall r, In r rows ->
                 total_classes r = get_total_class_days d o_id.
Proof.
  intros H. eexists. split; [apply get_course_attendance_stats_value|].
  set (t := Some (get_total_class_days d o_id)).
  split; [|split].
  - intros s_id. split.
    + intros Hs. apply in_map_iff in Hs as (r & <- & Hr).
      now apply (stats_row_fields d o_id r H Hr).
    + intros (e & He & Es & Eo & Est).
      assert (exists s, lookup_student d (e_student_id e) = Some s)
        as (s & Ls).
      { pose proof (enrollments_student_fkey d H) as F.
        rewrite forallb_forall in F. specialize (F e He).
        apply existsb_exists in F as (s & Hs & E).
        unfold lookup_student.
        destruct (find _ (students d)) as [s'|] eqn:L; [eauto|].
        apply (find_none _ _ L) in Hs. rewrite Z.eqb_sym in E. congruence. }
      assert (exists u, lookup_user d (s_student_id s) = Some u)
        as (u & Lu).
      { pose proof (students_user_fkey d H) as F.
        rewrite forallb_forall in F.
        apply find_some in Ls as [Hs _]. specialize (F s Hs).
        apply existsb_exists in F as (u & Hu & E).
        unfold lookup_user.
        destruct (find _ (users d)) as [u'|] eqn:L; [eauto|].
        apply (find_none _ _ L) in Hu. rewrite Z.eqb_sym in E. congruence. }
      destruct (attendance_of_nonempty d (e, s, u)) as (r & Hr).
      assert (In r (stats_rows d o_id)) as Hrows.
      { rewrite stats_rows_by_enrollment by assumption.
        apply in_flat_map. exists e. split; [assumption|].
        unfold stats_rows_of.
        rewrite Eo, Est, Z.eqb_refl, Ls, Lu. exact Hr. }
      rewrite map_map. apply in_map_iff.
      exists (stats_key_of t r,
              filter (fun r' => if stats_key_dec (stats_key_of t r')
                                                 (stats_key_of t r)
                                then true else false)
                     (stats_rows d o_id)).
      split.
      * apply in_attendance_of in Hr. destruct r as [x ar].
        simpl in Hr. subst x. simpl.
        apply find_some in Ls as [_ Ls]. apply Z.eqb_eq in Ls. congruence.
      * unfold group_by. apply in_map_iff. eexists. split; [reflexivity|].
        apply nodup_In. now apply in_map.
  - unfold group_by. rewrite !map_map.
    apply NoDup_map_NoDup_ForallPairs; [|apply NoDup_nodup].
    intros k k' Hk Hk' E.
    apply nodup_In in Hk, Hk'.
    apply in_map_iff in Hk as (r & <- & Hr), Hk' as (r' & <- & Hr').
    apply (stats_key_student d o_id t r r' H Hr Hr').
    destruct r as [[[e s] u] ar], r' as [[[e' s'] u'] ar']. exact E.
  - intros r Hr. now apply (stats_row_fields d o_id r H Hr).
Qed.

Lemma attendance_stats_roster_witness :
  schema campus
  /\ exists rows,
      get_course_attendance_stats campus 1000 = Ok rows
      /\ (forall s_id, In s_id (map student_id rows)
                       <-> is_enrolled_in campus 1000 s_id)
      /\ NoDup (map student_id rows)
      /\ forall r, In r rows ->
                   total_classes r = get_total_class_days campus 1000.
Proof.
  split; [exact campus_schema|].
  exact (attendance_stats_roster campus 1000 campus_schema).
Defined.

(** C9. With at most one attendance record per offering, student and
    date, every row of [get_course_attendance_stats] has
    [attended_classes <= total_classes] and an attendance percentage
    between 0 and 100. *)
Theorem attendance_within_total (d : db) (o_id : uuid) :
  schema d ->
  exists rows,
    get_course_attendance_stats d o_id = Ok rows
    /\ forall r, In r rows ->
         0 <= attended_classes r <= total_classes r
         /\ exists p, attendance_percentage r = Some p
                      /\ (0 <= p)%Q /\ (p <= 100)%Q.
Proof.
  intros H. eexists. split; [apply get_course_attendance_stats_value|].
  intros r Hr.
  destruct (stats_row_fields d o_id r H Hr) as (_ & T & A & P).
  pose proof (present_count_le_total d (student_id r) o_id H) as B.
  rewrite T, A. split; [exact B|].
  eexists. split; [exact P|].
  now apply percentage_of_bounds.
Qed.

Lemma attendance_within_total_witness :
  schema campus
  /\ exists rows,
      get_course_attendance_stats campus 1000 = Ok rows
      /\ forall r, In r rows ->
           0 <= attended_classes r <= total_classes r
           /\ exists p, attendance_percentage r = Some p
                        /\ (0 <= p)%Q /\ (p <= 100)%Q.
Proof.
  split; [exact campus_schema|].
  exact (attendance_within_total campus 1000 campus_schema).
Defined.

(* ================================================================== *)
(** * Further properties *)

(** ** Advancing, again and again *)

Lemma increment_students (d : db) :
  students (increment_all_student_semesters d)
  = map advance_student (students d).
Proof. reflexivity. Qed.

Lemma advance_student_id (s : student_row) :
  s_student_id (advance_student s) = s_student_id s.
Proof. unfold advance_student. now destruct (holds _). Qed.

Lemma advance_student_roll (s : student_row) :
  s_roll_number (advance_student s) = s_roll_number s.
Proof. unfold advance_student. now destruct (holds _). Qed.

Lemma advance_student_check (s : student_row) :
  students_check s = true -> students_check (advance_student s) = true.
Proof. intros H. now apply (increment_row s). Qed.

(** X1. Every constraint of the schema survives
    [increment_all_student_semesters]: the keys and references of
    [students] are untouched, and the [CHECK] on [current_semester] is
    kept by the guard [current_semester < 8]. *)
Theorem increment_keeps_schema (d : db) :
  schema d -> schema (increment_all_student_semesters d).
Proof.
  intros H.
  assert (map s_student_id (map advance_student (students d))
          = map s_student_id (students d)) as Ids.
  { rewrite map_map. apply map_ext. apply advance_student_id. }
  constructor; try (destruct H; assumption).
  - rewrite increment_students, Ids. apply H.
  - rewrite increment_students, forallb_forall.
    intros s' Hs'. apply in_map_iff in Hs' as (s & <- & Hs).
    apply advance_student_check.
    pose proof (students_current_semester_check d H) as C.
    rewrite forallb_forall in C. auto.
  - rewrite increment_students, forallb_forall.
    intros s' Hs'. apply in_map_iff in Hs' as (s & <- & Hs).
    rewrite advance_student_id.
    pose proof (students_user_fkey d H) as C.
    rewrite forallb_forall in C. now apply C.
  - rewrite forallb_forall. intros e He.
    pose proof (enrollments_student_fkey d H) as C.
    rewrite forallb_forall in C. specialize (C e He).
    apply existsb_exists in C as (s & Hs & E).
    apply existsb_exists. exists (advance_student s).
    split; [now apply in_map | now rewrite advance_student_id].
Qed.

Lemma increment_keeps_schema_witness :
  schema campus /\ schema (increment_all_student_semesters campus).
Proof.
  split; [exact campus_schema|].
  exact (increment_keeps_schema campus campus_schema).
Defined.

Lemma advance_times_students (k : nat) (d : db) :
  students (advance_times k d)
  = map (fun s => Nat.iter k advance_student s) (students d).
Proof.
  induction k as [|k IH]; simpl.
  - symmetry. apply map_id.
  - rewrite IH, map_map. reflexivity.
Qed.

Lemma advance_student_iter (k : nat) (s : student_row) (n : Z) :
  s_current_semester s = Some n -> n <= 8 ->
  s_student_id (Nat.iter k advance_student s) = s_student_id s
  /\ s_current_semester (Nat.iter k advance_student s)
     = Some (Z.min (n + Z.of_nat k) 8).
Proof.
  intros E B. induction k as [|k [IHi IHc]].
  - simpl. split; [reflexivity|]. rewrite E. f_equal. lia.
  - rewrite Nat.iter_succ, advance_student_id. split; [exact IHi|].
    set (t := Nat.iter k advance_student s) in *.
    unfold advance_student. rewrite IHc. simpl.
    destruct (Z.ltb_spec (Z.min (n + Z.of_nat k) 8) 8); simpl;
      [|rewrite IHc]; f_equal; lia.
Qed.

(** X2. [k] advances move a student at semester [n] to [min (n + k) 8];
    seven advances bring every student to 8, and an advance of a state
    where every student is at 8 changes nothing. *)
Theorem advance_times_saturates (d : db) (k : nat) :
  forallb students_check (students d) = true ->
  Forall2 (fun s s' =>
             s_student_id s' = s_student_id s
             /\ forall n, s_current_semester s = Some n ->
                          s_current_semester s'
                          = Some (Z.min (n + Z.of_nat k) 8))
          (students d) (students (advance_times k d))
  /\ ((7 <= k)%nat ->
      forall s' n', In s' (students (advance_times k d)) ->
                    s_current_semester s' = Some n' -> n' = 8)
  /\ ((forall s n, In s (students d) -> s_current_semester s = Some n ->
                   n = 8) ->
      increment_all_student_semesters d = d).
Proof.
  intros C. rewrite forallb_forall in C.
  rewrite advance_times_students. split; [|split].
  - induction (students d) as [|s l IH]; simpl; constructor.
    + destruct (s_current_semester s) as [n|] eqn:E.
      * pose proof (students_check_range s n (C s (or_introl eq_refl)) E).
        destruct (advance_student_iter k s n E) as [Hi Hc]; [lia|].
        split; [exact Hi|]. now intros ? [= <-].
      * split; [|discriminate].
        clear - E. induction k as [|k IH]; [reflexivity|].
        now rewrite Nat.iter_succ, advance_student_id.
    + apply IH. intros x Hx. apply C. now right.
  - intros K s' n' Hs' E'.
    apply in_map_iff in Hs' as (s & <- & Hs).
    destruct (s_current_semester s) as [n|] eqn:E.
    + pose proof (students_check_range s n (C s Hs) E).
      destruct (advance_student_iter k s n E) as [_ Hc]; [lia|].
      rewrite Hc in E'. injection E' as <-. lia.
    + exfalso.
      assert (s_current_semester (Nat.iter k advance_student s) = None)
        as X; [|congruence].
      clear - E. induction k as [|k IH]; [exact E|].
      rewrite Nat.iter_succ.
      set (t := Nat.iter k advance_student s) in *.
      unfold advance_student. now rewrite IH.
  - intros A. destruct d as [us ss cs sems cos es ars cts].
    unfold increment_all_student_semesters. simpl in *. f_equal.
    rewrite <- (map_id ss) at 2. apply map_ext_in.
    intros s Hs. destruct (s_current_semester s) as [n|] eqn:E;
      [|reflexivity].
    rewrite (A s n Hs E). reflexivity.
Qed.

Lemma advance_times_saturates_witness :
  forallb students_check (students campus) = true
  /\ map s_current_semester (students (advance_times 3 campus))
     = [Some 6; Some 8]
  /\ forall s' n', In s' (students (advance_times 7 campus)) ->
                   s_current_semester s' = Some n' -> n' = 8.
Proof.
  split; [reflexivity|]. split; [reflexivity|].
  apply (advance_times_saturates campus 7); [reflexivity | lia].
Defined.

(** ** Joins over a renamed table *)

Lemma inner_join_ext {A B} (on on' : A -> B -> bool)
      (l : list A) (r : list B) :
  (forall a b, on a b = on' a b) ->
  inner_join on l r = inner_join on' l r.
Proof.
  intros E. unfold inner_join. apply flat_map_ext. intros a.
  f_equal. apply filter_ext. apply E.
Qed.

Lemma left_join_ext {A B} (on on' : A -> B -> bool)
      (l : list A) (r : list B) :
  (forall a b, on a b = on' a b) ->
  left_join on l r = left_join on' l r.
Proof.
  intros E. unfold left_join. apply flat_map_ext. intros a.
  now rewrite (filter_ext (on a) (on' a) (E a)).
Qed.

Lemma inner_join_cong {A B} (on on' : A -> B -> bool)
      (l l' : list A) (r : list B) :
  (forall a b, on a b = on' a b) -> l = l' ->
  inner_join on l r = inner_join on' l' r.
Proof. intros E <-. now apply inner_join_ext. Qed.

Lemma left_join_cong {A B} (on on' : A -> B -> bool)
      (l l' : list A) (r : list B) :
  (forall a b, on a b = on' a b) -> l = l' ->
  left_join on l r = left_join on' l' r.
Proof. intros E <-. now apply left_join_ext. Qed.

Lemma flat_map_map {A B C} (f : A -> B) (h : B -> list C) (l : list A) :
  flat_map h (map f l) = flat_map (fun a => h (f a)) l.
Proof.
  induction l as [|a l IH]; simpl; [reflexivity|]. now rewrite IH.
Qed.

Lemma inner_join_map_r {A B B'} (on : A -> B' -> bool) (f : B -> B')
      (l : list A) (r : list B) :
  inner_join on l (map f r)
  = map (fun p => (fst p, f (snd p)))
        (inner_join (fun a b => on a (f b)) l r).
Proof.
  unfold inner_join. rewrite map_flat_map. apply flat_map_ext.
  intros a. rewrite filter_map_swap, !map_map. reflexivity.
Qed.

Lemma inner_join_map_l {A A' B} (on : A' -> B -> bool) (h : A -> A')
      (l : list A) (r : list B) :
  inner_join on (map h l) r
  = map (fun p => (h (fst p), snd p))
        (inner_join (fun a b => on (h a) b) l r).
Proof.
  unfold inner_join. rewrite flat_map_map, map_flat_map.
  apply flat_map_ext. intros a. now rewrite map_map.
Qed.

Lemma left_join_map_l {A A' B} (on : A' -> B -> bool) (h : A -> A')
      (l : list A) (r : list B) :
  left_join on (map h l) r
  = map (fun p => (h (fst p), snd p))
        (left_join (fun a b => on (h a) b) l r).
Proof.
  unfold left_join. rewrite flat_map_map, map_flat_map.
  apply flat_map_ext. intros a.
  destruct (filter (on (h a)) r) as [|b m]; [reflexivity|].
  now rewrite map_map.
Qed.

Lemma group_by_map {A K} (dec : forall x y : K, {x = y} + {x <> y})
      (key : A -> K) (f : A -> A) (rows : list A) :
  (forall a, key (f a) = key a) ->
  group_by dec key (map f rows)
  = map (fun g => (fst g, map f (snd g))) (group_by dec key rows).
Proof.
  intros E. unfold group_by. rewrite !map_map.
  rewrite (map_ext (fun x => key (f x)) key E).
  apply map_ext. intros k. simpl. f_equal.
  rewrite filter_map_swap. f_equal. apply filter_ext.
  intros a. now rewrite E.
Qed.

Lemma mapM_map_ext {A B C} (f : B -> result C) (g : A -> result C)
      (h : A -> B) (l : list A) :
  (forall a, f (h a) = g a) -> mapM f (map h l) = mapM g l.
Proof.
  intros E. induction l as [|a l IH]; simpl; [reflexivity|].
  now rewrite E, IH.
Qed.

(** ** What advancing leaves alone *)

(** The row of [stats_from] with the student advanced. *)
Lemma stats_from_increment (d : db) :
  stats_from (increment_all_student_semesters d)
  = map (fun r : stats_row =>
           let '(e, s, u, ar) := r in (e, advance_student s, u, ar))
        (stats_from d).
Proof.
  unfold stats_from. rewrite increment_students.
  cbn [users enrollments attendance_records
       increment_all_student_semesters].
  rewrite inner_join_map_r, inner_join_map_l, left_join_map_l.
  rewrite (map_ext _ (fun r : stats_row =>
                        let '(e, s, u, ar) := r in
                        (e, advance_student s, u, ar)))
    by (intros [[[e s] u] ar]; reflexivity).
  f_equal.
  apply left_join_cong; [intros [[e s] u] ar; reflexivity|].
  apply inner_join_cong;
    [intros [e s] u; simpl; now rewrite advance_student_id|].
  apply inner_join_ext. intros e s. now rewrite advance_student_id.
Qed.

Lemma stats_rows_increment (d : db) (o_id : uuid) :
  stats_rows (increment_all_student_semesters d) o_id
  = map (fun r : stats_row =>
           let '(e, s, u, ar) := r in (e, advance_student s, u, ar))
        (stats_rows d o_id).
Proof.
  unfold stats_rows. rewrite stats_from_increment, filter_map_swap.
  f_equal. apply filter_ext. intros [[[e s] u] ar]. reflexivity.
Qed.

Lemma count_present_advanced (g : list stats_row) :
  count_filter is_present
    (map (fun r : stats_row =>
            let '(e, s, u, ar) := r in (e, advance_student s, u, ar)) g)
  = count_filter is_present g.
Proof.
  unfold count_filter. f_equal. rewrite filter_map_swap, length_map.
  f_equal. apply filter_ext. intros [[[e s] u] ar]. reflexivity.
Qed.

(** X3. Advancing the semesters changes no attendance figure:
    [get_course_attendance_stats] returns the same rows before and
    after [increment_all_student_semesters], on every state. *)
Theorem advancing_keeps_attendance_stats (d : db) (o_id : uuid) :
  get_course_attendance_stats (increment_all_student_semesters d) o_id
  = get_course_attendance_stats d o_id.
Proof.
  rewrite !get_course_attendance_stats_value. f_equal.
  change (get_total_class_days (increment_all_student_semesters d) o_id)
    with (get_total_class_days d o_id).
  rewrite stats_rows_increment.
  rewrite group_by_map
    by (intros [[[e s] u] ar]; simpl;
        now rewrite advance_student_id, advance_student_roll).
  rewrite map_map. apply map_ext. intros [[[[sid name] roll] t] g].
  unfold stats_value. cbn [fst snd].
  now rewrite count_present_advanced.
Qed.

(** ** Class days *)

(** X4. An offering has no class day exactly when it has no attendance
    record, and never more class days than records. *)
Theorem total_class_days_zero_iff (d : db) (o_id : uuid) :
  (get_total_class_days d o_id = 0
   <-> forall ar, In ar (attendance_records d) -> ar_offering_id ar <> o_id)
  /\ 0 <= get_total_class_days d o_id
     <= Z.of_nat (length (filter (fun ar => ar_offering_id ar =? o_id)
                                 (attendance_records d))).
Proof.
  unfold get_total_class_days, count_distinct.
  set (m := filter (fun ar => ar_offering_id ar =? o_id)
                   (attendance_records d)).
  split; [split|].
  - intros Z0 ar Har E.
    assert (In (ar_date ar) (nodup Z.eq_dec (map ar_date m))) as X.
    { apply nodup_In, in_map, filter_In. split; [assumption|].
      now apply Z.eqb_eq. }
    destruct (nodup Z.eq_dec (map ar_date m)); [contradiction|].
    simpl in Z0. lia.
  - intros H. replace m with (@nil attendance_record); [reflexivity|].
    symmetry. apply list_empty. intros ar Har.
    apply filter_In in Har as [Har E]. apply Z.eqb_eq in E.
    now apply (H ar).
  - split; [lia|]. apply inj_le.
    rewrite <- (length_map ar_date m).
    apply NoDup_incl_length; [apply NoDup_nodup|].
    intros x Hx. now apply nodup_In in Hx.
Qed.

(** ** The offerings available to a student, exactly *)

Lemma found_student (d : db) (i : uuid) :
  limit_1 (filter (fun s => s_student_id s =? i) (students d))
  = lookup_student d i.
Proof.
  unfold lookup_student.
  induction (students d) as [|x l IH]; simpl; [reflexivity|].
  rewrite (Z.eqb_sym (s_student_id x)).
  destruct (i =? s_student_id x); [reflexivity | exact IH].
Qed.

Lemma in_available_offerings (d : db) (now : timestamptz) (s_id : uuid)
      (sem : semester) (co : course_offering) (c : course) :
  limit_1 (filter (registration_open now) (semesters d)) = Some sem ->
  In {| ao_offering := co; ao_course := c |}
     (get_available_offerings_for_student d now s_id)
  <-> In co (course_offerings d) /\ In c (courses d)
      /\ co_course_id co = c_course_id c
      /\ co_semester_id co = Some (sem_semester_id sem)
      /\ eligible (lookup_student d s_id) c
      /\ forall e, In e (enrollments d) -> e_student_id e = s_id ->
                   e_offering_id e <> co_offering_id co.
Proof.
  intros L. unfold get_available_offerings_for_student, eligible.
  rewrite L, found_student. cbn [option_map].
  rewrite in_map_iff. split.
  - intros ([co' c'] & [= -> ->] & H).
    apply filter_In in H as [J W].
    apply in_inner_join in J as (Hco & Hc & On). apply Z.eqb_eq in On.
    rewrite !holds_and, !holds_or, !holds_lit, !andb_true_iff in W.
    destruct W as [[[W1 W2] W3] W4].
    do 3 (split; [assumption|]).
    split; [now apply holds_cmp_eq in W1|]. split; [split|].
    + apply orb_true_iff in W2 as [W2|W2].
      * right. destruct (lookup_student d s_id) as [st|];
          [|discriminate W2].
        cbn [option_map] in *. rewrite holds_cmp_some in W2.
        apply stream_type_eqb_eq in W2. now rewrite W2.
      * left. now apply stream_type_eqb_eq.
    + apply orb_true_iff in W3 as [W3|W3].
      * right. destruct (c_logical_semester c) as [n|];
          [|discriminate W3].
        exists n. split; [reflexivity|].
        destruct (lookup_student d s_id) as [st|]; [|discriminate W3].
        destruct (s_current_semester st) as [m|]; [|discriminate W3].
        rewrite holds_cmp_some in W3. apply Z.eqb_eq in W3. now subst.
      * left. now destruct (c_logical_semester c).
    + intros e He Es Eo. apply negb_true_iff in W4.
      assert (existsb (fun e => (e_student_id e =? s_id)
                                && (e_offering_id e =? co_offering_id co))
                      (enrollments d) = true) as X; [|congruence].
      apply existsb_exists. exists e. split; [assumption|].
      now rewrite Es, Eo, !Z.eqb_refl.
  - intros (Hco & Hc & On & Es & [S1 S2] & N).
    exists (co, c). split; [reflexivity|].
    apply filter_In. split.
    + apply in_inner_join. repeat split; try assumption.
      now apply Z.eqb_eq.
    + rewrite !holds_and, !holds_or, !holds_lit, !andb_true_iff.
      repeat split.
      * now apply holds_cmp_eq.
      * apply orb_true_iff. destruct S1 as [S1|S1].
        -- right. now apply stream_type_eqb_eq.
        -- left. destruct (lookup_student d s_id) as [st|];
             [|discriminate S1].
           cbn [option_map] in *. injection S1 as S1.
           rewrite holds_cmp_some. now apply stream_type_eqb_eq.
      * apply orb_true_iff. destruct S2 as [S2|(n & S2 & S3)].
        -- right. now rewrite S2.
        -- left. rewrite S2, S3, holds_cmp_some. apply Z.eqb_refl.
      * apply negb_true_iff.
        destruct (existsb _ (enrollments d)) eqn:X; [|reflexivity].
        apply existsb_exists in X as (e & He & X).
        apply andb_true_iff in X as [X1 X2].
        apply Z.eqb_eq in X1, X2. now destruct (N e He X1).
Qed.

Lemma only_open_semester (d : db) (now : timestamptz) (sem : semester) :
  In sem (semesters d) -> open_for_registration now sem ->
  (forall s, In s (semesters d) -> open_for_registration now s ->
             s = sem) ->
  limit_1 (filter (registration_open now) (semesters d)) = Some sem.
Proof.
  intros Hs O U. apply registration_open_iff in O.
  destruct (limit_1_filter_some _ _ sem Hs O) as (b & L & Hb & Ob).
  rewrite L. f_equal. apply U; [assumption|].
  now apply registration_open_iff.
Qed.

(** X7. With one semester open for registration,
    [get_available_offerings_for_student] returns every offering of that
    semester whose course is in the student's stream or COMMON and meant
    for the student's current semester or for none, unless the student
    has an enrollment in it; and nothing else. *)
Theorem available_offerings_exact
        (d : db) (now : timestamptz) (s_id : uuid) (sem : semester)
        (st : student_row) (co : course_offering) (c : course) :
  In sem (semesters d) -> open_for_registration now sem ->
  (forall s, In s (semesters d) -> open_for_registration now s ->
             s = sem) ->
  lookup_student d s_id = Some st ->
  In {| ao_offering := co; ao_course := c |}
     (get_available_offerings_for_student d now s_id)
  <-> In co (course_offerings d) /\ In c (courses d)
      /\ co_course_id co = c_course_id c
      /\ co_semester_id co = Some (sem_semester_id sem)
      /\ (c_stream c = COMMON \/ c_stream c = s_stream st)
      /\ (c_logical_semester c = None
          \/ exists n, c_logical_semester c = Some n
                       /\ s_current_semester st = Some n)
      /\ forall e, In e (enrollments d) -> e_student_id e = s_id ->
                   e_offering_id e <> co_offering_id co.
Proof.
  intros Hs O U Ls.
  rewrite (in_available_offerings d now s_id sem co c)
    by now apply only_open_semester.
  unfold eligible. rewrite Ls. cbn [option_map].
  split.
  - intros (H1 & H2 & H3 & H4 & [[S|S] T] & N);
      repeat split; auto. right. now injection S.
  - intros (H1 & H2 & H3 & H4 & [S|S] & T & N);
      repeat split; auto. right. now rewrite S.
Qed.

Lemma available_offerings_exact_witness :
  let sem := {| sem_semester_id := 10; sem_academic_year := "2025";
                sem_season := Fall; sem_start_date := Some 100;
                sem_registration_start_date := 50;
                sem_registration_end_date := 70;
                sem_is_active := Some true |} in
  let co := {| co_offering_id := 1001; co_course_id := 101;
               co_teacher_id := 3; co_semester_id := Some 10 |} in
  let c := {| c_course_id := 101; c_course_code := "HS001";
              c_course_name := "Economics"; c_stream := COMMON;
              c_credits := Some 3; c_logical_semester := None |} in
  In {| ao_offering := co; ao_course := c |}
     (get_available_offerings_for_student campus now 1).
Proof.
  cbv zeta.
  apply (available_offerings_exact campus now 1
           {| sem_semester_id := 10; sem_academic_year := "2025";
              sem_season := Fall; sem_start_date := Some 100;
              sem_registration_start_date := 50;
              sem_registration_end_date := 70;
              sem_is_active := Some true |}
           {| s_student_id := 1; s_roll_number := "CS23B001";
              s_stream := CSE; s_current_semester := Some 3 |}).
  - right; left; reflexivity.
  - split; [reflexivity|]. split; reflexivity.
  - intros s [<-|[<-|[]]] [A _]; [discriminate A | reflexivity].
  - reflexivity.
  - split; [do 4 right; left; reflexivity|].
    split; [right; left; reflexivity|].
    split; [reflexivity|]. split; [reflexivity|].
    split; [left; reflexivity|]. split; [left; reflexivity|].
    intros e H Es Eo.
    simpl in H; repeat (destruct H as [<-|H]; [simpl in *; lia|]);
      contradiction.
Defined.

(** X8. For an id that is no student's, the function does not fail: it
    returns the offerings of the open semester in COMMON courses without
    a logical semester, and only those. *)
Theorem available_offerings_unknown_student
        (d : db) (now : timestamptz) (s_id : uuid) :
  lookup_student d s_id = None ->
  forall r, In r (get_available_offerings_for_student d now s_id) ->
            c_stream (ao_course r) = COMMON
            /\ c_logical_semester (ao_course r) = None.
Proof.
  intros Ls [co c] Hr. cbn [ao_course].
  destruct (limit_1 (filter (registration_open now) (semesters d)))
    as [sem|] eqn:L.
  - destruct (proj1 (in_available_offerings d now s_id sem co c L) Hr)
      as (_ & _ & _ & _ & [S T] & _).
    rewrite Ls in S, T. cbn [option_map] in S.
    split.
    + destruct S as [S|S]; [assumption | discriminate].
    + destruct T as [T|(n & _ & T)]; [assumption | discriminate].
  - unfold get_available_offerings_for_student in Hr.
    rewrite L in Hr. contradiction.
Qed.

Lemma available_offerings_unknown_student_witness :
  lookup_student campus 77 = None
  /\ map (fun r => co_offering_id (ao_offering r))
         (get_available_offerings_for_student campus now 77) = [1001]
  /\ forall r, In r (get_available_offerings_for_student campus now 77) ->
               c_stream (ao_course r) = COMMON
               /\ c_logical_semester (ao_course r) = None.
Proof.
  split; [reflexivity|]. split; [reflexivity|].
  apply (available_offerings_unknown_student campus now 77). reflexivity.
Defined.

(** ** The course history of a student *)

Lemma history_percentage_value (d : db) (e : enrollment) :
  history_percentage d e
  = Ok (Some (percentage_of
                (present_count d (e_student_id e) (e_offering_id e))
                (get_total_class_days d (e_offering_id e)))).
Proof.
  unfold history_percentage.
  assert (Z.of_nat
            (length
               (filter
                  (fun ar =>
                     (ar_student_id ar =? e_student_id e)
                     && (ar_offering_id ar =? e_offering_id e)
                     && attendance_status_eqb (ar_status ar) present)
                  (attendance_records d)))
          = present_count d (e_student_id e) (e_offering_id e)) as ->.
  { unfold present_count. do 2 f_equal. apply filter_ext. intros ar.
    rewrite (Z.eqb_sym (ar_student_id ar)), (Z.eqb_sym (ar_offering_id ar)).
    f_equal. apply andb_comm. }
  rewrite <- (percentage_as_computed _ _
                (get_total_class_days_nonneg d (e_offering_id e))).
  destruct (Z.gtb_spec (get_total_class_days d (e_offering_id e)) 0)
    as [P|P]; [|reflexivity].
  simpl.
  destruct (Qeq_bool (inject_Z (get_total_class_days d (e_offering_id e)))
                     0) eqn:E; [|reflexivity].
  apply Qeq_bool_eq in E. unfold Qeq in E. simpl in E. lia.
Qed.

Lemma get_student_course_history_value (d : db) (s_id : uuid)
      (target_sem_id : option uuid) :
  get_student_course_history d s_id target_sem_id
  = Ok (map (history_value d)
            (filter (history_where s_id target_sem_id) (history_from d))).
Proof.
  unfold get_student_course_history. apply mapM_Ok.
  intros [[[e co] s] c] _. unfold history_select.
  now rewrite history_percentage_value.
Qed.

Lemma in_history_from (d : db) (e : enrollment) (co : course_offering)
      (s : semester) (c : course) :
  In (e, co, s, c) (history_from d)
  <-> In e (enrollments d) /\ In co (course_offerings d)
      /\ In s (semesters d) /\ In c (courses d)
      /\ e_offering_id e = co_offering_id co
      /\ co_semester_id co = Some (sem_semester_id s)
      /\ co_course_id co = c_course_id c.
Proof.
  unfold history_from. rewrite !in_inner_join.
  rewrite holds_cmp_eq, !Z.eqb_eq. tauto.
Qed.

(** X11. [get_student_course_history] returns on every state.  Its rows are
    those of the student's completed enrollments that have a grade and
    whose offering refers to a semester (the target one, when given); the
    attendance percentage of a row is that of the student in the
    offering, [present_count / TotalClassDays * 100] truncated to 2
    decimals, 0.0 without class days. *)
Theorem course_history_rows (d : db) (s_id : uuid)
        (target_sem_id : option uuid) :
  exists rows,
    get_student_course_history d s_id target_sem_id = Ok rows
    /\ forall r,
        In r rows
        <-> exists e co s c,
              In e (enrollments d) /\ In co (course_offerings d)
              /\ In s (semesters d) /\ In c (courses d)
              /\ e_offering_id e = co_offering_id co
              /\ co_semester_id co = Some (sem_semester_id s)
              /\ co_course_id co = c_course_id c
              /\ e_student_id e = s_id /\ e_status e = completed
              /\ e_grade e <> None
              /\ (forall t, target_sem_id = Some t ->
                            sem_semester_id s = t)
              /\ r = history_value d (e, co, s, c).
Proof.
  eexists. split; [apply get_student_course_history_value|].
  intros r. rewrite in_map_iff. split.
  - intros ([[[e co] s] c] & <- & H). apply filter_In in H as [F W].
    apply in_history_from in F as (He & Hco & Hs & Hc & E1 & E2 & E3).
    unfold history_where in W.
    rewrite !holds_and, !holds_or, !holds_lit, !andb_true_iff in W.
    destruct W as [[[W1 W2] W3] W4].
    exists e, co, s, c. repeat split; try assumption.
    + now apply Z.eqb_eq.
    + now apply enrollment_status_eqb_eq.
    + intros N. now rewrite N in W3.
    + intros t ->. simpl in W4. rewrite E2, holds_cmp_some in W4.
      now apply Z.eqb_eq.
  - intros (e & co & s & c & He & Hco & Hs & Hc & E1 & E2 & E3
            & Es & Est & G & T & ->).
    exists (e, co, s, c). split; [reflexivity|].
    apply filter_In. split; [apply in_history_from; tauto|].
    unfold history_where.
    rewrite !holds_and, !holds_or, !holds_lit, !andb_true_iff.
    repeat split.
    + now apply Z.eqb_eq.
    + now apply enrollment_status_eqb_eq.
    + now destruct (e_grade e).
    + destruct target_sem_id as [t|]; [|reflexivity].
      simpl. rewrite E2, holds_cmp_some, (T t eq_refl). apply Z.eqb_refl.
Qed.

Lemma filter_both {A} (f g h : A -> bool) (l : list A) :
  (forall a, In a l -> f a && g a = h a) ->
  filter f (filter g l) = filter h l.
Proof.
  induction l as [|a l IH]; simpl; intros H; [reflexivity|].
  rewrite <- (H a (or_introl eq_refl)).
  destruct (g a); simpl.
  - rewrite andb_true_r. destruct (f a); rewrite IH; auto.
  - rewrite andb_false_r. apply IH. auto.
Qed.

Lemma history_rows_of_semester (d : db) (s_id t : uuid) :
  map (history_value d)
      (filter (history_where s_id (Some t)) (history_from d))
  = filter (fun r => CourseHistory.semester_id r =? t)
           (map (history_value d)
                (filter (history_where s_id None) (history_from d))).
Proof.
  rewrite filter_map_swap. f_equal. symmetry.
  apply filter_both. intros [[[e co] s] c] H.
  apply in_history_from in H as (_ & _ & _ & _ & _ & E & _).
  unfold history_where, history_value. cbn [CourseHistory.semester_id].
  rewrite !holds_and, !holds_or, !holds_lit, E, holds_cmp_some. simpl.
  rewrite andb_true_r. apply andb_comm.
Qed.

(** X12. The history of one semester is the whole history restricted to
    that [semester_id]: asking with a target semester yields the rows
    that the full answer has for that semester, each as many times.  The
    query has no [ORDER BY]: the order of the rows is left open. *)
Theorem course_history_of_semester (d : db) (s_id t : uuid) :
  exists rows rows_t,
    get_student_course_history d s_id None = Ok rows
    /\ get_student_course_history d s_id (Some t) = Ok rows_t
    /\ Permutation
         rows_t
         (filter (fun r => CourseHistory.semester_id r =? t) rows).
Proof.
  do 2 eexists. split; [apply get_student_course_history_value|].
  split; [apply get_student_course_history_value|].
  rewrite history_rows_of_semester. apply Permutation_refl.
Qed.

(** ** The current attendance of a student *)

Lemma current_select_value (d : db) (g : current_key * list current_row) :
  current_select d g = Ok (current_value d g).
Proof.
  destruct g as [[o name] rows]. unfold current_select, current_value.
  cbn [fst snd].
  rewrite <- (percentage_as_computed _ _
                (get_total_class_days_nonneg d o)).
  destruct (Z.gtb_spec (get_total_class_days d o) 0) as [P|P];
    [|reflexivity].
  simpl. destruct (Qeq_bool (inject_Z (get_total_class_days d o)) 0) eqn:E;
    [|reflexivity].
  apply Qeq_bool_eq in E. unfold Qeq in E. simpl in E. lia.
Qed.

(** The function never raises. *)
Lemma get_student_current_attendance_value (d : db) (s_id : uuid) :
  get_student_current_attendance d s_id
  = Ok (map (current_value d)
            (group_by current_key_dec current_key_of
                      (current_rows d s_id))).
Proof.
  unfold get_student_current_attendance. apply mapM_Ok.
  intros g _. apply current_select_value.
Qed.

Lemma current_rows_by_enrollment (d : db) (s_id : uuid) :
  schema d ->
  current_rows d s_id = flat_map (current_rows_of d s_id) (enrollments d).
Proof.
  intros H. unfold current_rows, current_from.
  rewrite (inner_join_as_flat_map _ (enrollments d)).
  rewrite inner_join_flat_map, left_join_flat_map, filter_flat_map.
  apply flat_map_ext. intros e. unfold current_rows_of.
  change (inner_join (fun e0 co => e_offering_id e0 =? co_offering_id co)
                     [e] (course_offerings d))
    with (map (pair e)
              (filter (fun co => e_offering_id e =? co_offering_id co)
                      (course_offerings d)) ++ []).
  rewrite app_nil_r, filter_key_list
    by now apply schema_pk_course_offerings.
  fold (lookup_offering d (e_offering_id e)).
  destruct (lookup_offering d (e_offering_id e)) as [co|];
    [|now destruct (_ && _)].
  change (inner_join (fun '(_, co0) c => co_course_id co0 =? c_course_id c)
                     (map (pair e) (option_list (Some co))) (courses d))
    with (map (pair (e, co))
              (filter (fun c => co_course_id co =? c_course_id c)
                      (courses d)) ++ []).
  rewrite app_nil_r, filter_key_list by now apply schema_pk_courses.
  fold (lookup_course d (co_course_id co)).
  destruct (lookup_course d (co_course_id co)) as [c|];
    [|now destruct (_ && _)].
  change (left_join
            (fun '(e0, _, _) ar =>
               (e_offering_id e0 =? ar_offering_id ar)
               && (e_student_id e0 =? ar_student_id ar))
            (map (pair (e, co)) (option_list (Some c)))
            (attendance_records d))
    with (current_attendance_of d (e, co, c) ++ []).
  rewrite app_nil_r.
  assert (forall r, In r (current_attendance_of d (e, co, c)) ->
                    current_where d s_id r
                    = (e_student_id e =? s_id)
                      && enrollment_status_eqb (e_status e) enrolled
                      && in_current_scope d s_id c) as W.
  { intros [[[e' co'] c'] ar] Hr.
    assert (fst (e', co', c', ar) = (e, co, c)) as E.
    { unfold current_attendance_of in Hr.
      destruct (filter _ (attendance_records d)) as [|a m].
      - now destruct Hr as [<-|[]].
      - apply in_map_iff in Hr as (? & <- & _). reflexivity. }
    simpl in E. injection E as -> -> ->.
    unfold current_where, in_current_scope.
    now rewrite !holds_and, !holds_lit. }
  destruct ((e_student_id e =? s_id)
            && enrollment_status_eqb (e_status e) enrolled) eqn:B;
    [destruct (in_current_scope d s_id c) eqn:S|].
  - apply forallb_filter_id, forallb_forall. intros r Hr.
    now rewrite (W r Hr).
  - apply list_empty. intros r Hr. apply filter_In in Hr as [Hr X].
    rewrite (W r Hr) in X. discriminate.
  - apply list_empty. intros r Hr. apply filter_In in Hr as [Hr X].
    rewrite (W r Hr) in X. discriminate.
Qed.

Lemma in_current_attendance_of (d : db)
      (x : enrollment * course_offering * course) (r : current_row) :
  In r (current_attendance_of d x) -> fst r = x.
Proof.
  unfold current_attendance_of.
  destruct (filter _ (attendance_records d)) as [|a m].
  - intros [<-|[]]. reflexivity.
  - intros H. apply in_map_iff in H as (? & <- & _). reflexivity.
Qed.

Lemma current_attendance_of_nonempty (d : db)
      (x : enrollment * course_offering * course) :
  exists r, In r (current_attendance_of d x).
Proof.
  unfold current_attendance_of.
  destruct (filter _ (attendance_records d)) as [|a m];
    eexists; left; reflexivity.
Qed.

Lemma in_current_rows_of (d : db) (s_id : uuid) (e : enrollment)
      (r : current_row) :
  In r (current_rows_of d s_id e) ->
  exists co c,
    e_student_id e = s_id /\ e_status e = enrolled
    /\ lookup_offering d (e_offering_id e) = Some co
    /\ lookup_course d (co_course_id co) = Some c
    /\ in_current_scope d s_id c = true
    /\ current_rows_of d s_id e = current_attendance_of d (e, co, c)
    /\ fst r = (e, co, c).
Proof.
  unfold current_rows_of.
  destruct (_ && _) eqn:W; [|contradiction].
  apply andb_true_iff in W as [W1 W2].
  apply Z.eqb_eq in W1. apply enrollment_status_eqb_eq in W2.
  destruct (lookup_offering d (e_offering_id e)) as [co|] eqn:Lo;
    [|contradiction].
  destruct (lookup_course d (co_course_id co)) as [c|] eqn:Lc;
    [|contradiction].
  destruct (in_current_scope d s_id c) eqn:S; [|contradiction].
  intros Hr. exists co, c. repeat split; try assumption.
  now apply in_current_attendance_of in Hr.
Qed.

Lemma current_group (d : db) (s_id : uuid) (e : enrollment)
      (r : current_row) :
  schema d -> In e (enrollments d) -> In r (current_rows_of d s_id e) ->
  filter (fun r' => if current_key_dec (current_key_of r')
                                       (current_key_of r)
                    then true else false)
         (current_rows d s_id)
  = current_rows_of d s_id e.
Proof.
  intros H He Hr.
  destruct (in_current_rows_of d s_id e r Hr)
    as (co & c & Es & Est & Lo & Lc & S & _ & Er).
  rewrite current_rows_by_enrollment, filter_flat_map by assumption.
  rewrite (flat_map_single (fun e => (e_student_id e, e_offering_id e))
                           _ _ e (schema_uq_enrollments d H) He).
  - apply forallb_filter_id. apply forallb_forall. intros r' Hr'.
    destruct (in_current_rows_of d s_id e r' Hr')
      as (co' & c' & _ & _ & Lo' & Lc' & _ & _ & Er').
    assert (co' = co) as -> by congruence.
    assert (c' = c) as -> by congruence.
    destruct r as [x ar], r' as [x' ar']. simpl in Er, Er'. subst x x'.
    change (current_key_of (e, co, c, ar'))
      with (current_key_of (e, co, c, ar)).
    now destruct (current_key_dec _ _).
  - intros e' He' Ne. apply list_empty. intros r' Hr'.
    apply filter_In in Hr' as [Hr' K].
    destruct (in_current_rows_of d s_id e' r' Hr')
      as (co' & c' & Es' & _ & _ & _ & _ & _ & Er').
    destruct r as [x ar], r' as [x' ar']. simpl in Er, Er'. subst x x'.
    destruct (current_key_dec _ _) as [K'|]; [|discriminate].
    unfold current_key_of in K'. injection K' as K1 _.
    apply Ne. congruence.
Qed.

Lemma count_present_current (d : db)
      (x : enrollment * course_offering * course) :
  count_filter current_is_present (current_attendance_of d x)
  = present_count d (e_student_id (fst (fst x)))
                  (e_offering_id (fst (fst x))).
Proof.
  unfold count_filter, present_count, current_attendance_of. f_equal.
  set (on := fun ar =>
               (e_offering_id (fst (fst x)) =? ar_offering_id ar)
               && (e_student_id (fst (fst x)) =? ar_student_id ar)).
  assert (filter (fun ar => on ar
                            && attendance_status_eqb (ar_status ar) present)
                 (attendance_records d)
          = filter (fun ar => attendance_status_eqb (ar_status ar) present)
                   (filter on (attendance_records d))) as F.
  { induction (attendance_records d) as [|a l IH]; simpl; [reflexivity|].
    destruct (on a); simpl; rewrite IH; reflexivity. }
  transitivity
    (length (filter (fun ar => attendance_status_eqb (ar_status ar) present)
                    (filter on (attendance_records d))));
    [|now rewrite <- F].
  assert (forall m,
             length (filter current_is_present
                            (map (fun ar => (x, Some ar)) m))
             = length (filter (fun ar =>
                                 attendance_status_eqb (ar_status ar)
                                                       present) m)) as M.
  { induction m as [|a m IH]; simpl; [reflexivity|].
    destruct x as [[e co] c]. simpl in *.
    destruct (attendance_status_eqb (ar_status a) present); simpl;
      now rewrite <- IH. }
  destruct (filter on (attendance_records d)) as [|a m] eqn:E.
  - destruct x as [[e co] c]. reflexivity.
  - apply M.
Qed.

Lemma lookup_offering_id (d : db) (i : uuid) (co : course_offering) :
  lookup_offering d i = Some co -> co_offering_id co = i.
Proof.
  intros L. apply find_some in L as [_ L]. apply Z.eqb_eq in L. auto.
Qed.

(** Every returned row is the row of a current offering of the student,
    over the records [current_attendance_of] finds. *)
Lemma current_row_inv (d : db) (s_id : uuid)
      (row : CurrentAttendance.row) :
  schema d ->
  In row (map (current_value d)
              (group_by current_key_dec current_key_of
                        (current_rows d s_id))) ->
  exists e co c,
    In e (enrollments d)
    /\ e_student_id e = s_id /\ e_status e = enrolled
    /\ lookup_offering d (e_offering_id e) = Some co
    /\ lookup_course d (co_course_id co) = Some c
    /\ in_current_scope d s_id c = true
    /\ row = current_value d
               ((e_offering_id e, c_course_name c),
                current_attendance_of d (e, co, c)).
Proof.
  intros H Hst. apply in_map_iff in Hst as (g & <- & Hg).
  apply group_by_keys in Hg as [Hk Hg].
  apply in_map_iff in Hk as (r & Kr & Hr).
  pose proof Hr as Hr'.
  rewrite current_rows_by_enrollment in Hr' by assumption.
  apply in_flat_map in Hr' as (e & He & Hre).
  destruct (in_current_rows_of d s_id e r Hre)
    as (co & c & Es & Est & Lo & Lc & S & Ea & Er).
  exists e, co, c. repeat split; try assumption.
  rewrite <- Kr in Hg. rewrite (current_group d s_id e r H He Hre) in Hg.
  destruct g as [k rows]. simpl in *. subst k rows.
  destruct r as [x ar]. simpl in Er. subst x. simpl.
  rewrite Ea. reflexivity.
Qed.

Lemma current_row_fields (d : db) (s_id : uuid)
      (row : CurrentAttendance.row) :
  schema d ->
  In row (map (current_value d)
              (group_by current_key_dec current_key_of
                        (current_rows d s_id))) ->
  let o := CurrentAttendance.course_id row in
  is_current_offering d s_id o
  /\ CurrentAttendance.total_classes row = get_total_class_days d o
  /\ CurrentAttendance.attended_classes row = present_count d s_id o
  /\ CurrentAttendance.attendance_percentage row
     = Some (percentage_of (present_count d s_id o)
                           (get_total_class_days d o)).
Proof.
  intros H Hr.
  destruct (current_row_inv d s_id row H Hr)
    as (e & co & c & He & Es & Est & Lo & Lc & S & ->).
  unfold current_value.
  cbn [fst snd CurrentAttendance.course_id CurrentAttendance.total_classes
       CurrentAttendance.attended_classes
       CurrentAttendance.attendance_percentage].
  rewrite count_present_current. cbn [fst]. rewrite Es.
  split; [|repeat split].
  exists e, co, c. repeat split; assumption.
Qed.

Lemma current_key_offering (d : db) (s_id : uuid) (r r' : current_row) :
  schema d -> In r (current_rows d s_id) -> In r' (current_rows d s_id) ->
  fst (current_key_of r) = fst (current_key_of r') ->
  current_key_of r = current_key_of r'.
Proof.
  intros H Hr Hr' E.
  rewrite current_rows_by_enrollment in Hr, Hr' by assumption.
  apply in_flat_map in Hr as (e & He & Hr), Hr' as (e' & He' & Hr').
  destruct (in_current_rows_of d s_id e r Hr)
    as (co & c & Es & _ & Lo & Lc & _ & _ & Er).
  destruct (in_current_rows_of d s_id e' r' Hr')
    as (co' & c' & Es' & _ & Lo' & Lc' & _ & _ & Er').
  destruct r as [x ar], r' as [x' ar']. simpl in Er, Er'. subst x x'.
  unfold current_key_of in *. simpl in E.
  rewrite E in Lo. assert (co' = co) as -> by congruence.
  assert (c' = c) as -> by congruence.
  now rewrite E.
Qed.

(** X13. In a state of the schema [get_student_current_attendance] returns
    one row for each current offering of the student (enrolled, with a
    course meant for the student's semester or for none) and no other;
    each row carries the class days of its offering, the student's
    'present' records there and the percentage of the two, computed as in
    [get_course_attendance_stats]. *)
Theorem current_attendance_figures (d : db) (s_id : uuid) :
  schema d ->
  exists rows,
    get_student_current_attendance d s_id = Ok rows
    /\ (forall row, In row rows ->
          let o := CurrentAttendance.course_id row in
          CurrentAttendance.total_classes row = get_total_class_days d o
          /\ CurrentAttendance.attended_classes row
             = present_count d s_id o
          /\ CurrentAttendance.attendance_percentage row
             = Some (percentage_of (present_count d s_id o)
                                   (get_total_class_days d o)))
    /\ (forall o, In o (map CurrentAttendance.course_id rows)
                  <-> is_current_offering d s_id o)
    /\ NoDup (map CurrentAttendance.course_id rows).
Proof.
  intros H. eexists.
  split; [apply get_student_current_attendance_value|].
  split; [|split].
  - intros row Hrow. now apply (current_row_fields d s_id row H Hrow).
  - intros o. split.
    + intros Ho. apply in_map_iff in Ho as (row & <- & Hrow).
      now apply (current_row_fields d s_id row H Hrow).
    + intros (e & co & c & He & Es & Eo & Est & Lo & Lc & S).
      destruct (current_attendance_of_nonempty d (e, co, c)) as (r & Hr).
      assert (In r (current_rows d s_id)) as Hrows.
      { rewrite current_rows_by_enrollment by assumption.
        apply in_flat_map. exists e. split; [assumption|].
        unfold current_rows_of.
        rewrite Es, Est, Z.eqb_refl, Eo, Lo, Lc, S. exact Hr. }
      rewrite map_map. apply in_map_iff.
      exists (current_key_of r,
              filter (fun r' => if current_key_dec (current_key_of r')
                                                   (current_key_of r)
                                then true else false)
                     (current_rows d s_id)).
      split.
      * apply in_current_attendance_of in Hr. destruct r as [x ar].
        simpl in Hr. subst x. exact Eo.
      * unfold group_by. apply in_map_iff. eexists. split; [reflexivity|].
        apply nodup_In. now apply in_map.
  - unfold group_by. rewrite !map_map.
    apply NoDup_map_NoDup_ForallPairs; [|apply NoDup_nodup].
    intros k k' Hk Hk' E.
    apply nodup_In in Hk, Hk'.
    apply in_map_iff in Hk as (r & <- & Hr), Hk' as (r' & <- & Hr').
    apply (current_key_offering d s_id r r' H Hr Hr'). exact E.
Qed.

Lemma current_attendance_figures_witness :
  schema campus
  /\ exists rows,
      get_student_current_attendance campus 1 = Ok rows
      /\ map CurrentAttendance.course_id rows = [1000]
      /\ forall row, In row rows ->
           CurrentAttendance.total_classes row = 10
           /\ CurrentAttendance.attended_classes row = 8
           /\ CurrentAttendance.attendance_percentage row
              = Some (8000 # 100).
Proof.
  split; [exact campus_schema|].
  destruct (current_attendance_figures campus 1 campus_schema)
    as (rows & E & F & _).
  exists rows. split; [exact E|].
  assert (rows = match get_student_current_attendance campus 1 with
                 | Ok l => l
                 | Error _ => []
                 end) as R by now rewrite E.
  split; [rewrite R; reflexivity|].
  intros row Hrow. pose proof (F row Hrow) as G. cbv zeta in G.
  rewrite R in Hrow. vm_compute in Hrow. destruct Hrow as [<-|[]].
  exact G.
Defined.

(** X14. The student's view and the teacher's view agree: for a student and
    an offering, the row of [get_student_current_attendance] and the row
    of [get_course_attendance_stats] carry the same class days, the same
    attended classes and the same percentage. *)
Theorem attendance_views_agree (d : db) (s_id o_id : uuid)
        (rows1 : list attendance_stats)
        (rows2 : list CurrentAttendance.row)
        (r1 : attendance_stats) (r2 : CurrentAttendance.row) :
  schema d ->
  get_course_attendance_stats d o_id = Ok rows1 ->
  get_student_current_attendance d s_id = Ok rows2 ->
  In r1 rows1 -> student_id r1 = s_id ->
  In r2 rows2 -> CurrentAttendance.course_id r2 = o_id ->
  total_classes r1 = CurrentAttendance.total_classes r2
  /\ attended_classes r1 = CurrentAttendance.attended_classes r2
  /\ attendance_percentage r1
     = CurrentAttendance.attendance_percentage r2.
Proof.
  intros H E1 E2 H1 S1 H2 O2.
  rewrite get_course_attendance_stats_value in E1. injection E1 as <-.
  rewrite get_student_current_attendance_value in E2. injection E2 as <-.
  destruct (stats_row_fields d o_id r1 H H1) as (_ & T1 & A1 & P1).
  destruct (current_row_fields d s_id r2 H H2) as (_ & T2 & A2 & P2).
  rewrite O2 in T2, A2, P2. rewrite S1 in A1, P1.
  rewrite T1, T2, A1, A2, P1, P2. auto.
Qed.

Lemma attendance_views_agree_witness :
  exists r1 r2,
    (exists rows1, get_course_attendance_stats campus 1000 = Ok rows1
                   /\ In r1 rows1)
    /\ (exists rows2, get_student_current_attendance campus 1 = Ok rows2
                      /\ In r2 rows2)
    /\ total_classes r1 = CurrentAttendance.total_classes r2
    /\ attended_classes r1 = CurrentAttendance.attended_classes r2
    /\ attendance_percentage r1
       = CurrentAttendance.attendance_percentage r2.
Proof.
  do 2 eexists.
  split; [eexists; split; [reflexivity | left; reflexivity]|].
  split; [eexists; split; [reflexivity | left; reflexivity]|].
  eapply (attendance_views_agree campus 1 1000 _ _ _ _ campus_schema).
  - reflexivity.
  - reflexivity.
  - left. reflexivity.
  - reflexivity.
  - left. reflexivity.
  - reflexivity.
Defined.

(** ** Grade point averages stay in the range of the grade points *)

Lemma weighted_sums_bounds (hi : Q) (l : list (Z * Q)) :
  Forall (fun x => 0 < fst x /\ (0 <= snd x)%Q /\ (snd x <= hi)%Q) l ->
  (0 <= Qsum (map (fun '(cr, gp) => inject_Z cr * gp) l))%Q
  /\ (Qsum (map (fun '(cr, gp) => inject_Z cr * gp) l)
      <= hi * Qsum (map (fun '(cr, _) => inject_Z cr) l))%Q.
Proof.
  induction 1 as [|[cr gp] l (C & L & U) _ [IH1 IH2]]; simpl.
  - split; lra.
  - simpl in C, L, U.
    assert (0 <= inject_Z cr)%Q as Cq by (unfold Qle; simpl; lia).
    pose proof (Qmult_le_0_compat _ _ Cq L) as P1.
    assert (inject_Z cr * gp <= inject_Z cr * hi)%Q as P2.
    { destruct (Qeq_dec (inject_Z cr) 0) as [Z0|Z0].
      - rewrite Z0. lra.
      - apply Qmult_le_l; [|exact U]. unfold Qlt. simpl. lia. }
    split; lra.
Qed.

Lemma weighted_average_bounds (hi : Q) (l : list (Z * Q)) :
  (0 <= hi)%Q ->
  Forall (fun x => 0 < fst x /\ (0 <= snd x)%Q /\ (snd x <= hi)%Q) l ->
  (0 <= weighted_average l)%Q /\ (weighted_average l <= hi)%Q.
Proof.
  intros Hhi F. destruct (weighted_sums_bounds hi l F) as [N1 N2].
  destruct l as [|x l].
  { split; [discriminate|].
    unfold weighted_average, num_0_0, Qle in *. simpl in *. lia. }
  unfold weighted_average.
  assert (0 < Qsum (map (fun '(cr, _) => inject_Z cr) (x :: l)))%Q as D.
  { apply Qsum_credits_positive; [discriminate|].
    eapply Forall_impl; [|exact F]. now intros ? [? _]. }
  split.
  - apply Qle_shift_div_l; [exact D|]. now rewrite Qmult_0_l.
  - apply Qle_shift_div_r; [exact D|]. exact N2.
Qed.

Lemma in_graded_credits (d : db) (scope : course_offering -> bool)
      (s_id : uuid) (cr : Z) (gp : Q) :
  In (cr, gp) (graded_credits d scope s_id) ->
  exists e, In e (enrollments d) /\ e_student_id e = s_id
            /\ e_status e = completed /\ e_grade_point e = Some gp.
Proof.
  unfold graded_credits. intros H.
  apply in_flat_map in H as (e & He & H).
  destruct (Z.eqb_spec (e_student_id e) s_id) as [Es|]; [|contradiction].
  unfold graded_credit in H.
  destruct (e_status e) eqn:St; try contradiction.
  destruct (e_grade_point e) as [g|] eqn:G; [|contradiction].
  destruct (lookup_offering d (e_offering_id e)) as [co|];
    [|contradiction].
  destruct (scope co); [|contradiction].
  destruct (lookup_course d (co_course_id co)) as [c|]; [|contradiction].
  destruct (c_credits c) as [k|]; [|contradiction].
  destruct H as [[= <- <-]|[]]. exists e. auto.
Qed.

(** A value between 0 and a multiple of 0.01 stays there when it is
    rounded to two decimals or more. *)
Lemma round_var_below_cents (x : Q) (r f : Z) :
  2 <= r -> (0 <= x)%Q -> (x <= inject_Z f / 100)%Q ->
  (round_var x r <= inject_Z f / 100)%Q.
Proof.
  intros R X U.
  apply Qle_trans with (round_var (inject_Z f / 100) r).
  - now apply round_var_monotone.
  - apply Qle_lteq. right.
    apply (round_var_exact _ r (f * 10 ^ (r - 2))); [lra|].
    rewrite scale_factor_power by lia.
    replace r with (2 + (r - 2)) at 1 by lia.
    rewrite Z.pow_add_r by lia.
    change (10 ^ 2) with 100. rewrite !inject_Z_mult.
    change (inject_Z 100) with 100%Q. field.
Qed.

Lemma rounded_average_bounds (l : list (Z * Q)) (hi q : Q) :
  (0 <= hi)%Q ->
  Forall (fun x => 0 < fst x /\ (0 <= snd x)%Q /\ (snd x <= hi)%Q) l ->
  Forall (fun x => decimal_4_2 (snd x) = true) l ->
  (l = [] -> q = num_0_0) ->
  (l <> [] -> q = round_var (weighted_average l) (gpa_scale l)) ->
  (0 <= q)%Q /\ (q <= hi)%Q.
Proof.
  intros Hhi F T Z0 R. destruct l as [|x l].
  { rewrite (Z0 eq_refl). split; [discriminate|].
    unfold num_0_0, Qle in *. simpl in *. lia. }
  rewrite (R ltac:(discriminate)).
  set (f := Qfloor (hi * 100)).
  assert (inject_Z f / 100 <= hi)%Q as Fh.
  { apply Qle_shift_div_r; [reflexivity|]. apply Qfloor_le. }
  assert (0 <= inject_Z f / 100)%Q as F0.
  { apply Qle_shift_div_l; [reflexivity|]. rewrite Qmult_0_l.
    change 0%Q with (inject_Z (Qfloor 0)). rewrite <- Zle_Qle.
    apply Qfloor_resp_le. lra. }
  assert (Forall (fun x => 0 < fst x /\ (0 <= snd x)%Q
                           /\ (snd x <= inject_Z f / 100)%Q) (x :: l))
    as F'.
  { rewrite Forall_forall in F, T |- *. intros y Hy.
    destruct (F y Hy) as (C & L & U). split; [exact C|].
    split; [exact L|].
    destruct (decimal_4_2_spec _ (T y Hy)) as [[k K] _].
    assert (k <= f) as Kf.
    { rewrite <- (Qfloor_Z k). apply Qfloor_resp_le.
      rewrite <- K. apply Qmult_le_compat_r; [exact U | discriminate]. }
    rewrite Zle_Qle in Kf.
    apply Qle_shift_div_l; [reflexivity|]. now rewrite K. }
  destruct (weighted_average_bounds _ _ F0 F') as [A0 A1].
  pose proof (select_div_scale_bounds
                (weighted_points (x :: l)) (total_credits (x :: l)) 2 0
                ltac:(unfold NUMERIC_MAX_DISPLAY_SCALE; lia)) as [S _].
  fold (gpa_scale (x :: l)) in S.
  split.
  - now apply round_var_nonneg.
  - apply Qle_trans with (inject_Z f / 100)%Q; [|exact Fh].
    now apply round_var_below_cents.
Qed.

(** X15. When the grade points of the student's completed enrollments lie
    between 0 and [hi], so do the SGPA of every semester and the CGPA at
    every cutoff: with grade points on the 0 to 10 scale the result fits
    the [CHECK] of [students.cgpa].  The grade points are what the type
    of their column admits: the division rounds to two decimals or
    more, which leaves them in place. *)
Theorem gpa_within_grade_range (d : db) (s_id : uuid) (hi : Q) :
  schema d ->
  grade_points_typed d ->
  (0 <= hi)%Q ->
  (forall e gp, In e (enrollments d) -> e_student_id e = s_id ->
                e_status e = completed -> e_grade_point e = Some gp ->
                (0 <= gp)%Q /\ (gp <= hi)%Q) ->
  (forall sem_id, exists q, get_student_sgpa d s_id sem_id = Ok q
                            /\ (0 <= q)%Q /\ (q <= hi)%Q)
  /\ (forall cutoff, exists q, get_student_cgpa d s_id cutoff = Ok q
                               /\ (0 <= q)%Q /\ (q <= hi)%Q).
Proof.
  intros H T Hhi G.
  assert (forall rows scope,
             credit_points rows = graded_credits d scope s_id ->
             Forall (fun r => courses_check (fst r) = true) rows ->
             Forall (fun x => 0 < fst x /\ (0 <= snd x)%Q
                              /\ (snd x <= hi)%Q)
                    (graded_credits d scope s_id)) as B.
  { intros rows scope E C.
    pose proof (credit_points_positive rows C) as P. rewrite E in P.
    rewrite Forall_forall in P |- *. intros [cr gp] Hx.
    split; [now apply (P (cr, gp))|].
    destruct (in_graded_credits d scope s_id cr gp Hx)
      as (e & He & Es & St & Eg).
    exact (G e gp He Es St Eg). }
  split.
  - intros sem_id. rewrite get_student_sgpa_rows.
    destruct (sgpa_rows_graded d s_id sem_id H) as [Gr C].
    destruct (select_gpa_value _ Gr C) as (q & E & Z0 & R).
    exists q. split; [exact E|].
    rewrite sgpa_credit_points in Z0, R by assumption.
    apply (rounded_average_bounds _ hi q Hhi
             (B _ _ (sgpa_credit_points d s_id _ H) C)
             (graded_credits_typed d _ s_id T) Z0 R).
  - intros cutoff. rewrite get_student_cgpa_rows.
    destruct (cgpa_rows_graded d s_id cutoff H) as [Gr C].
    destruct (select_gpa_value _ Gr C) as (q & E & Z0 & R).
    exists q. split; [exact E|].
    rewrite cgpa_credit_points in Z0, R by assumption.
    apply (rounded_average_bounds _ hi q Hhi
             (B _ _ (cgpa_credit_points d s_id _ H) C)
             (graded_credits_typed d _ s_id T) Z0 R).
Qed.

Lemma gpa_within_grade_range_witness :
  schema campus
  /\ grade_points_typed campus
  /\ exists q, get_student_cgpa campus 5 None = Ok q
               /\ (0 <= q)%Q /\ (q <= 10)%Q.
Proof.
  split; [exact campus_schema|]. split; [reflexivity|].
  refine (proj2 (gpa_within_grade_range campus 5 10 campus_schema
                                        eq_refl _ _)
                None).
  - discriminate.
  - intros e gp He Es St Eg.
    simpl in He;
      repeat (destruct He as [<-|He];
              [simpl in *; try discriminate;
               injection Eg as <-; split; discriminate|]);
      contradiction.
Defined.

(** ** One semester only *)

Lemma flat_map_ext_in {A B} (f g : A -> list B) (l : list A) :
  (forall a, In a l -> f a = g a) -> flat_map f l = flat_map g l.
Proof.
  induction l as [|a l IH]; simpl; intros H; [reflexivity|].
  rewrite (H a (or_introl eq_refl)), IH by auto. reflexivity.
Qed.

Lemma lookup_offering_In (d : db) (i : uuid) (co : course_offering) :
  lookup_offering d i = Some co -> In co (course_offerings d).
Proof. intros L. now apply find_some in L. Qed.

(** X16. For a student whose completed, graded enrollments all lie in
    offerings of one semester, the SGPA of that semester is the CGPA
    without a cutoff: the two functions return the same value. *)
Theorem sgpa_is_cgpa_in_one_semester (d : db) (s_id sem_id : uuid) :
  schema d ->
  (exists s, In s (semesters d) /\ sem_semester_id s = sem_id) ->
  (forall e co, In e (enrollments d) -> e_student_id e = s_id ->
                e_status e = completed -> e_grade_point e <> None ->
                In co (course_offerings d) ->
                co_offering_id co = e_offering_id e ->
                co_semester_id co = Some sem_id) ->
  get_student_sgpa d s_id sem_id = get_student_cgpa d s_id None.
Proof.
  intros H (s & Hs & Is) A.
  rewrite get_student_sgpa_rows, get_student_cgpa_rows. f_equal.
  rewrite sgpa_rows_by_enrollment, cgpa_rows_by_enrollment by assumption.
  apply flat_map_ext_in. intros e He.
  destruct (lookup_offering d (e_offering_id e)) as [co|] eqn:Lo;
    [|reflexivity].
  pose proof (lookup_offering_In d _ co Lo) as Hco.
  pose proof (lookup_offering_id d _ co Lo) as Ico.
  set (w := (e_student_id e =? s_id)
            && enrollment_status_eqb (e_status e) completed
            && holds (is_not_null (e_grade_point e))).
  assert (forall c, sgpa_where s_id sem_id (e, co, c)
                    = w && holds (sql_cmp Z.eqb (co_semester_id co)
                                          (Some sem_id))) as Wl.
  { intros c. unfold sgpa_where.
    now rewrite !holds_and, !holds_lit. }
  assert (forall s' c, cgpa_where s_id None (e, co, s', c) = w) as Wr.
  { intros s' c. unfold cgpa_where.
    rewrite !holds_and, !holds_or, !holds_lit. simpl.
    now rewrite andb_true_r. }
  destruct (lookup_course d (co_course_id co)) as [c|].
  - rewrite Wl. destruct w eqn:W.
    + apply andb_true_iff in W as [W W3].
      apply andb_true_iff in W as [W1 W2].
      apply Z.eqb_eq in W1. apply enrollment_status_eqb_eq in W2.
      assert (co_semester_id co = Some sem_id) as Eq.
      { apply (A e co); auto.
        intros N. rewrite N in W3. discriminate. }
      rewrite Eq. subst sem_id.
      rewrite (lookup_semester_In d s H Hs), Wr, holds_cmp_some.
      now rewrite Z.eqb_refl.
    + cbn [andb]. destruct (co_semester_id co) as [i|]; [|reflexivity].
      destruct (lookup_semester d i); [|reflexivity].
      now rewrite Wr.
  - destruct (co_semester_id co) as [i|]; [|reflexivity].
    now destruct (lookup_semester d i).
Qed.

Lemma sgpa_is_cgpa_in_one_semester_witness :
  schema campus_one_semester
  /\ get_student_sgpa campus_one_semester 5 9
     = Ok (84285714285714286 # 10000000000000000)
  /\ get_student_sgpa campus_one_semester 5 9
     = get_student_cgpa campus_one_semester 5 None.
Proof.
  assert (schema campus_one_semester) as S by (constructor; reflexivity).
  split; [exact S|]. split; [reflexivity|].
  apply (sgpa_is_cgpa_in_one_semester campus_one_semester 5 9 S).
  - eexists. split; [left; reflexivity | reflexivity].
  - intros e co He Es St G Hco Eo.
    simpl in He;
      repeat (destruct He as [<-|He];
              [simpl in *; try discriminate; try congruence;
               repeat (destruct Hco as [<-|Hco];
                       [simpl in *; try discriminate; try reflexivity|]);
               contradiction|]);
      contradiction.
Defined.

(** ** The current courses of a student *)

Lemma in_current_courses (d : db) (teachers : list teacher_row)
      (s_id : uuid) (r : CurrentCourses.row) :
  In r (get_student_current_courses d teachers s_id)
  <-> exists e co c t u,
        In e (enrollments d) /\ In co (course_offerings d)
        /\ In c (courses d) /\ In t teachers /\ In u (users d)
        /\ e_offering_id e = co_offering_id co
        /\ co_course_id co = c_course_id c
        /\ co_teacher_id co = t_teacher_id t
        /\ t_teacher_id t = u_user_id u
        /\ e_student_id e = s_id /\ e_status e = enrolled
        /\ in_current_scope d s_id c = true
        /\ r = {| CurrentCourses.course_id := c_course_id c;
                  CurrentCourses.course_code := c_course_code c;
                  CurrentCourses.course_name := c_course_name c;
                  CurrentCourses.teacher := u_full_name u |}.
Proof.
  unfold get_student_current_courses, current_courses_from.
  rewrite in_map_iff. split.
  - intros ([[[[e co] c] t] u] & <- & H). apply filter_In in H as [J W].
    rewrite !in_inner_join, !Z.eqb_eq in J.
    rewrite !holds_and, !holds_lit, !andb_true_iff in W.
    destruct W as [[W1 W2] W3].
    apply Z.eqb_eq in W1. apply enrollment_status_eqb_eq in W2.
    exists e, co, c, t, u. unfold in_current_scope. tauto.
  - intros (e & co & c & t & u & He & Hco & Hc & Ht & Hu
            & E1 & E2 & E3 & E4 & Es & Est & S & ->).
    exists (e, co, c, t, u). split; [reflexivity|].
    apply filter_In. split.
    + rewrite !in_inner_join, !Z.eqb_eq. tauto.
    + rewrite !holds_and, !holds_lit, !andb_true_iff.
      repeat split; [now apply Z.eqb_eq
                    | now apply enrollment_status_eqb_eq | exact S].
Qed.

Lemma lookup_offering_found (d : db) (co : course_offering) :
  schema d -> In co (course_offerings d) ->
  lookup_offering d (co_offering_id co) = Some co.
Proof.
  intros H Hco. unfold lookup_offering.
  apply find_key_In; [now apply schema_pk_course_offerings | assumption].
Qed.

Lemma lookup_course_found (d : db) (c : course) :
  schema d -> In c (courses d) ->
  lookup_course d (c_course_id c) = Some c.
Proof.
  intros H Hc. unfold lookup_course.
  apply find_key_In; [now apply schema_pk_courses | assumption].
Qed.

Lemma current_row_exists (d : db) (s_id : uuid) (e : enrollment)
      (co : course_offering) (c : course) :
  schema d -> In e (enrollments d) ->
  e_student_id e = s_id -> e_status e = enrolled ->
  lookup_offering d (e_offering_id e) = Some co ->
  lookup_course d (co_course_id co) = Some c ->
  in_current_scope d s_id c = true ->
  In (current_value d ((e_offering_id e, c_course_name c),
                       current_attendance_of d (e, co, c)))
     (map (current_value d)
          (group_by current_key_dec current_key_of (current_rows d s_id))).
Proof.
  intros H He Es Est Lo Lc S.
  destruct (current_attendance_of_nonempty d (e, co, c)) as (r & Hr).
  assert (current_rows_of d s_id e = current_attendance_of d (e, co, c))
    as Ro.
  { unfold current_rows_of.
    now rewrite Es, Est, Z.eqb_refl, Lo, Lc, S. }
  assert (In r (current_rows_of d s_id e)) as Hre by now rewrite Ro.
  assert (In r (current_rows d s_id)) as Hrows.
  { rewrite current_rows_by_enrollment by assumption.
    apply in_flat_map. now exists e. }
  assert (current_key_of r = (e_offering_id e, c_course_name c)) as K.
  { apply in_current_attendance_of in Hr. destruct r as [x ar].
    simpl in Hr. now subst x. }
  apply in_map_iff.
  exists (current_key_of r,
          filter (fun r' => if current_key_dec (current_key_of r')
                                               (current_key_of r)
                            then true else false)
                 (current_rows d s_id)).
  split.
  - rewrite (current_group d s_id e r H He Hre), Ro, K. reflexivity.
  - unfold group_by. apply in_map_iff. eexists. split; [reflexivity|].
    apply nodup_In. now apply in_map.
Qed.

(** X19. With every offering's teacher present in [teachers] and [users],
    the two views of a student's current semester list the same courses:
    a course name is in [get_student_current_courses] exactly when it is
    in [get_student_current_attendance]. *)
Theorem current_views_list_same_courses
        (d : db) (teachers : list teacher_row) (s_id : uuid)
        (rows : list CurrentAttendance.row) :
  schema d ->
  (forall co, In co (course_offerings d) ->
              exists t u, In t teachers /\ In u (users d)
                          /\ t_teacher_id t = co_teacher_id co
                          /\ u_user_id u = t_teacher_id t) ->
  get_student_current_attendance d s_id = Ok rows ->
  forall name,
    In name (map CurrentCourses.course_name
                 (get_student_current_courses d teachers s_id))
    <-> In name (map CurrentAttendance.course_name rows).
Proof.
  intros H FK E name.
  rewrite get_student_current_attendance_value in E. injection E as <-.
  rewrite !in_map_iff. split.
  - intros (r & <- & Hr).
    apply in_current_courses in Hr
        as (e & co & c & t & u & He & Hco & Hc & _ & _
            & E1 & E2 & _ & _ & Es & Est & S & ->).
    exists (current_value d ((e_offering_id e, c_course_name c),
                             current_attendance_of d (e, co, c))).
    split; [reflexivity|].
    apply current_row_exists; try assumption.
    + rewrite E1. now apply lookup_offering_found.
    + rewrite E2. now apply lookup_course_found.
  - intros (row & <- & Hrow).
    destruct (current_row_inv d s_id row H Hrow)
      as (e & co & c & He & Es & Est & Lo & Lc & S & ->).
    pose proof (lookup_offering_In d _ co Lo) as Hco.
    destruct (FK co Hco) as (t & u & Ht & Hu & Et & Eu).
    exists {| CurrentCourses.course_id := c_course_id c;
              CurrentCourses.course_code := c_course_code c;
              CurrentCourses.course_name := c_course_name c;
              CurrentCourses.teacher := u_full_name u |}.
    split; [reflexivity|].
    apply in_current_courses. exists e, co, c, t, u.
    pose proof Lc as Lc'. apply find_some in Lc' as [Hc Ec].
    apply Z.eqb_eq in Ec.
    repeat split; try assumption; try congruence.
    symmetry. now apply (lookup_offering_id d).
Qed.

Lemma current_views_list_same_courses_witness :
  let teachers := [ {| t_teacher_id := 2 |}; {| t_teacher_id := 3 |} ] in
  map CurrentCourses.course_name
      (get_student_current_courses campus teachers 1)
  = ["Operating Systems"%string]
  /\ exists rows,
      get_student_current_attendance campus 1 = Ok rows
      /\ forall name,
          In name (map CurrentCourses.course_name
                       (get_student_current_courses campus teachers 1))
          <-> In name (map CurrentAttendance.course_name rows).
Proof.
  cbv zeta. split; [reflexivity|].
  eexists. split; [reflexivity|].
  apply (current_views_list_same_courses campus _ 1 _ campus_schema).
  - intros co Hco.
    simpl in Hco;
      repeat (destruct Hco as [<-|Hco];
              [first [ exists {| t_teacher_id := 2 |},
                         {| u_user_id := 2; u_full_name := "Meera";
                            u_role := teacher |};
                       split; [left; reflexivity|];
                       split; [do 2 right; left; reflexivity|];
                       split; reflexivity
                     | exists {| t_teacher_id := 3 |},
                         {| u_user_id := 3; u_full_name := "Vikram";
                            u_role := teacher |};
                       split; [right; left; reflexivity|];
                       split; [do 3 right; left; reflexivity|];
                       split; reflexivity ]|]);
      contradiction.
  - reflexivity.
Defined.

(** ** Full attendance *)

Lemma percentage_of_positive (p n : Z) :
  0 < n ->
  percentage_of p n = Z.quot (p * 10000) n # 100.
Proof.
  intros N. unfold percentage_of.
  destruct (Z.eqb_spec n 0); [lia|].
  rewrite (sql_trunc_2_proper _ ((p * 100) # Z.to_pos n)).
  - rewrite sql_trunc_2. cbn [Qnum Qden].
    rewrite Z2Pos.id by lia. f_equal. f_equal. lia.
  - rewrite (Qmake_Qdiv (p * 100) (Z.to_pos n)), Z2Pos.id by lia.
    rewrite inject_Z_mult. field.
    intros E. unfold Qeq in E. simpl in E. lia.
Qed.

Lemma percentage_of_full (p n : Z) :
  0 <= p <= n -> 0 < n ->
  percentage_of p n = 10000 # 100 <-> p = n.
Proof.
  intros B N. rewrite percentage_of_positive by assumption. split.
  - intros [= E]. rewrite Z.quot_div_nonneg in E by lia.
    pose proof (Z.mul_div_le (p * 10000) n N) as L.
    rewrite E in L. lia.
  - intros ->. f_equal. rewrite Z.quot_div_nonneg by lia.
    rewrite Z.mul_comm. apply Z.div_mul. lia.
Qed.

(** X20. The class days of an offering count for every student: a row of
    [get_course_attendance_stats] shows 100.00 exactly when its student
    is present on every class day of the offering, so a day without a
    record for the student counts as a day missed. *)
Theorem full_attendance_iff_always_present (d : db) (o_id : uuid) :
  schema d ->
  0 < get_total_class_days d o_id ->
  exists rows,
    get_course_attendance_stats d o_id = Ok rows
    /\ forall r, In r rows ->
         (attendance_percentage r = Some (10000 # 100)
          <-> present_count d (student_id r) o_id
              = get_total_class_days d o_id).
Proof.
  intros H N. eexists.
  split; [apply get_course_attendance_stats_value|].
  intros r Hr.
  destruct (stats_row_fields d o_id r H Hr) as (_ & _ & _ & P).
  pose proof (present_count_le_total d (student_id r) o_id H) as B.
  rewrite P. rewrite <- (percentage_of_full _ _ B N).
  split; [now intros [= ->] | now intros ->].
Qed.

Lemma full_attendance_iff_always_present_witness :
  schema campus
  /\ 0 < get_total_class_days campus 1000
  /\ exists rows,
      get_course_attendance_stats campus 1000 = Ok rows
      /\ forall r, In r rows ->
           (attendance_percentage r = Some (10000 # 100)
            <-> present_count campus (student_id r) 1000
                = get_total_class_days campus 1000).
Proof.
  split; [exact campus_schema|]. split; [reflexivity|].
  apply (full_attendance_iff_always_present campus 1000 campus_schema).
  reflexivity.
Defined.
